(** * Course-catalog scraper: record extraction engine

    A shallow embedding of the pure core of the scraper
    ([main.py], [scrape.py], [reprocess.py], [modules/util.py],
    [models/courses.py]) together with the properties of the header parser,
    the block segmenter, the field classifier, the text normaliser and the
    page loop.

    Python values are modelled as follows.
    - [str] is a list of Unicode code points ([N]).
    - A raised exception is the left summand of [result]; the exception
      class is kept ([IndexError], [ValueError], ...).
    - The [dict] filled by [main.py] is a [gmap] keyed by [str]; the list
      filled by [scrape.py] is a [list].
    - The parts of a BeautifulSoup element that the code reads are fields
      of a record ([td], [node]). *)

From Stdlib Require Import ZArith NArith List Lia Bool String Ascii.
From stdpp Require Import base option list gmap sorting pretty.

Set Default Proof Using "Type".
Local Open Scope Z_scope.

(** ** Python exceptions and fallible computations *)

Inductive exn : Type :=
| IndexError
| ValueError
| KeyError
| TypeError
| AttributeError.

Definition result (A : Type) : Type := exn + A.

Definition Ok {A} (a : A) : result A := inr a.
Definition Raise {A} (e : exn) : result A := inl e.

Definition bind {A B} (m : result A) (k : A -> result B) : result B :=
  match m with
  | inl e => inl e
  | inr a => k a
  end.

Declare Scope py_scope.
Delimit Scope py_scope with py.
Notation "'let*' x ':=' m 'in' k" := (bind m (fun x => k))
  (at level 10, x name, m at level 100, k at level 200) : py_scope.
Notation "'let*' ' p ':=' m 'in' k" :=
  (bind m (fun x => match x with p => k end))
  (at level 10, p pattern, m at level 100, k at level 200) : py_scope.
Local Open Scope py_scope.

Definition is_ok {A} (r : result A) : bool :=
  match r with inr _ => true | inl _ => false end.

(** ** Python strings *)

Module Py.

(** A string is the list of its code points. *)
Definition str : Type := list N.

(** An ASCII literal of the source, as a [str]. *)
Fixpoint lit (s : string) : str :=
  match s with
  | EmptyString => []
  | String a s' => N_of_ascii a :: lit s'
  end.

Fixpoint str_eqb (s t : str) : bool :=
  match s, t with
  | [], [] => true
  | c :: s', d :: t' => (c =? d)%N && str_eqb s' t'
  | _, _ => false
  end.

(** [s.startswith(p)] *)
Fixpoint startswith (s p : str) {struct p} : bool :=
  match p with
  | [] => true
  | c :: p' =>
      match s with
      | [] => false
      | d :: s' => (d =? c)%N && startswith s' p'
      end
  end.

(** [sub in s] *)
Fixpoint contains (s sub : str) : bool :=
  startswith s sub ||
  match s with
  | [] => false
  | _ :: s' => contains s' sub
  end.

(** [str.isspace] on one code point: the code points CPython treats as
    whitespace ([_PyUnicode_IsWhitespace]). *)
Definition isspace (c : N) : bool :=
  ((9 <=? c) && (c <=? 13) || (28 <=? c) && (c <=? 32)
   || (c =? 133) || (c =? 160) || (c =? 5760)
   || (8192 <=? c) && (c <=? 8202)
   || (c =? 8232) || (c =? 8233) || (c =? 8239) || (c =? 8287)
   || (c =? 12288))%N.

Fixpoint dropwhile (p : N -> bool) (s : str) : str :=
  match s with
  | [] => []
  | c :: s' => if p c then dropwhile p s' else s
  end.

Definition lstrip (s : str) : str := dropwhile isspace s.
Definition rstrip (s : str) : str := rev (dropwhile isspace (rev s)).

(** [s.strip()] *)
Definition strip (s : str) : str := rstrip (lstrip s).

(** First occurrence of a separator: the text before it and the text after
    it. *)
Fixpoint partition (sep s : str) : option (str * str) :=
  match s with
  | [] => None
  | c :: s' =>
      if startswith s sep then Some ([], skipn (length sep) s)
      else match partition sep s' with
           | Some (a, b) => Some (c :: a, b)
           | None => None
           end
  end.

(** [s.split(sep, maxsplit=1)] for a non-empty [sep]. *)
Definition split1 (sep s : str) : list str :=
  match partition sep s with
  | Some (a, b) => [a; b]
  | None => [s]
  end.

(** [s.split(sep)] for a non-empty [sep]: [skip] counts the characters of
    a separator occurrence still to be passed over. *)
Fixpoint split_go (sep : str) (skip : nat) (s : str) : list str :=
  match s with
  | [] => [[]]
  | c :: s' =>
      match skip with
      | S k => split_go sep k s'
      | O =>
          if startswith s sep then [] :: split_go sep (length sep - 1) s'
          else match split_go sep O s' with
               | h :: t => (c :: h) :: t
               | [] => [[c]]
               end
      end
  end.

Definition split (sep s : str) : list str := split_go sep O s.

(** [s.rfind(c)] for a one-character [c]: the last index of [c], or -1. *)
Fixpoint rfind (s : str) (c : N) : Z :=
  match s with
  | [] => -1
  | d :: s' =>
      let r := rfind s' c in
      if 0 <=? r then r + 1 else if (d =? c)%N then 0 else -1
  end.

(** A slice bound, as Python normalises it: a negative index counts from the
    end, and the result is clamped to [0, len]. *)
Definition norm_index (len i : Z) : Z :=
  let j := if i <? 0 then i + len else i in
  Z.max 0 (Z.min len j).

(** [s[lo:hi]] *)
Definition slice (s : str) (lo hi : Z) : str :=
  let n := Z.of_nat (length s) in
  let a := norm_index n lo in
  let b := norm_index n hi in
  firstn (Z.to_nat (b - a)) (skipn (Z.to_nat a) s).

(** [l[i]] for a non-negative literal index [i]. *)
Definition index {A} (l : list A) (i : nat) : result A :=
  match nth_error l i with
  | Some x => Ok x
  | None => Raise IndexError
  end.

Definition nonempty (s : str) : bool :=
  match s with [] => false | _ :: _ => true end.

(** The whitespace that [int] ignores around a number: the whitespace of
    [str.isspace] but for the four separators U+001C to U+001F. *)
Definition int_isspace (c : N) : bool :=
  isspace c && negb ((28 <=? c)%N && (c <=? 31)%N).

Definition int_strip (s : str) : str :=
  rev (dropwhile int_isspace (rev (dropwhile int_isspace s))).

(** *** The interpreter's character database

    [str.lower], [str.isdigit], [int] and [unicodedata.name] consult the
    Unicode tables of the interpreter.  Their behaviour on ASCII is written
    out below; the tables for the code points above 127 are the fields of
    this class, so that every statement holds for whatever tables the
    interpreter ships. *)
Class Unicode := {
  (** [s.lower()] *)
  lower : str -> str;
  (** [c.isdigit()] for a code point above 127 *)
  unicode_isdigit : N -> bool;
  (** the digit value [int] gives a code point above 127 of category Nd *)
  unicode_decimal : N -> option Z;
  (** [unicodedata.name(c)], when the code point has a name *)
  unicode_name : N -> option str;
  (** [sys.get_int_max_str_digits()]: the longest digit string [int]
      converts (4300 unless configured otherwise) *)
  int_max_str_digits : nat;
}.

Section WithUnicode.
Context `{Unicode}.

(** [c.isdigit()] *)
Definition isdigit (c : N) : bool :=
  if (c <? 128)%N then (48 <=? c)%N && (c <=? 57)%N else unicode_isdigit c.

Definition decimal_value (c : N) : option Z :=
  if (c <? 128)%N then
    if (48 <=? c)%N && (c <=? 57)%N then Some (Z.of_N c - 48) else None
  else unicode_decimal c.

(** The digits of an integer literal: decimal digits, with single
    underscores allowed between two digits.  [digits] counts the digits
    read so far. *)
Fixpoint int_digits (acc : Z) (digits : nat) (after_digit : bool) (s : str)
  : option Z :=
  match s with
  | [] =>
      if after_digit && (digits <=? int_max_str_digits)%nat
      then Some acc else None
  | c :: s' =>
      if (c =? 95)%N then
        if after_digit then int_digits acc digits false s' else None
      else
        match decimal_value c with
        | Some d => int_digits (10 * acc + d) (S digits) true s'
        | None => None
        end
  end.

(** [int(s)] in base 10: surrounding whitespace is ignored, one sign is
    allowed, and a number of more than [int_max_str_digits] digits is
    refused.  Every failure is a [ValueError]. *)
Definition int (s : str) : result Z :=
  let body :=
    match int_strip s with
    | [] => None
    | c :: t =>
        if (c =? 45)%N then Z.opp <$> int_digits 0 0 false t
        else if (c =? 43)%N then int_digits 0 0 false t
        else int_digits 0 0 false (c :: t)
    end in
  match body with
  | Some z => Ok z
  | None => Raise ValueError
  end.

End WithUnicode.

(** [str(n)] for an integer [n]: its decimal notation. *)
Definition str_of_int (n : Z) : str := lit (pretty n).

End Py.

Import Py.
Arguments lit _%_string.

(** ** modules/util.py *)

Module Util.

(** The items of the [REPLACE_CHAR_MAP] literal, in source order. *)
Definition REPLACE_CHAR_ITEMS : list (N * str) :=
  [ (160%N, lit " ");     (* NO-BREAK SPACE *)
    (169%N, lit "(c)");   (* COPYRIGHT SIGN *)
    (174%N, lit "(r)");   (* REGISTERED SIGN *)
    (191%N, lit "?");     (* INVERTED QUESTION MARK *)
    (193%N, lit "A");
    (205%N, lit "I");
    (233%N, lit "e");
    (241%N, lit "n");
    (8211%N, lit "-");    (* EN DASH *)
    (8217%N, lit "'");    (* RIGHT SINGLE QUOTE *)
    (8220%N, [34%N]);     (* LEFT DOUBLE QUOTE, to the ASCII double quote *)
    (8221%N, [34%N]) ].   (* RIGHT DOUBLE QUOTE, to the ASCII double quote *)

(** [REPLACE_CHAR_MAP] *)
Definition REPLACE_CHAR_MAP : gmap N str := list_to_map REPLACE_CHAR_ITEMS.

(** [text.translate(TRANSLATION_TABLE)] *)
Definition translate (text : str) : str :=
  flat_map (fun c => default [c] (REPLACE_CHAR_MAP !! c)) text.

(** One printed line of [clean_text]: the heading, or the report of one
    character as code point, glyph and name. *)
Record diagnostic := {
  codepoint : N;
  glyph : N;
  name : str;
}.

Inductive line :=
| Heading
| Unknown (d : diagnostic).

(** [ord(char) > 127 and char not in REPLACE_CHAR_MAP] *)
Definition is_unknown (c : N) : bool :=
  (127 <? c)%N && bool_decide (REPLACE_CHAR_MAP !! c = None).

Section WithUnicode.
Context `{Unicode}.

(** The set built by the first loop of [clean_text]. *)
Definition unknown_chars (text : str) : gset N :=
  list_to_set (filter (fun c => is_unknown c = true) text).

Definition report (c : N) : diagnostic :=
  {| codepoint := c;
     glyph := c;
     name := default (lit "<unknown>") (unicode_name c) |}.

(** What [clean_text] prints. *)
Definition clean_text_printed (text : str) : list line :=
  let unknown := unknown_chars text in
  if bool_decide (unknown = ∅) then []
  else Heading :: map (fun c => Unknown (report c))
                      (merge_sort N.le (elements unknown)).

(** [clean_text]: the printed lines and the returned text. *)
Definition clean_text (text : str) : list line * str :=
  (clean_text_printed text, translate text).

End WithUnicode.

End Util.

(** ** models/courses.py *)

Module Models.

Record RawCourse := {
  raw_course_id : Z;
  raw_department : str;
  raw_header : str;
  raw_blocks : list str;
}.

Record ProcessedCourse := {
  pc_course_id : Z;
  pc_department : str;
  pc_course_level : Z;
  pc_title : str;
  pc_description : str;
  pc_course_code : str;
  pc_units : str;
  pc_prerequisites : str;
  pc_grad_credit : bool;
  pc_available_online : bool;
  pc_requires_dept_consent : bool;
  pc_typically_offered : str;
}.

Definition set_prerequisites (v : str) (pc : ProcessedCourse) :=
  {| pc_course_id := pc_course_id pc;
     pc_department := pc_department pc;
     pc_course_level := pc_course_level pc;
     pc_title := pc_title pc;
     pc_description := pc_description pc;
     pc_course_code := pc_course_code pc;
     pc_units := pc_units pc;
     pc_prerequisites := v;
     pc_grad_credit := pc_grad_credit pc;
     pc_available_online := pc_available_online pc;
     pc_requires_dept_consent := pc_requires_dept_consent pc;
     pc_typically_offered := pc_typically_offered pc |}.

Definition set_grad_credit (v : bool) (pc : ProcessedCourse) :=
  {| pc_course_id := pc_course_id pc;
     pc_department := pc_department pc;
     pc_course_level := pc_course_level pc;
     pc_title := pc_title pc;
     pc_description := pc_description pc;
     pc_course_code := pc_course_code pc;
     pc_units := pc_units pc;
     pc_prerequisites := pc_prerequisites pc;
     pc_grad_credit := v;
     pc_available_online := pc_available_online pc;
     pc_requires_dept_consent := pc_requires_dept_consent pc;
     pc_typically_offered := pc_typically_offered pc |}.

Definition set_available_online (v : bool) (pc : ProcessedCourse) :=
  {| pc_course_id := pc_course_id pc;
     pc_department := pc_department pc;
     pc_course_level := pc_course_level pc;
     pc_title := pc_title pc;
     pc_description := pc_description pc;
     pc_course_code := pc_course_code pc;
     pc_units := pc_units pc;
     pc_prerequisites := pc_prerequisites pc;
     pc_grad_credit := pc_grad_credit pc;
     pc_available_online := v;
     pc_requires_dept_consent := pc_requires_dept_consent pc;
     pc_typically_offered := pc_typically_offered pc |}.

Definition set_requires_dept_consent (v : bool) (pc : ProcessedCourse) :=
  {| pc_course_id := pc_course_id pc;
     pc_department := pc_department pc;
     pc_course_level := pc_course_level pc;
     pc_title := pc_title pc;
     pc_description := pc_description pc;
     pc_course_code := pc_course_code pc;
     pc_units := pc_units pc;
     pc_prerequisites := pc_prerequisites pc;
     pc_grad_credit := pc_grad_credit pc;
     pc_available_online := pc_available_online pc;
     pc_requires_dept_consent := v;
     pc_typically_offered := pc_typically_offered pc |}.

Definition set_typically_offered (v : str) (pc : ProcessedCourse) :=
  {| pc_course_id := pc_course_id pc;
     pc_department := pc_department pc;
     pc_course_level := pc_course_level pc;
     pc_title := pc_title pc;
     pc_description := pc_description pc;
     pc_course_code := pc_course_code pc;
     pc_units := pc_units pc;
     pc_prerequisites := pc_prerequisites pc;
     pc_grad_credit := pc_grad_credit pc;
     pc_available_online := pc_available_online pc;
     pc_requires_dept_consent := pc_requires_dept_consent pc;
     pc_typically_offered := v |}.

End Models.

(** ** The page elements read by the scraper *)

Module Soup.

(** A sibling node after the separator: a [br] tag, or any other node,
    of which the code reads only [.text].  The [while sibling] loop runs to
    the end of the sibling chain ([next_sibling] is [None] there; the parser
    produces no empty text node, which would stop it earlier). *)
Inductive node :=
| Br
| Other (text : str).

(** A table cell, by what the code asks of it. *)
Record td := {
  (** [.find("p").find("strong").text], when both elements are found *)
  p_strong : option str;
  (** [.find("h3").text], when an [h3] is found *)
  h3_text : option str;
  (** the nodes after [.find("h3").find_next_sibling("hr")], when an [hr]
      is found *)
  hr_next_siblings : option (list node);
  (** [.find("a")] and, when an [a] is found, its [href] attribute *)
  a_href : option (option str);
}.

(** A table row: [.find_all("td")]. *)
Record tr := { tds : list td }.

End Soup.

(** ** Statements shared by main.py, scrape.py and reprocess.py *)

Module Shared.
Import Soup.

(** The header statements of [get_course_info] ([main.py], lines 85 to 93)
    and of [reprocess_course] ([reprocess.py], lines 15 to 23): course code,
    title and units. *)
Definition parse_header (header : str) : result (str * str * str) :=
  let header_parts := split1 (lit "-") header in
  let* part0 := index header_parts 0 in
  let course_code := strip part0 in
  let* part1 := index header_parts 1 in
  let title_units := strip part1 in
  let units :=
    slice title_units (rfind title_units 40 + 1) (rfind title_units 41) in
  let title := strip (slice title_units 0 (rfind title_units 40)) in
  Ok (course_code, title, units).

(** The sibling walk of [get_course_info] ([main.py], lines 97 to 110, and
    [scrape.py], lines 72 to 85).  [clean] is what is applied to a block when
    it is appended: nothing in [main.py], [clean_text] in [scrape.py]. *)
Fixpoint walk_siblings (clean : str -> str) (siblings : list node)
    (blocks : list str) (current_block : str) : list str :=
  match siblings with
  | [] =>
      if nonempty (strip current_block)
      then blocks ++ [clean (strip current_block)]
      else blocks
  | Br :: rest =>
      if nonempty (strip current_block)
      then walk_siblings clean rest
             (blocks ++ [clean (strip current_block)]) []
      else walk_siblings clean rest blocks current_block
  | Other t :: rest =>
      let text := strip t in
      if nonempty text
      then walk_siblings clean rest blocks (current_block ++ 32%N :: text)
      else walk_siblings clean rest blocks current_block
  end.

Definition segment (clean : str -> str) (siblings : list node) : list str :=
  walk_siblings clean siblings [] [].

Section WithUnicode.
Context `{Unicode}.

(** The [for char in course_number] loop: the digits before the first
    character that is not a digit. *)
Fixpoint leading_digits (course_number : str) : str :=
  match course_number with
  | [] => []
  | char :: rest => if isdigit char then char :: leading_digits rest else []
  end.

(** The course level ([main.py], lines 147 to 154; [reprocess.py], lines 27
    to 34). *)
Definition course_level (course_code : str) : result Z :=
  let* course_number := index (split (lit " ") course_code) 1 in
  int (leading_digits course_number).

(** [get_course_id] of [main.py] and [scrape.py]. *)
Definition get_course_id (unexpanded_element : td) : result Z :=
  let* a :=
    match a_href unexpanded_element with
    | Some a => Ok a
    | None => Raise TypeError
    end in
  let* href_value :=
    match a with
    | Some v => Ok v
    | None => Raise KeyError
    end in
  let* course_id := index (split (lit "coid=") href_value) 1 in
  int course_id.

End WithUnicode.

(** [loop_through_courses] of [main.py] and of [scrape.py]: the two differ
    in [get_course_info] and in the statement that stores the course, which
    are [get_info] and [store] here.  [courses] is updated in place by the
    code, so the collection is returned together with the outcome. *)
Section Loop.
Context `{Unicode} {C R : Type}.
Variable get_info : td -> Z -> str -> result R.
Variable store : C -> Z -> R -> C.

(** The body of the [for] loop on one pair of rows: the section label and
    the collection after it, or the exception it raises. *)
Definition row_body (expanded_row unexpanded_row : tr)
    (current_section : str) (courses : C) : result (str * C) :=
  if negb (length (tds expanded_row) =? 2)%nat
     || negb (length (tds unexpanded_row) =? 2)%nat
  then
    if (length (tds expanded_row) =? 1)%nat then
      match head (tds expanded_row) with
      | Some header_td =>
          match p_strong header_td with
          | Some label => Ok (strip label, courses)
          | None => Ok (current_section, courses)
          end
      | None => Ok (current_section, courses)
      end
    else Ok (current_section, courses)
  else
    let* expanded_course_element := index (tds expanded_row) 1 in
    let* unexpanded_course_element := index (tds unexpanded_row) 1 in
    let* course_id := get_course_id unexpanded_course_element in
    let* course :=
      get_info expanded_course_element course_id current_section in
    Ok (current_section, store courses course_id course).

(** [for expanded_row, unexpanded_row in zip(..., strict=True)]: the pairs
    are handed out one by one, and [ValueError] is raised when one of the
    two lists ends before the other. *)
Fixpoint loop_rows (expanded unexpanded : list tr) (current_section : str)
    (courses : C) : C * result unit :=
  match expanded, unexpanded with
  | [], [] => (courses, Ok tt)
  | expanded_row :: expanded', unexpanded_row :: unexpanded' =>
      match row_body expanded_row unexpanded_row current_section courses with
      | inr (section, courses') =>
          loop_rows expanded' unexpanded' section courses'
      | inl e => (courses, inl e)
      end
  | _, _ => (courses, Raise ValueError)
  end.

End Loop.

(** [get_courses_table]: the last of the tables of class "table_default"
    found in the page ([find_all(...)[-1]]). *)
Definition get_courses_table {T} (tables : list T) : result T :=
  match last tables with
  | Some table => Ok table
  | None => Raise IndexError
  end.

(** The [except] clause of [process_page]: the description of the failed
    task is built from the page URL, as
    [expanded_url.split('cpage=')[1].split('&')[0]], and then the exception
    is raised again. *)
Definition except_clause {A} (expanded_url : str) (e : exn) : result A :=
  let* after := index (split (lit "cpage=") expanded_url) 1 in
  let* page := index (split (lit "&") after) 0 in
  Raise e.

(** [range(1, 40)] *)
Definition page_numbers : list Z := map Z.of_nat (seq 1 39).

(** The first five tests of the classification chain, the same in both
    loops. *)
Definition is_prereq (l : str) : bool :=
  contains l (lit "requisite") || startswith l (lit "prereq").
Definition is_no_grad_credit (l : str) : bool :=
  str_eqb l (lit "undergraduate course not available for graduate credit").
Definition is_grad_credit (l : str) : bool :=
  str_eqb l (lit "graduate-level")
  || str_eqb l
       (lit "400-level undergraduate course available for graduate credit").
Definition is_online (l : str) : bool :=
  str_eqb l (lit "one or more sections may be offered in any online format.").
Definition is_dept_consent (l : str) : bool :=
  str_eqb l (lit "department consent required").

(** A loop body that may raise, run over a list. *)
Fixpoint for_each {S A} (body : S -> A -> result S) (l : list A) (s : S)
  : result S :=
  match l with
  | [] => Ok s
  | x :: rest => let* s' := body s x in for_each body rest s'
  end.

End Shared.

(** ** reprocess.py *)

Module Reprocess.
Import Models Shared.

Section WithUnicode.
Context `{Unicode}.

(** The body of the loop over [course["blocks"][1:]]. *)
Definition classify (pc : ProcessedCourse) (block : str)
  : result ProcessedCourse :=
  let l := lower block in
  if is_prereq l then Ok (set_prerequisites block pc)
  else if is_no_grad_credit l then Ok (set_grad_credit false pc)
  else if is_grad_credit l then Ok (set_grad_credit true pc)
  else if is_online l then Ok (set_available_online true pc)
  else if is_dept_consent l then Ok (set_requires_dept_consent true pc)
  else if startswith l (lit "typically offered") then
    let* offered := index (split (lit ":") block) 1 in
    Ok (set_typically_offered (strip offered) pc)
  else
    (* the block is printed and the record left as it is *)
    Ok pc.

Definition reprocess_course (course : RawCourse) : result ProcessedCourse :=
  let* '(course_code, title, units) := parse_header (raw_header course) in
  let* level := course_level course_code in
  let* description := index (raw_blocks course) 0 in
  let processed_course :=
    {| pc_course_id := raw_course_id course;
       pc_department := raw_department course;
       pc_course_level := level;
       pc_title := title;
       pc_description := description;
       pc_course_code := course_code;
       pc_units := units;
       pc_prerequisites := [];
       pc_grad_credit := false;
       pc_available_online := false;
       pc_requires_dept_consent := false;
       pc_typically_offered := [] |} in
  for_each classify (skipn 1 (raw_blocks course)) processed_course.

(** The loop of the script: every raw course is reprocessed and appended,
    in order; an exception ends the run before anything is written. *)
Definition reprocess_all (data : list RawCourse)
  : result (list ProcessedCourse) :=
  for_each
    (fun processed_courses course =>
       let* processed := reprocess_course course in
       Ok (processed_courses ++ [processed]))
    data [].

End WithUnicode.

End Reprocess.

(** ** main.py *)

Module Main.
Import Soup Shared.

(** The [dict] built by [get_course_info].  The keys that are always set
    are plain fields; a key that is set only by a matching block, or at the
    end, is [None] while it is absent. *)
Record course := {
  c_title : str;
  c_description : str;
  c_department : str;
  c_course_code : str;
  c_course_id : Z;
  c_units : str;
  c_prereqs : option str;
  c_grad_credit : option bool;
  c_available_online : option bool;
  c_requires_dept_consent : option bool;
  c_typically_offered : option str;
  c_course_level : option Z;
}.

Definition set_prereqs (v : str) (c : course) :=
  {| c_title := c_title c; c_description := c_description c;
     c_department := c_department c; c_course_code := c_course_code c;
     c_course_id := c_course_id c; c_units := c_units c;
     c_prereqs := Some v;
     c_grad_credit := c_grad_credit c;
     c_available_online := c_available_online c;
     c_requires_dept_consent := c_requires_dept_consent c;
     c_typically_offered := c_typically_offered c;
     c_course_level := c_course_level c |}.

Definition set_grad_credit (v : bool) (c : course) :=
  {| c_title := c_title c; c_description := c_description c;
     c_department := c_department c; c_course_code := c_course_code c;
     c_course_id := c_course_id c; c_units := c_units c;
     c_prereqs := c_prereqs c;
     c_grad_credit := Some v;
     c_available_online := c_available_online c;
     c_requires_dept_consent := c_requires_dept_consent c;
     c_typically_offered := c_typically_offered c;
     c_course_level := c_course_level c |}.

Definition set_available_online (v : bool) (c : course) :=
  {| c_title := c_title c; c_description := c_description c;
     c_department := c_department c; c_course_code := c_course_code c;
     c_course_id := c_course_id c; c_units := c_units c;
     c_prereqs := c_prereqs c;
     c_grad_credit := c_grad_credit c;
     c_available_online := Some v;
     c_requires_dept_consent := c_requires_dept_consent c;
     c_typically_offered := c_typically_offered c;
     c_course_level := c_course_level c |}.

Definition set_requires_dept_consent (v : bool) (c : course) :=
  {| c_title := c_title c; c_description := c_description c;
     c_department := c_department c; c_course_code := c_course_code c;
     c_course_id := c_course_id c; c_units := c_units c;
     c_prereqs := c_prereqs c;
     c_grad_credit := c_grad_credit c;
     c_available_online := c_available_online c;
     c_requires_dept_consent := Some v;
     c_typically_offered := c_typically_offered c;
     c_course_level := c_course_level c |}.

Definition set_typically_offered (v : str) (c : course) :=
  {| c_title := c_title c; c_description := c_description c;
     c_department := c_department c; c_course_code := c_course_code c;
     c_course_id := c_course_id c; c_units := c_units c;
     c_prereqs := c_prereqs c;
     c_grad_credit := c_grad_credit c;
     c_available_online := c_available_online c;
     c_requires_dept_consent := c_requires_dept_consent c;
     c_typically_offered := Some v;
     c_course_level := c_course_level c |}.

Definition set_course_level (v : Z) (c : course) :=
  {| c_title := c_title c; c_description := c_description c;
     c_department := c_department c; c_course_code := c_course_code c;
     c_course_id := c_course_id c; c_units := c_units c;
     c_prereqs := c_prereqs c;
     c_grad_credit := c_grad_credit c;
     c_available_online := c_available_online c;
     c_requires_dept_consent := c_requires_dept_consent c;
     c_typically_offered := c_typically_offered c;
     c_course_level := Some v |}.

(** The constants of the script and its list of page URLs. *)
Definition NAVOID : Z := 14518.
Definition CATOID : Z := 95.

Definition EXPANDED_URLS : list str :=
  map (fun i =>
         lit "https://catalog.fullerton.edu/content.php?catoid="
         ++ str_of_int CATOID ++ lit "&navoid=" ++ str_of_int NAVOID
         ++ lit "&filter[27]=-1&filter[29]=&filter[keyword]=&filter[32]=1&filter[cpage]="
         ++ str_of_int i
         ++ lit "&filter[exact_match]=1&filter[item_type]=3&filter[only_active]=1&filter[3]=1&expand=1&print#acalog_template_course_filter")
      page_numbers.

Section WithUnicode.
Context `{Unicode}.

(** The body of the loop over [blocks[1:]]. *)
Definition classify (c : course) (block : str) : result course :=
  let l := lower block in
  if is_prereq l then Ok (set_prereqs block c)
  else if is_no_grad_credit l then Ok (set_grad_credit false c)
  else if is_grad_credit l then Ok (set_grad_credit true c)
  else if is_online l then Ok (set_available_online true c)
  else if is_dept_consent l then Ok (set_requires_dept_consent true c)
  else if startswith l (lit "typically offered:") then
    let* offered := index (split (lit ":") block) 1 in
    Ok (set_typically_offered (strip offered) c)
  else
    (* the block is printed and the dict left as it is *)
    Ok c.

Definition get_course_info (expanded_element : td) (course_id : Z)
    (department : str) : result course :=
  let* h3 :=
    match h3_text expanded_element with
    | Some t => Ok t
    | None => Raise AttributeError
    end in
  let course_header := strip h3 in
  let* '(course_code, course_title, units) := parse_header course_header in
  let* siblings :=
    match hr_next_siblings expanded_element with
    | Some l => Ok l
    | None => Raise AttributeError
    end in
  let blocks := segment (fun b => b) siblings in
  let* block0 := index blocks 0 in
  let course :=
    {| c_title := strip course_title;
       c_description := strip block0;
       c_department := department;
       c_course_code := strip course_code;
       c_course_id := course_id;
       c_units := units;
       c_prereqs := None;
       c_grad_credit := None;
       c_available_online := None;
       c_requires_dept_consent := None;
       c_typically_offered := None;
       c_course_level := None |} in
  let* course := for_each classify (skipn 1 blocks) course in
  let* level := course_level course_code in
  Ok (set_course_level level course).

(** [courses[str(course_id)] = course] *)
Definition store (courses : gmap str course) (course_id : Z) (c : course)
  : gmap str course :=
  <[str_of_int course_id := c]> courses.

Definition loop_through_courses (expanded_table unexpanded_table : list tr)
    (courses : gmap str course) : gmap str course * result unit :=
  loop_rows get_course_info store expanded_table unexpanded_table []
    courses.

(** [process_page], from the parsed pages on, as one thread runs it: each
    page is given by its tables of class "table_default", a table by its
    rows.  Whatever the [try] block raises goes through the [except]
    clause.  The URL of the unexpanded page is used to fetch it only. *)
Definition process_page (expanded_url : str)
    (expanded_tables unexpanded_tables : list (list tr))
    (courses : gmap str course) : gmap str course * result unit :=
  let tried :=
    match get_courses_table expanded_tables with
    | inl e => (courses, inl e)
    | inr expanded_table =>
        match get_courses_table unexpanded_tables with
        | inl e => (courses, inl e)
        | inr unexpanded_table =>
            loop_through_courses expanded_table unexpanded_table courses
        end
    end in
  match tried.2 with
  | inr done => (tried.1, Ok done)
  | inl e => (tried.1, except_clause expanded_url e)
  end.

End WithUnicode.

End Main.

(** ** scrape.py *)

Module Scrape.
Import Soup Shared Models Util.

(** The constants of the script and its list of page URLs. *)
Definition NAVOID : Z := 14518.
Definition CATOID : Z := 95.

Definition EXPANDED_URLS : list str :=
  map (fun i =>
         lit "https://catalog.fullerton.edu/content.php?catoid="
         ++ str_of_int CATOID ++ lit "&navoid=" ++ str_of_int NAVOID
         ++ lit "&filter[27]=-1&filter[29]=&filter[keyword]=&filter[32]=1&filter[cpage]="
         ++ str_of_int i
         ++ lit "&filter[exact_match]=1&filter[item_type]=3&filter[only_active]=1&filter[3]=1&expand=1&print#acalog_template_course_filter")
      page_numbers.

Section WithUnicode.
Context `{Unicode}.

(** [get_course_info]; the lines that [clean_text] prints are not kept. *)
Definition get_course_info (expanded_element : td) (course_id : Z)
    (department : str) : result RawCourse :=
  let* h3 :=
    match h3_text expanded_element with
    | Some t => Ok t
    | None => Raise AttributeError
    end in
  let course_header := (clean_text (strip h3)).2 in
  let* siblings :=
    match hr_next_siblings expanded_element with
    | Some l => Ok l
    | None => Raise AttributeError
    end in
  let blocks := segment (fun b => (clean_text b).2) siblings in
  Ok {| raw_course_id := course_id;
        raw_department := department;
        raw_header := course_header;
        raw_blocks := blocks |}.

(** [courses.append(course)] *)
Definition store (courses : list RawCourse) (course_id : Z) (c : RawCourse)
  : list RawCourse :=
  courses ++ [c].

Definition loop_through_courses (expanded_table unexpanded_table : list tr)
    (courses : list RawCourse) : list RawCourse * result unit :=
  loop_rows get_course_info store expanded_table unexpanded_table []
    courses.

(** [process_page], as in [main.py]. *)
Definition process_page (expanded_url : str)
    (expanded_tables unexpanded_tables : list (list tr))
    (courses : list RawCourse) : list RawCourse * result unit :=
  let tried :=
    match get_courses_table expanded_tables with
    | inl e => (courses, inl e)
    | inr expanded_table =>
        match get_courses_table unexpanded_tables with
        | inl e => (courses, inl e)
        | inr unexpanded_table =>
            loop_through_courses expanded_table unexpanded_table courses
        end
    end in
  match tried.2 with
  | inr done => (tried.1, Ok done)
  | inl e => (tried.1, except_clause expanded_url e)
  end.

End WithUnicode.

End Scrape.

(** ** clean.py *)

Module Clean.

(** A course object of the catalog file, by what the script asks of it:
    the text under the key "description", when the key is there, and the
    assignment to that key.  The file is the one that [main.py] writes. *)
Class CourseObject (O : Type) := {
  description : O -> option str;
  set_description : str -> O -> O;
}.

(** The items of the script's own [REPLACE_CHAR_MAP] literal, in source
    order. *)
Definition REPLACE_CHAR_ITEMS : list (N * str) :=
  [ (160%N, lit " ");     (* NO-BREAK SPACE *)
    (169%N, lit "(c)");   (* COPYRIGHT SIGN *)
    (174%N, lit "(r)");   (* REGISTERED SIGN *)
    (191%N, lit "?");     (* INVERTED QUESTION MARK *)
    (193%N, lit "A");
    (205%N, lit "I");
    (233%N, lit "e");
    (241%N, lit "n");
    (8211%N, lit "-");    (* EN DASH *)
    (8217%N, lit "'");    (* RIGHT SINGLE QUOTE *)
    (8220%N, [34%N]);     (* LEFT DOUBLE QUOTE, to the ASCII double quote *)
    (8221%N, [34%N]) ].   (* RIGHT DOUBLE QUOTE, to the ASCII double quote *)

Definition REPLACE_CHAR_MAP : gmap N str := list_to_map REPLACE_CHAR_ITEMS.

(** [text.translate(TRANSLATION_TABLE)] *)
Definition translate (text : str) : str :=
  flat_map (fun c => default [c] (REPLACE_CHAR_MAP !! c)) text.

(** [ord(char) > 127 and char not in REPLACE_CHAR_MAP] *)
Definition is_unknown (c : N) : bool :=
  (127 <? c)%N && bool_decide (REPLACE_CHAR_MAP !! c = None).

(** One printed line of the script. *)
Inductive line :=
| Loaded (courses : nat)
| Heading
| Unknown (d : Util.diagnostic)
| Replacing
| Wrote (courses : nat).

Section WithUnicode.
Context `{Unicode} {O : Type} `{CourseObject O}.

(** The characters that the first pass adds to the set for one object. *)
Definition unknown_of (obj : O) : list N :=
  match description obj with
  | Some text => filter (fun c => is_unknown c = true) text
  | None => []
  end.

(** The set after the first pass over [data.values()]. *)
Definition unknown_chars (data : list (str * O)) : gset N :=
  list_to_set (flat_map (fun item => unknown_of item.2) data).

Definition report (c : N) : Util.diagnostic :=
  {| Util.codepoint := c;
     Util.glyph := c;
     Util.name := default (lit "<unknown>") (unicode_name c) |}.

(** The second pass on one object. *)
Definition clean_object (obj : O) : O :=
  match description obj with
  | Some text => set_description (translate text) obj
  | None => obj
  end.

(** The script, from the loaded data on: the lines printed and the data
    written, as the items of the dict in order. *)
Definition run (data : list (str * O)) : list line * list (str * O) :=
  let unknown := unknown_chars data in
  (Loaded (length data)
   :: (if bool_decide (unknown = ∅) then [] else [Heading])
   ++ map (fun c => Unknown (report c)) (merge_sort N.le (elements unknown))
   ++ [Replacing; Wrote (length data)],
   map (fun item => (item.1, clean_object item.2)) data).

End WithUnicode.

End Clean.

(** The dict that [main.py] writes for a course, as a course object of
    [clean.py]: the key "description" is always there. *)
#[export] Instance main_course_object : Clean.CourseObject Main.course :=
  {| Clean.description := fun c => Some (Main.c_description c);
     Clean.set_description := fun v c =>
       {| Main.c_title := Main.c_title c;
          Main.c_description := v;
          Main.c_department := Main.c_department c;
          Main.c_course_code := Main.c_course_code c;
          Main.c_course_id := Main.c_course_id c;
          Main.c_units := Main.c_units c;
          Main.c_prereqs := Main.c_prereqs c;
          Main.c_grad_credit := Main.c_grad_credit c;
          Main.c_available_online := Main.c_available_online c;
          Main.c_requires_dept_consent := Main.c_requires_dept_consent c;
          Main.c_typically_offered := Main.c_typically_offered c;
          Main.c_course_level := Main.c_course_level c |} |}.

(** ** Notions used to state the properties *)

Module Spec.
Import Soup Models.

(** The whitespace-separated tokens of a string (what [s.split()] returns):
    the maximal runs of characters that are not whitespace. *)
Fixpoint tokens_from (current : str) (s : str) : list str :=
  match s with
  | [] => if nonempty current then [rev current] else []
  | c :: s' =>
      if isspace c then
        if nonempty current then rev current :: tokens_from [] s'
        else tokens_from [] s'
      else tokens_from (c :: current) s'
  end.

Definition whitespace_tokens (s : str) : list str := tokens_from [] s.

(** The decimal digits 0 to 9 and the integer a run of them denotes. *)
Definition is_decimal_digit (c : N) : bool := (48 <=? c)%N && (c <=? 57)%N.

Definition decimal (ds : str) : Z :=
  fold_left (fun acc c => 10 * acc + (Z.of_N c - 48)) ds 0.

(** The visible text of the siblings of a fragment: the trimmed text of each
    node that has any, joined by single spaces. *)
Definition node_text (n : node) : str :=
  match n with
  | Br => []
  | Other t => t
  end.

Definition is_br (n : node) : bool :=
  match n with
  | Br => true
  | Other _ => false
  end.

Definition visible_texts (siblings : list node) : list str :=
  List.filter nonempty (map (fun n => strip (node_text n)) siblings).

Fixpoint join_space (texts : list str) : str :=
  match texts with
  | [] => []
  | t :: rest =>
      match rest with
      | [] => t
      | _ :: _ => t ++ 32%N :: join_space rest
      end
  end.

Definition joined_text (siblings : list node) : str :=
  join_space (visible_texts siblings).

(** The record inserted last under an identifier, in a sequence of
    insertions. *)
Fixpoint last_inserted {A} (id : Z) (insertions : list (Z * A)) : option A :=
  match insertions with
  | [] => None
  | (i, a) :: rest =>
      match last_inserted id rest with
      | Some later => Some later
      | None => if (i =? id)%Z then Some a else None
      end
  end.

(** A walk over a list of row pairs, in order: the loop body on each pair,
    until one raises. *)
Section Pairs.
Context `{Unicode} {C R : Type}.
Variable get_info : td -> Z -> str -> result R.
Variable store : C -> Z -> R -> C.

Fixpoint walk_pairs (pairs : list (tr * tr)) (current_section : str)
    (courses : C) : C * result unit :=
  match pairs with
  | [] => (courses, Ok tt)
  | (expanded_row, unexpanded_row) :: rest =>
      match Shared.row_body get_info store expanded_row unexpanded_row
              current_section courses with
      | inr (section, courses') => walk_pairs rest section courses'
      | inl e => (courses, inl e)
      end
  end.

End Pairs.

(** The five fields set by the classification loops, with a key that is
    absent from the dict of [main.py] read as the default of
    [reprocess.py]. *)
Definition fields_of_main (c : Main.course)
  : str * bool * bool * bool * str :=
  (default [] (Main.c_prereqs c),
   default false (Main.c_grad_credit c),
   default false (Main.c_available_online c),
   default false (Main.c_requires_dept_consent c),
   default [] (Main.c_typically_offered c)).

Definition fields_of_reprocess (pc : ProcessedCourse)
  : str * bool * bool * bool * str :=
  (pc_prerequisites pc,
   pc_grad_credit pc,
   pc_available_online pc,
   pc_requires_dept_consent pc,
   pc_typically_offered pc).

(** The siblings of a fragment cut at the line breaks: the runs of nodes
    between two breaks, the first run and the last one included. *)
Fixpoint br_groups (siblings : list node) : list (list node) :=
  match siblings with
  | [] => [[]]
  | Br :: rest => [] :: br_groups rest
  | Other t :: rest =>
      match br_groups rest with
      | g :: gs => (Other t :: g) :: gs
      | [] => [[Other t]]
      end
  end.

(** A content row pair: two cells on each side. *)
Definition is_content (expanded_row unexpanded_row : tr) : bool :=
  (length (tds expanded_row) =? 2)%nat
  && (length (tds unexpanded_row) =? 2)%nat.

(** The section label in effect after a row of the expanded table: the
    bold label of a one-cell row, the label before it otherwise. *)
Definition label_after_row (current_section : str) (expanded_row : tr)
  : str :=
  match tds expanded_row with
  | [header_td] =>
      match p_strong header_td with
      | Some label => strip label
      | None => current_section
      end
  | _ => current_section
  end.

Definition label_after (expanded_rows : list tr) (current_section : str)
  : str :=
  fold_left label_after_row expanded_rows current_section.

(** A character that the substitution table leaves alone. *)
Definition unmapped (c : N) : Prop := Util.REPLACE_CHAR_MAP !! c = None.

(** The last block of a list that passes a test. *)
Definition last_matching (test : str -> bool) (blocks : list str)
  : option str :=
  last (List.filter test blocks).

(** A block that sets the typical offering in [reprocess.py]: it reaches
    the sixth test of the chain and passes it. *)
Definition sets_offering `{Unicode} (block : str) : bool :=
  negb (Shared.is_prereq (lower block))
  && startswith (lower block) (lit "typically offered").

(** The record of [main.py] and the record of [reprocess.py] hold the same
    course. *)
Definition same_course (c : Main.course) (p : ProcessedCourse) : Prop :=
  Main.c_title c = pc_title p
  /\ Main.c_description c = pc_description p
  /\ Main.c_department c = pc_department p
  /\ Main.c_course_code c = pc_course_code p
  /\ Main.c_course_id c = pc_course_id p
  /\ Main.c_units c = pc_units p
  /\ fields_of_main c = fields_of_reprocess p.

(** The glyphs reported by the lines that [clean_text] prints. *)
Definition reported (printed : list Util.line) : list N :=
  flat_map (fun l => match l with
                     | Util.Heading => []
                     | Util.Unknown d => [Util.glyph d]
                     end) printed.

End Spec.

(** ** The character tables restricted to ASCII

    On text made of code points below 128 these agree with the
    interpreter: [lower] maps A to Z onto a to z, the only digits are 0 to
    9.  They are used to run the definitions on concrete ASCII inputs. *)

Definition ascii_lower (c : N) : N :=
  if (65 <=? c)%N && (c <=? 90)%N then (c + 32)%N else c.

Definition ascii_tables : Unicode :=
  {| lower := map ascii_lower;
     unicode_isdigit := fun _ => false;
     unicode_decimal := fun _ => None;
     unicode_name := fun _ => None;
     int_max_str_digits := 4300 |}.

(** The same tables with the superscript two, U+00B2: a digit for
    [str.isdigit], with no decimal value for [int]. *)
Definition superscript_tables : Unicode :=
  {| lower := map ascii_lower;
     unicode_isdigit := fun c => (c =? 178)%N;
     unicode_decimal := fun _ => None;
     unicode_name := fun _ => None;
     int_max_str_digits := 4300 |}.

(** ** Sample records *)

Definition sample_processed : Models.ProcessedCourse :=
  {| Models.pc_course_id := 594896;
     Models.pc_department := lit "Accounting";
     Models.pc_course_level := 201;
     Models.pc_title := lit "Financial Accounting";
     Models.pc_description := lit "Accounting concepts and techniques.";
     Models.pc_course_code := lit "ACCT 201A";
     Models.pc_units := lit "3";
     Models.pc_prerequisites := [];
     Models.pc_grad_credit := false;
     Models.pc_available_online := false;
     Models.pc_requires_dept_consent := false;
     Models.pc_typically_offered := [] |}.

Definition sample_course : Main.course :=
  {| Main.c_title := lit "Financial Accounting";
     Main.c_description := lit "Accounting concepts and techniques.";
     Main.c_department := lit "Accounting";
     Main.c_course_code := lit "ACCT 201A";
     Main.c_course_id := 594896;
     Main.c_units := lit "3";
     Main.c_prereqs := None;
     Main.c_grad_credit := None;
     Main.c_available_online := None;
     Main.c_requires_dept_consent := None;
     Main.c_typically_offered := None;
     Main.c_course_level := None |}.

Definition sample_raw_no_blocks : Models.RawCourse :=
  {| Models.raw_course_id := 594896;
     Models.raw_department := lit "Accounting";
     Models.raw_header := lit "ACCT 201A - Financial Accounting (3)";
     Models.raw_blocks := [] |}.

(** A cell with the header and the separator and nothing after it. *)
Definition sample_cell_no_siblings : Soup.td :=
  {| Soup.p_strong := None;
     Soup.h3_text := Some (lit "ACCT 201A - Financial Accounting (3)");
     Soup.hr_next_siblings := Some [];
     Soup.a_href := None |}.

(** The second cell of an expanded row and of an unexpanded row. *)
Definition sample_expanded_cell : Soup.td :=
  {| Soup.p_strong := None;
     Soup.h3_text := Some (lit "ACCT 201A - Financial Accounting (3)");
     Soup.hr_next_siblings :=
       Some [Soup.Other (lit "Accounting concepts and techniques.");
             Soup.Br;
             Soup.Other (lit "Department consent required")];
     Soup.a_href := None |}.

Definition sample_unexpanded_cell : Soup.td :=
  {| Soup.p_strong := None;
     Soup.h3_text := None;
     Soup.hr_next_siblings := None;
     Soup.a_href :=
       Some (Some (lit "preview_course_nopop.php?catoid=95&coid=594896")) |}.

Definition sample_empty_cell : Soup.td :=
  {| Soup.p_strong := None;
     Soup.h3_text := None;
     Soup.hr_next_siblings := None;
     Soup.a_href := None |}.

Definition sample_expanded_row : Soup.tr :=
  {| Soup.tds := [sample_empty_cell; sample_expanded_cell] |}.

Definition sample_unexpanded_row : Soup.tr :=
  {| Soup.tds := [sample_empty_cell; sample_unexpanded_cell] |}.

Definition sample_spacer_row : Soup.tr := {| Soup.tds := [] |}.



(** The course that [main.py] builds from the sample row. *)
Definition sample_row_course : Main.course :=
  {| Main.c_title := lit "Financial Accounting";
     Main.c_description := lit "Accounting concepts and techniques.";
     Main.c_department := [];
     Main.c_course_code := lit "ACCT 201A";
     Main.c_course_id := 594896;
     Main.c_units := lit "3";
     Main.c_prereqs := None;
     Main.c_grad_credit := None;
     Main.c_available_online := None;
     Main.c_requires_dept_consent := Some true;
     Main.c_typically_offered := None;
     Main.c_course_level := Some 201 |}.

(** The raw course that [scrape.py] builds from the sample row. *)
Definition sample_row_raw : Models.RawCourse :=
  {| Models.raw_course_id := 594896;
     Models.raw_department := [];
     Models.raw_header := lit "ACCT 201A - Financial Accounting (3)";
     Models.raw_blocks :=
       [lit "Accounting concepts and techniques.";
        lit "Department consent required"] |}.

(** * Properties *)

(** ** Sample runs *)

Example split_colon :
  split (lit ":") (lit "Typically offered: Fall: odd") =
  [lit "Typically offered"; lit " Fall"; lit " odd"].
Proof. reflexivity. Qed.

Example split_coid :
  split (lit "coid=") (lit "p.php?catoid=95&coid=594896") =
  [lit "p.php?catoid=95&"; lit "594896"].
Proof. reflexivity. Qed.

Example slice_negative : slice (lit "Accounting") 0 (-1) = lit "Accountin".
Proof. reflexivity. Qed.

Example rfind_last : rfind (lit "a (b) (3)") 40 = 6.
Proof. reflexivity. Qed.

Example strip_both : strip (lit "  a b  ") = lit "a b".
Proof. reflexivity. Qed.

Example parse_header_sample :
  Shared.parse_header (lit "ACCT 201A - Financial Accounting (3)") =
  Ok (lit "ACCT 201A", lit "Financial Accounting", lit "3").
Proof. reflexivity. Qed.

Example course_level_acct :
  @Shared.course_level ascii_tables (lit "ACCT 201A") = Ok 201.
Proof. vm_compute. reflexivity. Qed.

Example course_level_egcp :
  @Shared.course_level ascii_tables (lit "EGCP 10S") = Ok 10.
Proof. vm_compute. reflexivity. Qed.

Example get_course_id_sample :
  @Shared.get_course_id ascii_tables
    {| Soup.p_strong := None; Soup.h3_text := None;
       Soup.hr_next_siblings := None;
       Soup.a_href :=
         Some (Some (lit "preview_course_nopop.php?catoid=95&coid=594896")) |}
  = Ok 594896.
Proof. vm_compute. reflexivity. Qed.

Example translate_sample :
  Util.translate [99; 97; 102; 233; 160; 8220; 169]%N
  = lit "cafe " ++ [34%N] ++ lit "(c)".
Proof. vm_compute. reflexivity. Qed.

Example str_of_int_sample : str_of_int 594896 = lit "594896".
Proof. vm_compute. reflexivity. Qed.

Example expanded_urls_main :
  length Main.EXPANDED_URLS = 39%nat
  /\ nth_error Main.EXPANDED_URLS 0
     = Some (lit "https://catalog.fullerton.edu/content.php?catoid=95&navoid=14518&filter[27]=-1&filter[29]=&filter[keyword]=&filter[32]=1&filter[cpage]=1&filter[exact_match]=1&filter[item_type]=3&filter[only_active]=1&filter[3]=1&expand=1&print#acalog_template_course_filter")
  /\ last Main.EXPANDED_URLS
     = Some (lit "https://catalog.fullerton.edu/content.php?catoid=95&navoid=14518&filter[27]=-1&filter[29]=&filter[keyword]=&filter[32]=1&filter[cpage]=39&filter[exact_match]=1&filter[item_type]=3&filter[only_active]=1&filter[3]=1&expand=1&print#acalog_template_course_filter").
Proof. repeat split; vm_compute; reflexivity. Qed.

Example expanded_urls_scrape : Scrape.EXPANDED_URLS = Main.EXPANDED_URLS.
Proof. reflexivity. Qed.

(** ** Facts about the string operations *)

Lemma startswith_spec (s p : str) :
  startswith s p = true <-> exists t, s = p ++ t.
Proof.
  revert s. induction p as [|c p IH]; intros s; simpl.
  - split; [intros _; exists s; reflexivity | reflexivity].
  - destruct s as [|d s].
    + split; [discriminate | intros [t Ht]; discriminate].
    + rewrite andb_true_iff, N.eqb_eq, IH. split.
      * intros [-> [t ->]]. exists t. reflexivity.
      * intros [t Ht]. injection Ht as -> ->. split; [reflexivity | eauto].
Qed.

Lemma startswith_app (p t : str) : startswith (p ++ t) p = true.
Proof. apply startswith_spec. exists t. reflexivity. Qed.

Lemma startswith_shorter (s p q : str) :
  startswith s (p ++ q) = true -> startswith s p = true.
Proof.
  rewrite !startswith_spec. intros [t ->]. exists (q ++ t).
  symmetry. apply app_assoc.
Qed.

Lemma str_eqb_eq (s t : str) : str_eqb s t = true <-> s = t.
Proof.
  revert t. induction s as [|c s IH]; intros [|d t]; simpl;
    try (split; [discriminate | congruence]).
  - split; reflexivity.
  - rewrite andb_true_iff, N.eqb_eq, IH. split.
    + intros [-> ->]. reflexivity.
    + intros Heq. injection Heq as -> ->. split; reflexivity.
Qed.

Lemma nonempty_true (s : str) : nonempty s = true <-> s <> [].
Proof. destruct s; simpl; split; congruence. Qed.

Lemma nonempty_false (s : str) : nonempty s = false <-> s = [].
Proof. destruct s; simpl; split; congruence. Qed.

(** *** Splitting on a one-character separator *)

Lemma split_go_not_nil (sep : str) (k : nat) (s : str) :
  split_go sep k s <> [].
Proof.
  revert k. induction s as [|c s IH]; intros k; simpl; [discriminate|].
  destruct k as [|k]; [|apply IH].
  destruct (startswith (c :: s) sep); [discriminate|].
  destruct (split_go sep 0 s); discriminate.
Qed.

Lemma split_char_cons (x c : N) (s : str) :
  split [x] (c :: s) =
  if (c =? x)%N then [] :: split [x] s
  else match split [x] s with
       | h :: t => (c :: h) :: t
       | [] => [[c]]
       end.
Proof.
  unfold split. simpl. rewrite andb_true_r. reflexivity.
Qed.

Lemma split_char_absent (x : N) (s : str) :
  ~ In x s -> split [x] s = [s].
Proof.
  induction s as [|c s IH]; intros Hin; [reflexivity|].
  rewrite split_char_cons.
  destruct (N.eqb_spec c x) as [->|Hne].
  - exfalso. apply Hin. left. reflexivity.
  - rewrite IH; [reflexivity|]. intros Hs. apply Hin. right. exact Hs.
Qed.

Lemma split_char_first (x : N) (pre s : str) :
  ~ In x pre -> split [x] (pre ++ x :: s) = pre :: split [x] s.
Proof.
  induction pre as [|c pre IH]; intros Hin.
  - simpl. rewrite split_char_cons, N.eqb_refl. reflexivity.
  - simpl. rewrite split_char_cons.
    destruct (N.eqb_spec c x) as [->|Hne].
    + exfalso. apply Hin. left. reflexivity.
    + rewrite IH; [reflexivity|]. intros Hs. apply Hin. right. exact Hs.
Qed.

(** The second piece of a split: the text between the first separator and
    the next one, or the end. *)
Lemma split_char_second (x : N) (pre mid rest : str) :
  ~ In x pre -> ~ In x mid ->
  rest = [] \/ (exists r, rest = x :: r) ->
  index (split [x] (pre ++ x :: mid ++ rest)) 1 = Ok mid.
Proof.
  intros Hpre Hmid Hrest. rewrite split_char_first by exact Hpre.
  unfold index. simpl.
  destruct Hrest as [->|[r ->]].
  - rewrite app_nil_r, split_char_absent by exact Hmid. reflexivity.
  - rewrite split_char_first by exact Hmid. reflexivity.
Qed.

Lemma split_char_no_second (x : N) (s : str) :
  ~ In x s -> index (split [x] s) 1 = Raise IndexError.
Proof. intros Hin. rewrite split_char_absent by exact Hin. reflexivity. Qed.

(** ** The field classifier *)

Import Models Shared.

(** A block that reaches the sixth test passes none of the four tests for
    a fixed sentence, and does not start with "prereq". *)
Lemma offered_not_earlier (l : str) :
  startswith l (lit "typically offered") = true ->
  startswith l (lit "prereq") = false
  /\ is_no_grad_credit l = false
  /\ is_grad_credit l = false
  /\ is_online l = false
  /\ is_dept_consent l = false.
Proof.
  intros Hl. apply startswith_spec in Hl as [t ->].
  repeat split; reflexivity.
Qed.

Lemma offered_colon_offered (l : str) :
  startswith l (lit "typically offered:") = true ->
  startswith l (lit "typically offered") = true.
Proof. apply (startswith_shorter l (lit "typically offered") (lit ":")). Qed.

(** C1, as amended: a block that contains a colon, whose lowercase form
    starts with "typically offered" and does not contain "requisite", is
    classified without failure by [reprocess.py], and the typical-offering
    field receives the trimmed text between the first colon and the next
    one (all the text after the first colon when there is no other); the
    loop of [main.py] does the same when the lowercase form starts with
    "typically offered:". *)
Theorem typically_offered_assigned `{Unicode}
    (block pre mid rest : str) (pc : ProcessedCourse) (c : Main.course) :
  startswith (lower block) (lit "typically offered") = true ->
  contains (lower block) (lit "requisite") = false ->
  block = pre ++ 58%N :: mid ++ rest ->
  ~ In 58%N pre -> ~ In 58%N mid ->
  rest = [] \/ (exists r, rest = 58%N :: r) ->
  Reprocess.classify pc block = Ok (set_typically_offered (strip mid) pc)
  /\ (startswith (lower block) (lit "typically offered:") = true ->
      Main.classify c block = Ok (Main.set_typically_offered (strip mid) c)).
Proof.
  intros Hstart Hreq -> Hpre Hmid Hrest.
  destruct (offered_not_earlier _ Hstart) as (Hp & H2 & H3 & H4 & H5).
  pose proof (split_char_second 58%N pre mid rest Hpre Hmid Hrest) as Hsplit.
  change [58%N] with (lit ":") in Hsplit.
  split.
  - unfold Reprocess.classify, is_prereq.
    rewrite Hreq, Hp, H2, H3, H4, H5, Hstart, Hsplit. reflexivity.
  - intros Hcolon. unfold Main.classify, is_prereq.
    rewrite Hreq, Hp, H2, H3, H4, H5, Hcolon, Hsplit. reflexivity.
Qed.

Lemma typically_offered_assigned_witness :
  @Reprocess.classify ascii_tables sample_processed
    (lit "Typically Offered: Fall, Spring")
  = Ok (set_typically_offered (lit "Fall, Spring") sample_processed).
Proof.
  refine (proj1 (@typically_offered_assigned ascii_tables
    (lit "Typically Offered: Fall, Spring") (lit "Typically Offered")
    (lit " Fall, Spring") [] sample_processed sample_course
    _ _ _ _ _ _)).
  - reflexivity.
  - reflexivity.
  - reflexivity.
  - vm_compute. intuition discriminate.
  - vm_compute. intuition discriminate.
  - left. reflexivity.
Defined.

(** C1 fails as stated.  Without a colon the block makes [reprocess.py]
    raise [IndexError], and [main.py] leaves the field unset; with a second
    colon only the text up to it is kept. *)
Lemma typically_offered_counterexample :
  startswith (@lower ascii_tables (lit "Typically offered Fall"))
    (lit "typically offered") = true
  /\ @Reprocess.classify ascii_tables sample_processed
       (lit "Typically offered Fall") = Raise IndexError
  /\ @Main.classify ascii_tables sample_course
       (lit "Typically offered Fall") = Ok sample_course
  /\ @Reprocess.classify ascii_tables sample_processed
       (lit "Typically offered: Fall: odd years")
     = Ok (set_typically_offered (lit "Fall") sample_processed)
  /\ strip (lit " Fall: odd years") <> lit "Fall".
Proof. vm_compute. repeat split; discriminate. Qed.

Local Ltac same_fields :=
  unfold Spec.fields_of_main, Spec.fields_of_reprocess; simpl;
  repeat f_equal; assumption.

(** One block keeps the two loops in step, unless its lowercase form starts
    with "typically offered" and goes on with something else than a
    colon. *)
Lemma classify_step_agree `{Unicode} (b : str)
    (c : Main.course) (pc : ProcessedCourse) :
  Spec.fields_of_main c = Spec.fields_of_reprocess pc ->
  (startswith (lower b) (lit "typically offered") = true ->
   startswith (lower b) (lit "typically offered:") = true) ->
  match Main.classify c b, Reprocess.classify pc b with
  | inr c', inr pc' => Spec.fields_of_main c' = Spec.fields_of_reprocess pc'
  | inl e, inl e' => e = e'
  | _, _ => False
  end.
Proof.
  intros Hf Hcolon. unfold Main.classify, Reprocess.classify.
  unfold Spec.fields_of_main, Spec.fields_of_reprocess in Hf.
  injection Hf as Hf1 Hf2 Hf3 Hf4 Hf5.
  destruct (is_prereq (lower b)).
  { same_fields. }
  destruct (is_no_grad_credit (lower b)).
  { same_fields. }
  destruct (is_grad_credit (lower b)).
  { same_fields. }
  destruct (is_online (lower b)).
  { same_fields. }
  destruct (is_dept_consent (lower b)).
  { same_fields. }
  destruct (startswith (lower b) (lit "typically offered:")) eqn:Hc.
  - rewrite (offered_colon_offered _ Hc).
    destruct (index (split (lit ":") b) 1) as [e|offered]; simpl;
      [reflexivity|].
    same_fields.
  - destruct (startswith (lower b) (lit "typically offered")) eqn:Ho.
    + specialize (Hcolon eq_refl). discriminate.
    + same_fields.
Qed.

(** C10, as amended: on a list of blocks none of which has a lowercase form
    that starts with "typically offered" without the colon right after it,
    the loop of [main.py] and the loop of [reprocess.py] end alike: both
    raise the same exception, or both set the same prerequisites,
    grad-credit, online, department-consent and typical-offering fields
    (an absent key of [main.py] read as the default of [reprocess.py]). *)
Theorem classification_loops_agree `{Unicode} (blocks : list str)
    (c : Main.course) (pc : ProcessedCourse) :
  Spec.fields_of_main c = Spec.fields_of_reprocess pc ->
  (forall b, In b blocks ->
     startswith (lower b) (lit "typically offered") = true ->
     startswith (lower b) (lit "typically offered:") = true) ->
  match for_each Main.classify blocks c,
        for_each Reprocess.classify blocks pc with
  | inr c', inr pc' => Spec.fields_of_main c' = Spec.fields_of_reprocess pc'
  | inl e, inl e' => e = e'
  | _, _ => False
  end.
Proof.
  revert c pc. induction blocks as [|b blocks IH]; intros c pc Hf Hall.
  - exact Hf.
  - simpl.
    pose proof (classify_step_agree b c pc Hf (Hall b (or_introl eq_refl)))
      as Hstep.
    destruct (Main.classify c b) as [e|c'],
             (Reprocess.classify pc b) as [e'|pc']; simpl;
      try contradiction; [exact Hstep|].
    apply IH; [exact Hstep|].
    intros b' Hin. apply Hall. right. exact Hin.
Qed.

Lemma classification_loops_agree_witness :
  match for_each (@Main.classify ascii_tables)
          [lit "Prerequisite: ACCT 201A"; lit "Graduate-level";
           lit "Typically Offered: Fall"] sample_course,
        for_each (@Reprocess.classify ascii_tables)
          [lit "Prerequisite: ACCT 201A"; lit "Graduate-level";
           lit "Typically Offered: Fall"] sample_processed with
  | inr c', inr pc' => Spec.fields_of_main c' = Spec.fields_of_reprocess pc'
  | inl e, inl e' => e = e'
  | _, _ => False
  end.
Proof.
  apply (@classification_loops_agree ascii_tables).
  - reflexivity.
  - intros b Hin.
    repeat (destruct Hin as [<-|Hin]; [vm_compute; congruence|]).
    destruct Hin.
Defined.

(** C10 fails as stated: a block whose lowercase form starts with
    "typically offered" but has its colon later is left unclassified by
    [main.py] and sets the typical offering in [reprocess.py]. *)
Lemma classification_loops_counterexample :
  exists c' pc',
    for_each (@Main.classify ascii_tables)
      [lit "Typically offered Fall: odd years"] sample_course = Ok c'
    /\ for_each (@Reprocess.classify ascii_tables)
         [lit "Typically offered Fall: odd years"] sample_processed = Ok pc'
    /\ Spec.fields_of_main sample_course
       = Spec.fields_of_reprocess sample_processed
    /\ Spec.fields_of_main c' <> Spec.fields_of_reprocess pc'.
Proof.
  eexists _, _. split; [vm_compute; reflexivity|].
  split; [vm_compute; reflexivity|].
  split; [reflexivity|]. vm_compute. discriminate.
Qed.

(** *** Trimming *)

Lemma dropwhile_app (p : N -> bool) (a b : str) :
  dropwhile p (a ++ b) =
  if forallb p a then dropwhile p b else dropwhile p a ++ b.
Proof.
  induction a as [|c a IH]; simpl; [reflexivity|].
  destruct (p c); simpl; [exact IH | reflexivity].
Qed.

Lemma dropwhile_all (p : N -> bool) (s : str) :
  forallb p s = true -> dropwhile p s = [].
Proof.
  induction s as [|c s IH]; simpl; [reflexivity|].
  destruct (p c); simpl; [exact IH | discriminate].
Qed.

Lemma dropwhile_stop (p : N -> bool) (a : str) (c : N) (b : str) :
  p c = false -> dropwhile p (a ++ c :: b) = dropwhile p a ++ c :: b.
Proof.
  intros Hc. induction a as [|d a IH]; simpl.
  - rewrite Hc. reflexivity.
  - destruct (p d); [exact IH | reflexivity].
Qed.

Lemma dropwhile_idem (p : N -> bool) (s : str) :
  dropwhile p (dropwhile p s) = dropwhile p s.
Proof.
  induction s as [|c s IH]; simpl; [reflexivity|].
  destruct (p c) eqn:Hc; [exact IH|]. simpl. rewrite Hc. reflexivity.
Qed.

Lemma dropwhile_none (p : N -> bool) (s : str) :
  Forall (fun c => p c = false) s -> dropwhile p s = s.
Proof.
  intros Hs. destruct Hs as [|c s Hc Hs]; simpl; [reflexivity|].
  rewrite Hc. reflexivity.
Qed.

Lemma rstrip_stop (a : str) (c : N) (b : str) :
  isspace c = false -> rstrip (a ++ c :: b) = a ++ c :: rstrip b.
Proof.
  intros Hc. unfold rstrip.
  rewrite rev_app_distr. simpl. rewrite <- app_assoc. simpl.
  rewrite dropwhile_stop by exact Hc.
  rewrite rev_app_distr. simpl. rewrite rev_involutive, <- app_assoc.
  reflexivity.
Qed.

Lemma rstrip_nil : rstrip [] = [].
Proof. reflexivity. Qed.

Lemma rstrip_space_end (s : str) (c : N) :
  isspace c = true -> rstrip (s ++ [c]) = rstrip s.
Proof.
  intros Hc. unfold rstrip. rewrite rev_app_distr. simpl. rewrite Hc.
  reflexivity.
Qed.

Lemma strip_space_front (c : N) (s : str) :
  isspace c = true -> strip (c :: s) = strip s.
Proof. intros Hc. unfold strip, lstrip. simpl. rewrite Hc. reflexivity. Qed.

Lemma strip_space_end (s : str) (c : N) :
  isspace c = true -> strip (s ++ [c]) = strip s.
Proof.
  intros Hc. unfold strip, lstrip. rewrite dropwhile_app.
  destruct (forallb isspace s) eqn:Hs.
  - simpl. rewrite Hc, (dropwhile_all _ _ Hs). reflexivity.
  - apply rstrip_space_end. exact Hc.
Qed.

Lemma strip_lstrip (s : str) : strip (lstrip s) = strip s.
Proof. unfold strip, lstrip. rewrite dropwhile_idem. reflexivity. Qed.

Lemma strip_no_space (s : str) :
  Forall (fun c => isspace c = false) s -> strip s = s.
Proof.
  intros Hs. unfold strip, lstrip, rstrip.
  rewrite (dropwhile_none _ _ Hs).
  rewrite dropwhile_none; [apply rev_involutive|].
  apply List.Forall_rev. exact Hs.
Qed.

Lemma int_strip_no_space (s : str) :
  Forall (fun c => int_isspace c = false) s -> int_strip s = s.
Proof.
  intros Hs. unfold int_strip.
  rewrite (dropwhile_none _ _ Hs).
  rewrite dropwhile_none; [apply rev_involutive|].
  apply List.Forall_rev. exact Hs.
Qed.

(** A trimmed text is empty, or begins and ends with a character that is not
    whitespace. *)
Lemma lstrip_head (s : str) (c : N) (t : str) :
  lstrip s = c :: t -> isspace c = false.
Proof.
  unfold lstrip. induction s as [|d s IH]; simpl; [discriminate|].
  destruct (isspace d) eqn:Hd; [exact IH|].
  intros Heq. injection Heq as <- _. exact Hd.
Qed.

Lemma rstrip_cons (c : N) (s : str) :
  rstrip (c :: s) =
  match rstrip s with
  | [] => if isspace c then [] else [c]
  | d :: t => c :: d :: t
  end.
Proof.
  unfold rstrip. simpl. rewrite dropwhile_app.
  destruct (forallb isspace (rev s)) eqn:Hall.
  - rewrite (dropwhile_all _ _ Hall). simpl.
    destruct (isspace c); reflexivity.
  - rewrite rev_app_distr. simpl.
    destruct (rev (dropwhile isspace (rev s))) as [|d t] eqn:Hr;
      [|reflexivity].
    exfalso.
    assert (Hnil : dropwhile isspace (rev s) = []).
    { rewrite <- (rev_involutive (dropwhile isspace (rev s))), Hr.
      reflexivity. }
    clear Hr. revert Hall Hnil. generalize (rev s).
    intros l. induction l as [|x l IH]; simpl; [discriminate|].
    destruct (isspace x); simpl; [exact IH | discriminate].
Qed.

Lemma strip_head (s : str) (c : N) (t : str) :
  strip s = c :: t -> isspace c = false.
Proof.
  unfold strip. destruct (lstrip s) as [|d l] eqn:Hl; [discriminate|].
  pose proof (lstrip_head _ _ _ Hl) as Hd.
  rewrite rstrip_cons.
  destruct (rstrip l); [rewrite Hd|]; intros Heq; injection Heq as <- _;
    exact Hd.
Qed.

Lemma strip_strip (s : str) : strip (strip s) = strip s.
Proof.
  unfold strip at 1. unfold lstrip.
  destruct (strip s) as [|c t] eqn:Hs; [reflexivity|].
  pose proof (strip_head _ _ _ Hs) as Hc. simpl. rewrite Hc.
  unfold strip in Hs. rewrite <- Hs. unfold rstrip.
  rewrite rev_involutive, dropwhile_idem. reflexivity.
Qed.

(** *** Searching and slicing *)

Lemma rfind_absent (s : str) (c : N) : ~ In c s -> rfind s c = -1.
Proof.
  induction s as [|d s IH]; intros Hin; simpl; [reflexivity|].
  rewrite IH by (intros Hs; apply Hin; right; exact Hs). simpl.
  destruct (N.eqb_spec d c) as [->|Hne]; [|reflexivity].
  exfalso. apply Hin. left. reflexivity.
Qed.

Lemma rfind_app_last (a : str) (c : N) (d : str) :
  ~ In c d -> rfind (a ++ c :: d) c = Z.of_nat (length a).
Proof.
  intros Hd. induction a as [|x a IH].
  - simpl. rewrite (rfind_absent d c Hd). simpl. rewrite N.eqb_refl.
    reflexivity.
  - cbn [app rfind length]. rewrite IH.
    destruct (Z.leb_spec 0 (Z.of_nat (length a))) as [_|Hlt]; lia.
Qed.

Lemma slice_middle (a m b : str) :
  slice (a ++ m ++ b) (Z.of_nat (length a))
    (Z.of_nat (length a) + Z.of_nat (length m)) = m.
Proof.
  unfold slice, norm_index. rewrite !length_app.
  replace (Z.of_nat (length a) <? 0) with false
    by (symmetry; apply Z.ltb_ge; lia).
  replace (Z.of_nat (length a) + Z.of_nat (length m) <? 0) with false
    by (symmetry; apply Z.ltb_ge; lia).
  rewrite !Z.max_r, !Z.min_r by lia.
  replace (Z.to_nat (Z.of_nat (length a))) with (length a) by lia.
  replace (Z.to_nat (Z.of_nat (length a) + Z.of_nat (length m)
                     - Z.of_nat (length a))) with (length m) by lia.
  rewrite drop_app_length, take_app_length. reflexivity.
Qed.

Lemma slice_prefix (a b : str) :
  slice (a ++ b) 0 (Z.of_nat (length a)) = a.
Proof.
  pose proof (slice_middle [] a b) as Hs. simpl in Hs. exact Hs.
Qed.

(** *** The first separator *)

Lemma partition_char_cons (x c : N) (s : str) :
  partition [x] (c :: s) =
  if (c =? x)%N then Some ([], s)
  else match partition [x] s with
       | Some (a, b) => Some (c :: a, b)
       | None => None
       end.
Proof. simpl. rewrite andb_true_r. reflexivity. Qed.

Lemma partition_char_first (x : N) (a b : str) :
  ~ In x a -> partition [x] (a ++ x :: b) = Some (a, b).
Proof.
  induction a as [|c a IH]; intros Hin.
  - simpl app. rewrite partition_char_cons, N.eqb_refl. reflexivity.
  - simpl app. rewrite partition_char_cons.
    destruct (N.eqb_spec c x) as [->|Hne].
    + exfalso. apply Hin. left. reflexivity.
    + rewrite IH; [reflexivity|]. intros Hs. apply Hin. right. exact Hs.
Qed.

Lemma partition_char_absent (x : N) (s : str) :
  ~ In x s -> partition [x] s = None.
Proof.
  induction s as [|c s IH]; intros Hin; [reflexivity|].
  rewrite partition_char_cons.
  destruct (N.eqb_spec c x) as [->|Hne].
  - exfalso. apply Hin. left. reflexivity.
  - rewrite IH; [reflexivity|]. intros Hs. apply Hin. right. exact Hs.
Qed.

(** ** The header parser *)

(** What [parse_header] returns on a header with a "-". *)
Lemma parse_header_dash (before after : str) :
  ~ In 45%N before ->
  parse_header (before ++ 45%N :: after) =
  Ok (strip before,
      strip (slice (strip after) 0 (rfind (strip after) 40)),
      slice (strip after) (rfind (strip after) 40 + 1)
        (rfind (strip after) 41)).
Proof.
  intros Hb. unfold parse_header, split1.
  change (lit "-") with [45%N].
  rewrite (partition_char_first 45%N before after Hb). reflexivity.
Qed.

(** The slices taken when the last "(" comes before the last ")". *)
Lemma parse_header_parens (before after a m d : str) :
  ~ In 45%N before ->
  strip after = a ++ 40%N :: m ++ 41%N :: d ->
  ~ In 40%N m -> ~ In 40%N d -> ~ In 41%N d ->
  parse_header (before ++ 45%N :: after) = Ok (strip before, strip a, m).
Proof.
  intros Hb Hafter Hm40 Hd40 Hd41.
  rewrite (parse_header_dash before after Hb), Hafter.
  assert (Hopen : rfind (a ++ 40%N :: m ++ 41%N :: d) 40
                  = Z.of_nat (length a)).
  { apply rfind_app_last. intros Hin. apply in_app_or in Hin.
    destruct Hin as [Hin|[Hin|Hin]];
      [contradiction|discriminate|contradiction]. }
  assert (Hclose : rfind (a ++ 40%N :: m ++ 41%N :: d) 41
                   = Z.of_nat (length a) + 1 + Z.of_nat (length m)).
  { replace (a ++ 40%N :: m ++ 41%N :: d)
      with ((a ++ 40%N :: m) ++ 41%N :: d)
      by (rewrite <- app_assoc; reflexivity).
    rewrite rfind_app_last by exact Hd41.
    rewrite length_app. simpl. lia. }
  rewrite Hopen, Hclose.
  rewrite (slice_prefix a (40%N :: m ++ 41%N :: d)).
  replace (a ++ 40%N :: m ++ 41%N :: d)
    with ((a ++ [40%N]) ++ m ++ 41%N :: d)
    by (rewrite <- app_assoc; reflexivity).
  pose proof (slice_middle (a ++ [40%N]) m (41%N :: d)) as Hs.
  rewrite length_app in Hs. simpl length in Hs.
  replace (Z.of_nat (length a) + 1) with (Z.of_nat (length a + 1)) by lia.
  replace (Z.of_nat (length a + 1) + Z.of_nat (length m))
    with (Z.of_nat (length a + 1) + Z.of_nat (length m)) in * by lia.
  rewrite Hs. reflexivity.
Qed.

(** C2, as amended: a missing parenthesis does not make header parsing
    fail.  Every header with a "-" yields a code, a title and a unit range;
    [rfind] answers -1 for a parenthesis that is absent and the slices are
    taken with it, so without a "(" the title is the text less its last
    character.  When both parentheses are present, the last "(" before the
    last ")", the unit range is the text strictly between them, as it
    stands (not trimmed), and the title is the trimmed text before the last
    "(". *)
Theorem header_parentheses (before after : str) :
  ~ In 45%N before ->
  (exists title units,
     parse_header (before ++ 45%N :: after) = Ok (strip before, title, units))
  /\ (~ In 40%N (strip after) ->
      parse_header (before ++ 45%N :: after) =
      Ok (strip before,
          strip (slice (strip after) 0 (-1)),
          slice (strip after) 0 (rfind (strip after) 41)))
  /\ (forall a m d,
        strip after = a ++ 40%N :: m ++ 41%N :: d ->
        ~ In 40%N m -> ~ In 40%N d -> ~ In 41%N d ->
        parse_header (before ++ 45%N :: after) =
        Ok (strip before, strip a, m)).
Proof.
  intros Hb. split; [|split].
  - eexists _, _. apply parse_header_dash. exact Hb.
  - intros Hno. rewrite (parse_header_dash before after Hb).
    rewrite (rfind_absent _ _ Hno). reflexivity.
  - intros a m d. apply parse_header_parens. exact Hb.
Qed.

Lemma header_parentheses_witness :
  parse_header (lit "ACCT 201A" ++ 45%N :: lit " Financial Accounting (3)")
  = Ok (strip (lit "ACCT 201A"), strip (lit "Financial Accounting "),
        lit "3").
Proof.
  assert (Hb : ~ In 45%N (lit "ACCT 201A"))
    by (vm_compute; intuition discriminate).
  refine (proj2 (proj2 (header_parentheses (lit "ACCT 201A")
            (lit " Financial Accounting (3)") Hb))
          (lit "Financial Accounting ") (lit "3") [] _ _ _ _).
  - reflexivity.
  - vm_compute. intuition discriminate.
  - vm_compute. intuition.
  - vm_compute. intuition.
Defined.

(** C2 fails as stated: a header without parentheses is parsed, not
    rejected, and the text between the parentheses is not trimmed. *)
Lemma header_parentheses_counterexample :
  parse_header (lit "ACCT 201A - Financial Accounting")
  = Ok (lit "ACCT 201A", lit "Financial Accountin",
        lit "Financial Accountin")
  /\ parse_header (lit "ACCT 201A - Financial Accounting ( 3 )")
     = Ok (lit "ACCT 201A", lit "Financial Accounting", lit " 3 ").
Proof. split; reflexivity. Qed.

(** C8, as amended: on the header made of CODE, " - ", TITLE, " (", UNITS
    and ")", with no "-" in CODE and no parenthesis in UNITS, parsing
    returns CODE trimmed, TITLE trimmed and UNITS as it stands (the unit
    range is not trimmed). *)
Theorem header_round_trip (CODE TITLE UNITS : str) :
  ~ In 45%N CODE -> ~ In 40%N UNITS -> ~ In 41%N UNITS ->
  parse_header (CODE ++ lit " - " ++ TITLE ++ lit " (" ++ UNITS ++ lit ")")
  = Ok (strip CODE, strip TITLE, UNITS).
Proof.
  intros Hcode Hopen Hclose.
  change (lit " - ") with ([32%N] ++ 45%N :: [32%N]).
  change (lit " (") with [32%N; 40%N]. change (lit ")") with [41%N].
  replace (CODE ++ ([32%N] ++ 45%N :: [32%N]) ++ TITLE ++ [32%N; 40%N]
           ++ UNITS ++ [41%N])
    with ((CODE ++ [32%N]) ++ 45%N
          :: (32%N :: TITLE ++ [32%N]) ++ 40%N :: UNITS ++ [41%N]).
  2:{ rewrite <- !app_assoc. simpl. rewrite <- !app_assoc. reflexivity. }
  assert (Hb : ~ In 45%N (CODE ++ [32%N])).
  { intros Hin. apply in_app_or in Hin.
    destruct Hin as [Hin|[Hin|[]]]; [contradiction|discriminate]. }
  rewrite (parse_header_parens (CODE ++ [32%N]) _
             (lstrip (32%N :: TITLE ++ [32%N])) UNITS [] Hb).
  - rewrite strip_space_end by reflexivity.
    rewrite strip_lstrip, strip_space_front, strip_space_end by reflexivity.
    reflexivity.
  - unfold strip, lstrip. rewrite dropwhile_stop by reflexivity.
    replace (dropwhile isspace (32%N :: TITLE ++ [32%N]) ++ 40%N :: UNITS
             ++ [41%N])
      with ((dropwhile isspace (32%N :: TITLE ++ [32%N]) ++ 40%N :: UNITS)
            ++ 41%N :: [])
      by (rewrite <- app_assoc; reflexivity).
    rewrite rstrip_stop by reflexivity. rewrite rstrip_nil.
    rewrite <- app_assoc. reflexivity.
  - exact Hopen.
  - intros [].
  - intros [].
Qed.

Lemma header_round_trip_witness :
  parse_header (lit "ACCT 201A" ++ lit " - " ++ lit "Financial Accounting"
                ++ lit " (" ++ lit "1-3" ++ lit ")")
  = Ok (strip (lit "ACCT 201A"), strip (lit "Financial Accounting"),
        lit "1-3").
Proof.
  apply (header_round_trip (lit "ACCT 201A") (lit "Financial Accounting")
           (lit "1-3")); vm_compute; intuition discriminate.
Defined.

(** C8 fails as stated: whitespace around UNITS is kept. *)
Lemma header_round_trip_counterexample :
  ~ In 45%N (lit "ACCT 201A")
  /\ ~ In 40%N (lit " 3 ") /\ ~ In 41%N (lit " 3 ")
  /\ parse_header (lit "ACCT 201A" ++ lit " - " ++ lit "Financial Accounting"
                   ++ lit " (" ++ lit " 3 " ++ lit ")")
     = Ok (lit "ACCT 201A", lit "Financial Accounting", lit " 3 ")
  /\ lit " 3 " <> strip (lit " 3 ").
Proof.
  repeat split; try (vm_compute; intuition discriminate).
Qed.

(** ** The course level *)

Local Ltac split_comparisons :=
  repeat match goal with
         | |- context [(?a <=? ?b)%N] => destruct (N.leb_spec a b); try lia
         | |- context [(?a <? ?b)%N] => destruct (N.ltb_spec a b); try lia
         | |- context [(?a =? ?b)%N] => destruct (N.eqb_spec a b); try lia
         end.

Lemma decimal_digit_range (c : N) :
  Spec.is_decimal_digit c = true <-> (48 <= c <= 57)%N.
Proof.
  unfold Spec.is_decimal_digit. rewrite andb_true_iff, !N.leb_le.
  reflexivity.
Qed.

Lemma decimal_digit_not_space (c : N) :
  Spec.is_decimal_digit c = true -> isspace c = false.
Proof.
  rewrite decimal_digit_range. intros Hc. unfold isspace.
  split_comparisons; reflexivity.
Qed.

Section Level.
Context `{Unicode}.

Lemma decimal_digit_isdigit (c : N) :
  Spec.is_decimal_digit c = true -> isdigit c = true.
Proof.
  rewrite decimal_digit_range. intros Hc. unfold isdigit.
  split_comparisons; reflexivity.
Qed.

Lemma decimal_digit_value (c : N) :
  Spec.is_decimal_digit c = true ->
  decimal_value c = Some (Z.of_N c - 48).
Proof.
  rewrite decimal_digit_range. intros Hc. unfold decimal_value.
  split_comparisons; reflexivity.
Qed.

Lemma leading_digits_run (ds tl : str) :
  Forall (fun c => isdigit c = true) ds ->
  tl = [] \/ (exists c t, tl = c :: t /\ isdigit c = false) ->
  leading_digits (ds ++ tl) = ds.
Proof.
  intros Hds Htl. induction Hds as [|c ds Hc Hds IH]; simpl.
  - destruct Htl as [->|(c & t & -> & Hc)]; simpl; [reflexivity|].
    rewrite Hc. reflexivity.
  - rewrite Hc, IH. reflexivity.
Qed.

Lemma leading_digits_none (token : str) :
  token = [] \/ (exists c t, token = c :: t /\ isdigit c = false) ->
  leading_digits token = [].
Proof. apply (leading_digits_run [] token). constructor. Qed.

Lemma int_digits_run (ds : str) (acc : Z) (n : nat) :
  Forall (fun c => Spec.is_decimal_digit c = true) ds ->
  int_digits acc n true ds =
  if (n + length ds <=? int_max_str_digits)%nat
  then Some (fold_left (fun a c => 10 * a + (Z.of_N c - 48)) ds acc)
  else None.
Proof.
  intros Hds. revert acc n.
  induction Hds as [|c ds Hc Hds IH]; intros acc n; simpl.
  - rewrite Nat.add_0_r. reflexivity.
  - rewrite (decimal_digit_value c Hc).
    replace (c =? 95)%N with false.
    2:{ symmetry. apply N.eqb_neq. apply decimal_digit_range in Hc. lia. }
    rewrite IH. replace (S n + length ds)%nat with (n + S (length ds))%nat
      by lia.
    reflexivity.
Qed.

(** [int] on a run of decimal digits. *)
Lemma int_decimal (ds : str) :
  ds <> [] ->
  Forall (fun c => Spec.is_decimal_digit c = true) ds ->
  (length ds <= int_max_str_digits)%nat ->
  int ds = Ok (Spec.decimal ds).
Proof.
  intros Hne Hds Hlen. unfold int.
  rewrite int_strip_no_space.
  2:{ eapply List.Forall_impl; [|exact Hds]. intros c Hc. unfold int_isspace.
      rewrite (decimal_digit_not_space c Hc). reflexivity. }
  destruct Hds as [|c ds Hc Hds]; [congruence|].
  pose proof Hc as Hrange. apply decimal_digit_range in Hrange.
  replace (c =? 45)%N with false by (symmetry; apply N.eqb_neq; lia).
  replace (c =? 43)%N with false by (symmetry; apply N.eqb_neq; lia).
  cbn [int_digits].
  replace (c =? 95)%N with false by (symmetry; apply N.eqb_neq; lia).
  rewrite (decimal_digit_value c Hc), (int_digits_run ds _ 1 Hds).
  simpl length in Hlen.
  destruct (Nat.leb_spec (1 + length ds) int_max_str_digits) as [_|Hgt];
    [reflexivity | lia].
Qed.

Lemma int_empty : int [] = Raise ValueError.
Proof. reflexivity. Qed.

End Level.

(** C6, as amended: the course number is the second piece of the code
    split at every single space.  When it begins with a run of one or more
    decimal digits (0 to 9), no more of them than [int] accepts, and the run
    ends the piece or is followed by a character for which [isdigit] is
    false, the level is the integer value of that run; when the piece is
    empty or begins with a character for which [isdigit] is false, deriving
    the level raises [ValueError]. *)
Theorem course_level_leading_digits `{Unicode}
    (course_code course_number : str) :
  index (split (lit " ") course_code) 1 = Ok course_number ->
  (forall ds tl,
     course_number = ds ++ tl ->
     ds <> [] ->
     Forall (fun c => Spec.is_decimal_digit c = true) ds ->
     tl = [] \/ (exists c t, tl = c :: t /\ isdigit c = false) ->
     (length ds <= int_max_str_digits)%nat ->
     course_level course_code = Ok (Spec.decimal ds))
  /\ (course_number = []
      \/ (exists c t, course_number = c :: t /\ isdigit c = false) ->
      course_level course_code = Raise ValueError).
Proof.
  intros Hnum. unfold course_level. rewrite Hnum. simpl. split.
  - intros ds tl -> Hne Hds Htl Hlen.
    rewrite leading_digits_run; [apply int_decimal; assumption| |exact Htl].
    eapply List.Forall_impl; [|exact Hds]. apply decimal_digit_isdigit.
  - intros Hno. rewrite (leading_digits_none _ Hno). apply int_empty.
Qed.

Lemma course_level_leading_digits_witness :
  @course_level ascii_tables (lit "EGCP 10S") = Ok (Spec.decimal (lit "10")).
Proof.
  refine (proj1 (@course_level_leading_digits ascii_tables
            (lit "EGCP 10S") (lit "10S") _) (lit "10") (lit "S") _ _ _ _ _).
  - reflexivity.
  - reflexivity.
  - discriminate.
  - repeat constructor.
  - right. exists 83%N, []. split; reflexivity.
  - apply Nat.leb_le. reflexivity.
Defined.

(** C6 fails as stated: with two spaces between the subject and the number,
    the second whitespace-separated token begins with digits, but the second
    piece of the split at single spaces is empty and [int] raises.  And a
    token that begins with a digit and goes on with a superscript two, a
    digit for [isdigit] that [int] refuses, makes [int] raise as well. *)
Lemma course_level_counterexample :
  nth_error (Spec.whitespace_tokens (lit "ACCT  201A")) 1 = Some (lit "201A")
  /\ @leading_digits ascii_tables (lit "201A") = lit "201"
  /\ @course_level ascii_tables (lit "ACCT  201A") = Raise ValueError
  /\ nth_error (Spec.whitespace_tokens (lit "MATH 1" ++ [178%N])) 1
     = Some (lit "1" ++ [178%N])
  /\ @leading_digits superscript_tables (lit "1" ++ [178%N])
     = lit "1" ++ [178%N]
  /\ @course_level superscript_tables (lit "MATH 1" ++ [178%N])
     = Raise ValueError.
Proof. repeat split; vm_compute; reflexivity. Qed.

(** ** The description block *)

Section Description.
Context `{Unicode}.

Lemma classify_description (pc pc' : ProcessedCourse) (block : str) :
  Reprocess.classify pc block = Ok pc' ->
  pc_description pc' = pc_description pc.
Proof.
  unfold Reprocess.classify.
  repeat match goal with
         | |- context [if ?b then _ else _] => destruct b
         end;
    try (intros Heq; injection Heq as <-; reflexivity).
  destruct (index (split (lit ":") block) 1); simpl;
    [discriminate | intros Heq; injection Heq as <-; reflexivity].
Qed.

Lemma for_each_classify_description (blocks : list str)
    (pc pc' : ProcessedCourse) :
  for_each Reprocess.classify blocks pc = Ok pc' ->
  pc_description pc' = pc_description pc.
Proof.
  revert pc. induction blocks as [|b blocks IH]; intros pc; simpl.
  - intros Heq. injection Heq as <-. reflexivity.
  - destruct (Reprocess.classify pc b) as [e|pc1] eqn:Hb; simpl;
      [discriminate|].
    intros Hrest. rewrite (IH _ Hrest). apply (classify_description _ _ _ Hb).
Qed.

(** When a structured record is produced, its description is the first
    block. *)
Lemma reprocess_course_description (course : RawCourse)
    (p : ProcessedCourse) :
  Reprocess.reprocess_course course = Ok p ->
  exists b bs, raw_blocks course = b :: bs /\ pc_description p = b.
Proof.
  unfold Reprocess.reprocess_course.
  destruct (parse_header (raw_header course)) as [e|[[code title] units]];
    simpl; [discriminate|].
  destruct (course_level code) as [e|level]; simpl; [discriminate|].
  destruct (raw_blocks course) as [|b bs]; simpl; [discriminate|].
  intros Hloop. exists b, bs. split; [reflexivity|].
  apply for_each_classify_description in Hloop. exact Hloop.
Qed.

End Description.

(** C3, as amended: on an empty block sequence the structured record is not
    built.  [blocks[0]] is read without a test: [reprocess_course] raises,
    with [IndexError] once the header and the level are derived, and
    [get_course_info] of [main.py] raises as well, with [IndexError] once
    the header is parsed. *)
Theorem empty_blocks_raise `{Unicode} (course : RawCourse)
    (expanded_element : Soup.td) (course_id : Z) (department : str)
    (siblings : list Soup.node) :
  raw_blocks course = [] ->
  Soup.hr_next_siblings expanded_element = Some siblings ->
  segment (fun b => b) siblings = [] ->
  (exists e, Reprocess.reprocess_course course = Raise e)
  /\ (forall code title units level,
        parse_header (raw_header course) = Ok (code, title, units) ->
        course_level code = Ok level ->
        Reprocess.reprocess_course course = Raise IndexError)
  /\ (exists e,
        Main.get_course_info expanded_element course_id department = Raise e)
  /\ (forall h3 parsed,
        Soup.h3_text expanded_element = Some h3 ->
        parse_header (strip h3) = Ok parsed ->
        Main.get_course_info expanded_element course_id department
        = Raise IndexError).
Proof.
  intros Hblocks Hsiblings Hsegment.
  assert (Hre : forall code title units level,
             parse_header (raw_header course) = Ok (code, title, units) ->
             course_level code = Ok level ->
             Reprocess.reprocess_course course = Raise IndexError).
  { intros code title units level Hheader Hlevel.
    unfold Reprocess.reprocess_course.
    rewrite Hheader. simpl. rewrite Hlevel. simpl. rewrite Hblocks.
    reflexivity. }
  assert (Hmain : forall h3 parsed,
             Soup.h3_text expanded_element = Some h3 ->
             parse_header (strip h3) = Ok parsed ->
             Main.get_course_info expanded_element course_id department
             = Raise IndexError).
  { intros h3 [[code title] units] Hh3 Hheader.
    unfold Main.get_course_info.
    rewrite Hh3. simpl. rewrite Hheader. simpl. rewrite Hsiblings. simpl.
    rewrite Hsegment. reflexivity. }
  split; [|split; [exact Hre|split; [|exact Hmain]]].
  - destruct (parse_header (raw_header course))
      as [e|[[code title] units]] eqn:Hheader.
    + exists e. unfold Reprocess.reprocess_course. rewrite Hheader.
      reflexivity.
    + destruct (course_level code) as [e|level] eqn:Hlevel.
      * exists e. unfold Reprocess.reprocess_course.
        rewrite Hheader. simpl. rewrite Hlevel. reflexivity.
      * exists IndexError. apply (Hre code title units level eq_refl Hlevel).
  - destruct (Soup.h3_text expanded_element) as [h3|] eqn:Hh3.
    + destruct (parse_header (strip h3)) as [e|parsed] eqn:Hheader.
      * exists e. unfold Main.get_course_info. rewrite Hh3. simpl.
        rewrite Hheader. reflexivity.
      * exists IndexError. apply (Hmain h3 parsed eq_refl Hheader).
    + exists AttributeError. unfold Main.get_course_info. rewrite Hh3.
      reflexivity.
Qed.

Lemma empty_blocks_raise_witness :
  @Reprocess.reprocess_course ascii_tables sample_raw_no_blocks
  = Raise IndexError
  /\ @Main.get_course_info ascii_tables sample_cell_no_siblings 594896
       (lit "Accounting") = Raise IndexError.
Proof.
  pose proof (@empty_blocks_raise ascii_tables sample_raw_no_blocks
                sample_cell_no_siblings 594896 (lit "Accounting") []
                eq_refl eq_refl eq_refl) as (_ & Hre & _ & Hmain).
  split.
  - apply (Hre (lit "ACCT 201A") (lit "Financial Accounting") (lit "3") 201).
    + reflexivity.
    + vm_compute. reflexivity.
  - apply (Hmain (lit "ACCT 201A - Financial Accounting (3)")
             (lit "ACCT 201A", lit "Financial Accounting", lit "3")).
    + reflexivity.
    + reflexivity.
Defined.

(** C3 fails as stated: a record without blocks makes both builders raise
    [IndexError] at [blocks[0]]. *)
Lemma empty_blocks_counterexample :
  raw_blocks sample_raw_no_blocks = []
  /\ @Reprocess.reprocess_course ascii_tables sample_raw_no_blocks
     = Raise IndexError
  /\ segment (fun b => b) [] = []
  /\ @Main.get_course_info ascii_tables sample_cell_no_siblings 594896
       (lit "Accounting") = Raise IndexError.
Proof. repeat split; vm_compute; reflexivity. Qed.

(** ** The output collection *)

Lemma lit_inj (s t : string) : lit s = lit t -> s = t.
Proof.
  revert t. induction s as [|a s IH]; intros [|b t]; simpl;
    try discriminate; [reflexivity|].
  intros Heq. injection Heq as Hab Hst.
  rewrite (IH t Hst). f_equal.
  rewrite <- (ascii_N_embedding a), <- (ascii_N_embedding b), Hab.
  reflexivity.
Qed.

Lemma str_of_int_inj (m n : Z) : str_of_int m = str_of_int n -> m = n.
Proof.
  unfold str_of_int. intros Heq. apply lit_inj in Heq.
  apply (inj pretty). exact Heq.
Qed.

Lemma store_lookup (courses : gmap str Main.course) (i id : Z)
    (c : Main.course) :
  Main.store courses i c !! str_of_int id =
  if (i =? id)%Z then Some c else courses !! str_of_int id.
Proof.
  unfold Main.store. destruct (Z.eqb_spec i id) as [->|Hne].
  - apply lookup_insert_eq.
  - apply lookup_insert_ne. intros Heq. apply Hne.
    apply str_of_int_inj. exact Heq.
Qed.

(** C4, as amended: in [main.py] the output is a dict keyed by the
    identifier, and after any sequence of insertions an identifier maps to
    the record inserted last under it (to what the dict held before, when
    none was); in [scrape.py] the output is a list, to which every record is
    appended in order, whatever its identifier. *)
Theorem output_collection (insertions : list (Z * Main.course))
    (courses : gmap str Main.course) (id : Z)
    (raw_insertions : list (Z * RawCourse)) (raw_courses : list RawCourse) :
  fold_left (fun cs p => Main.store cs p.1 p.2) insertions courses
    !! str_of_int id
  = match Spec.last_inserted id insertions with
    | Some c => Some c
    | None => courses !! str_of_int id
    end
  /\ fold_left (fun cs p => Scrape.store cs p.1 p.2) raw_insertions
       raw_courses
     = raw_courses ++ map snd raw_insertions.
Proof.
  split.
  - revert courses.
    induction insertions as [|[i c] insertions IH]; intros courses; simpl;
      [reflexivity|].
    rewrite IH. destruct (Spec.last_inserted id insertions); [reflexivity|].
    rewrite store_lookup. destruct (i =? id)%Z; reflexivity.
  - revert raw_courses.
    induction raw_insertions as [|[i r] raw_insertions IH];
      intros raw_courses; simpl.
    + symmetry. apply app_nil_r.
    + rewrite IH. unfold Scrape.store. rewrite <- app_assoc. reflexivity.
Qed.

(** C4 fails as stated for [scrape.py]: two records inserted under one
    identifier are both in the output, in insertion order. *)
Lemma output_collection_counterexample :
  fold_left (fun cs p => Scrape.store cs p.1 p.2)
    [(594896, sample_row_raw); (594896, sample_raw_no_blocks)] []
  = [sample_row_raw; sample_raw_no_blocks]
  /\ raw_course_id sample_row_raw = raw_course_id sample_raw_no_blocks
  /\ sample_row_raw <> sample_raw_no_blocks.
Proof. repeat split. discriminate. Qed.

(** ** The row alignment *)

Section Alignment.
Context `{Unicode} {C R : Type}.
Variable get_info : Soup.td -> Z -> str -> result R.
Variable store : C -> Z -> R -> C.

Lemma loop_rows_equal_length (expanded unexpanded : list Soup.tr)
    (current_section : str) (courses : C) :
  length expanded = length unexpanded ->
  loop_rows get_info store expanded unexpanded current_section courses
  = Spec.walk_pairs get_info store (combine expanded unexpanded)
      current_section courses.
Proof.
  revert unexpanded current_section courses.
  induction expanded as [|e expanded IH];
    intros [|u unexpanded] current_section courses Hlen;
    simpl in Hlen; try discriminate; [reflexivity|].
  simpl.
  destruct (row_body get_info store e u current_section courses)
    as [err|[section courses']]; [reflexivity|].
  apply IH. lia.
Qed.

Lemma loop_rows_mismatch (expanded unexpanded : list Soup.tr)
    (current_section : str) (courses : C) :
  length expanded <> length unexpanded ->
  loop_rows get_info store expanded unexpanded current_section courses
  = let walk := Spec.walk_pairs get_info store (combine expanded unexpanded)
                  current_section courses in
    (walk.1, match walk.2 with
             | inr _ => Raise ValueError
             | inl e => inl e
             end).
Proof.
  revert unexpanded current_section courses.
  induction expanded as [|e expanded IH];
    intros [|u unexpanded] current_section courses Hlen;
    simpl in Hlen; try congruence; try reflexivity.
  simpl.
  destruct (row_body get_info store e u current_section courses)
    as [err|[section courses']]; [reflexivity|].
  apply IH. lia.
Qed.

End Alignment.

(** C5, as amended: when the two row sequences of a page differ in length,
    the rows of the common prefix are walked pairwise first and what they
    stored stays in the collection; the loop then raises: the exception of
    the first row that fails, or [ValueError] from [zip] when none does.
    Sequences of equal length are walked pairwise, in document order. *)
Theorem alignment_walk `{Unicode} (expanded unexpanded : list Soup.tr)
    (courses : gmap str Main.course) (raw_courses : list RawCourse) :
  (length expanded <> length unexpanded ->
   let main := Spec.walk_pairs Main.get_course_info Main.store
                 (combine expanded unexpanded) [] courses in
   let scrape := Spec.walk_pairs Scrape.get_course_info Scrape.store
                   (combine expanded unexpanded) [] raw_courses in
   Main.loop_through_courses expanded unexpanded courses
   = (main.1, match main.2 with
              | inr _ => Raise ValueError
              | inl e => inl e
              end)
   /\ Scrape.loop_through_courses expanded unexpanded raw_courses
      = (scrape.1, match scrape.2 with
                   | inr _ => Raise ValueError
                   | inl e => inl e
                   end)
   /\ is_ok (Main.loop_through_courses expanded unexpanded courses).2
      = false
   /\ is_ok (Scrape.loop_through_courses expanded unexpanded raw_courses).2
      = false)
  /\ (length expanded = length unexpanded ->
      Main.loop_through_courses expanded unexpanded courses
      = Spec.walk_pairs Main.get_course_info Main.store
          (combine expanded unexpanded) [] courses
      /\ Scrape.loop_through_courses expanded unexpanded raw_courses
         = Spec.walk_pairs Scrape.get_course_info Scrape.store
             (combine expanded unexpanded) [] raw_courses).
Proof.
  unfold Main.loop_through_courses, Scrape.loop_through_courses. split.
  - intros Hlen.
    rewrite !(loop_rows_mismatch _ _ expanded unexpanded) by exact Hlen.
    simpl. repeat split.
    + destruct (Spec.walk_pairs Main.get_course_info Main.store
                  (combine expanded unexpanded) [] courses).2; reflexivity.
    + destruct (Spec.walk_pairs Scrape.get_course_info Scrape.store
                  (combine expanded unexpanded) [] raw_courses).2;
        reflexivity.
  - intros Hlen.
    rewrite !(loop_rows_equal_length _ _ expanded unexpanded) by exact Hlen.
    split; reflexivity.
Qed.

Example sample_row_main :
  @Main.get_course_info ascii_tables sample_expanded_cell 594896 []
  = Ok sample_row_course.
Proof. vm_compute. reflexivity. Qed.

Example sample_row_scrape :
  @Scrape.get_course_info ascii_tables sample_expanded_cell 594896 []
  = Ok sample_row_raw.
Proof. vm_compute. reflexivity. Qed.

Example sample_row_id :
  @get_course_id ascii_tables sample_unexpanded_cell = Ok 594896.
Proof. vm_compute. reflexivity. Qed.

Lemma alignment_walk_witness :
  is_ok (@Main.loop_through_courses ascii_tables
           [sample_expanded_row; sample_spacer_row; sample_spacer_row;
            sample_spacer_row; sample_spacer_row]
           [sample_unexpanded_row; sample_spacer_row; sample_spacer_row;
            sample_spacer_row] ∅).2 = false.
Proof.
  refine (proj1 (proj2 (proj2 (proj1 (@alignment_walk ascii_tables
            [sample_expanded_row; sample_spacer_row; sample_spacer_row;
             sample_spacer_row; sample_spacer_row]
            [sample_unexpanded_row; sample_spacer_row; sample_spacer_row;
             sample_spacer_row] ∅ []) _)))).
  simpl. lia.
Defined.

(** C5 fails as stated: with one row on one side and two on the other, the
    first pair is processed and its record is stored before [zip] raises;
    the record stays in the collection. *)
Lemma alignment_walk_counterexample :
  @Main.loop_through_courses ascii_tables
    [sample_expanded_row] [sample_unexpanded_row; sample_spacer_row] ∅
  = (Main.store ∅ 594896 sample_row_course, Raise ValueError)
  /\ Main.store ∅ 594896 sample_row_course !! str_of_int 594896
     = Some sample_row_course
  /\ @Scrape.loop_through_courses ascii_tables
       [sample_expanded_row] [sample_unexpanded_row; sample_spacer_row] []
     = ([sample_row_raw], Raise ValueError).
Proof.
  split; [|split].
  - unfold Main.loop_through_courses. cbn [loop_rows].
    unfold row_body. cbn [Soup.tds sample_expanded_row sample_unexpanded_row
      length Nat.eqb negb orb index nth_error bind Ok].
    rewrite sample_row_id. cbn [bind Ok]. rewrite sample_row_main.
    reflexivity.
  - rewrite store_lookup, Z.eqb_refl. reflexivity.
  - unfold Scrape.loop_through_courses. cbn [loop_rows].
    unfold row_body. cbn [Soup.tds sample_expanded_row sample_unexpanded_row
      length Nat.eqb negb orb index nth_error bind Ok].
    rewrite sample_row_id. cbn [bind Ok]. rewrite sample_row_scrape.
    reflexivity.
Qed.

(** ** The text normaliser *)

Import Util.

(** A property of every item of the table holds of every entry found in
    it. *)
Lemma replace_char_map_items (P : N * str -> Prop) :
  List.Forall P REPLACE_CHAR_ITEMS ->
  forall k v, REPLACE_CHAR_MAP !! k = Some v -> P (k, v).
Proof.
  intros Hall k v Hkv. unfold REPLACE_CHAR_MAP in Hkv.
  apply elem_of_list_to_map_2 in Hkv.
  rewrite List.Forall_forall in Hall. apply Hall.
  apply list_elem_of_In. exact Hkv.
Qed.

Lemma replace_targets_ascii (k : N) (v : str) :
  REPLACE_CHAR_MAP !! k = Some v -> Forall (fun c => (c < 128)%N) v.
Proof.
  apply (replace_char_map_items (fun kv => Forall (fun c => (c < 128)%N) kv.2)).
  unfold REPLACE_CHAR_ITEMS. repeat constructor.
Qed.

(** A character that is not whitespace is replaced by a text that begins
    with a character that is not whitespace. *)
Lemma replace_keeps_head (c : N) :
  isspace c = false ->
  exists d r, default [c] (REPLACE_CHAR_MAP !! c) = d :: r
              /\ isspace d = false.
Proof.
  intros Hc. destruct (REPLACE_CHAR_MAP !! c) as [v|] eqn:Hv; simpl.
  - revert Hc.
    apply (replace_char_map_items
             (fun kv => isspace kv.1 = false ->
                        exists d r, kv.2 = d :: r /\ isspace d = false)
             ltac:(unfold REPLACE_CHAR_ITEMS;
                   repeat constructor; simpl; intros Hk;
                   try discriminate; eexists _, _; split; reflexivity)
             c v Hv).
  - exists c, []. split; [reflexivity | exact Hc].
Qed.

Lemma reported_unknown (l : list N) `{Unicode} :
  Spec.reported (map (fun c => Unknown (report c)) l) = l.
Proof.
  induction l as [|c l IH]; simpl; [reflexivity|].
  f_equal. exact IH.
Qed.

Lemma reported_sorted_set `{Unicode} (text : str) :
  Spec.reported (clean_text_printed text)
  = merge_sort N.le (elements (unknown_chars text)).
Proof.
  unfold clean_text_printed. cbv zeta. case_bool_decide as Hempty.
  - rewrite Hempty, elements_empty. reflexivity.
  - simpl. apply reported_unknown.
Qed.

(** C9, as amended: the substitution table maps each of its twelve code
    points to one ASCII text (of one or three characters, and not
    one-to-one: both double quotation marks go to the ASCII double quote);
    and on every input the normaliser prints exactly one diagnostic, with
    code point, glyph and name, for each distinct character above 127 that
    is not in the table, and none for any other character. *)
Theorem normalizer_table_and_diagnostics `{Unicode} :
  size REPLACE_CHAR_MAP = 12%nat
  /\ (forall k v, REPLACE_CHAR_MAP !! k = Some v ->
                  Forall (fun c => (c < 128)%N) v
                  /\ (length v = 1%nat \/ length v = 3%nat)
                  /\ translate [k] = v)
  /\ (8220%N <> 8221%N
      /\ REPLACE_CHAR_MAP !! 8220%N = REPLACE_CHAR_MAP !! 8221%N)
  /\ (forall text,
        NoDup (Spec.reported (clean_text_printed text))
        /\ (forall c, In c (Spec.reported (clean_text_printed text))
                      <-> In c text /\ (127 < c)%N
                          /\ REPLACE_CHAR_MAP !! c = None)
        /\ Forall (fun l => l = Heading
                            \/ exists c,
                                 l = Unknown
                                       {| codepoint := c;
                                          glyph := c;
                                          name := default (lit "<unknown>")
                                                    (unicode_name c) |})
             (clean_text_printed text)).
Proof.
  split; [|split; [|split]].
  - unfold REPLACE_CHAR_MAP. rewrite map_size_list_to_map.
    + reflexivity.
    + apply NoDup_ListNoDup. unfold REPLACE_CHAR_ITEMS. cbn [fmap list_fmap fst].
      repeat (constructor; [cbn [In]; intuition discriminate|]).
      constructor.
  - intros k v Hkv. split; [exact (replace_targets_ascii k v Hkv)|].
    split.
    + revert k v Hkv.
      apply (replace_char_map_items
               (fun kv => length kv.2 = 1%nat \/ length kv.2 = 3%nat)).
      unfold REPLACE_CHAR_ITEMS.
      repeat (constructor; [first [left; reflexivity | right; reflexivity]|]).
      constructor.
    + unfold translate. simpl. rewrite Hkv. simpl. apply app_nil_r.
  - split; [discriminate | vm_compute; reflexivity].
  - intros text. split; [|split].
    + rewrite reported_sorted_set, merge_sort_Permutation.
      apply NoDup_elements.
    + intros c. rewrite reported_sorted_set.
      rewrite <- list_elem_of_In, merge_sort_Permutation, elem_of_elements.
      unfold unknown_chars.
      rewrite elem_of_list_to_set, list_elem_of_filter, list_elem_of_In.
      unfold is_unknown.
      rewrite andb_true_iff, N.ltb_lt, bool_decide_eq_true. tauto.
    + unfold clean_text_printed. cbv zeta. case_bool_decide; [constructor|].
      constructor; [left; reflexivity|].
      apply Forall_forall. intros l Hl. apply list_elem_of_In in Hl.
      apply in_map_iff in Hl as (c & <- & _). right. exists c. reflexivity.
Qed.

Lemma normalizer_table_and_diagnostics_witness :
  Forall (fun c => (c < 128)%N) (lit "e")
  /\ (length (lit "e") = 1%nat \/ length (lit "e") = 3%nat)
  /\ translate [233%N] = lit "e".
Proof.
  apply (proj1 (proj2 (@normalizer_table_and_diagnostics ascii_tables))
           233%N).
  vm_compute. reflexivity.
Defined.

(** C9 fails as stated: the table is not one-to-one, since the left and the
    right double quotation mark have the same target; and two targets are
    three characters long. *)
Lemma normalizer_table_counterexample :
  REPLACE_CHAR_MAP !! 8220%N = Some [34%N]
  /\ REPLACE_CHAR_MAP !! 8221%N = Some [34%N]
  /\ 8220%N <> 8221%N
  /\ REPLACE_CHAR_MAP !! 169%N = Some (lit "(c)").
Proof. repeat split; try (vm_compute; reflexivity). discriminate. Qed.

(** ** The block segmenter *)

Import Soup.

Lemma join_space_cons (t : str) (rest : list str) :
  Spec.join_space (t :: rest) = t ++ concat (map (cons 32%N) rest).
Proof.
  revert t. induction rest as [|r rest IH]; intros t.
  - simpl. symmetry. apply app_nil_r.
  - change (Spec.join_space (t :: r :: rest))
      with (t ++ 32%N :: Spec.join_space (r :: rest)).
    rewrite IH. reflexivity.
Qed.

Lemma rstrip_app_kept (a b : str) :
  rstrip b <> [] -> rstrip (a ++ b) = a ++ rstrip b.
Proof.
  unfold rstrip. intros Hb. rewrite rev_app_distr, dropwhile_app.
  destruct (forallb isspace (rev b)) eqn:Hall.
  - exfalso. apply Hb. rewrite (dropwhile_all _ _ Hall). reflexivity.
  - rewrite rev_app_distr, rev_involutive. reflexivity.
Qed.

(** A text that is its own trimming and is not empty has nothing to trim
    at either end. *)
Lemma trimmed_ends (s : str) :
  strip s = s -> s <> [] -> lstrip s = s /\ rstrip s = s.
Proof.
  intros Hs Hne. destruct s as [|c t]; [congruence|].
  pose proof (strip_head _ _ _ Hs) as Hc.
  assert (Hl : lstrip (c :: t) = c :: t)
    by (unfold lstrip; simpl; rewrite Hc; reflexivity).
  split; [exact Hl|]. unfold strip in Hs. rewrite Hl in Hs. exact Hs.
Qed.

Lemma join_space_trimmed (texts : list str) :
  Forall (fun t => strip t = t /\ t <> []) texts ->
  texts <> [] ->
  strip (Spec.join_space texts) = Spec.join_space texts
  /\ Spec.join_space texts <> [].
Proof.
  intros Hall. induction Hall as [|t rest [Ht Hne] Hrest IH]; [congruence|].
  intros _. destruct rest as [|r rest].
  - simpl. split; assumption.
  - destruct IH as [Hj Hjne]; [discriminate|].
    change (Spec.join_space (t :: r :: rest))
      with (t ++ 32%N :: Spec.join_space (r :: rest)).
    destruct (trimmed_ends _ Hj Hjne) as [_ Hjr].
    destruct t as [|c t]; [congruence|].
    pose proof (strip_head _ _ _ Ht) as Hc.
    split; [|discriminate].
    set (J := Spec.join_space (r :: rest)) in *.
    unfold strip, lstrip. cbn [app dropwhile]. rewrite Hc.
    replace (c :: t ++ 32%N :: J) with ((c :: t ++ [32%N]) ++ J)
      by (cbn [app]; rewrite <- app_assoc; reflexivity).
    rewrite rstrip_app_kept; rewrite Hjr; [reflexivity | exact Hjne].
Qed.

Lemma visible_texts_trimmed (siblings : list node) :
  Forall (fun t => strip t = t /\ t <> []) (Spec.visible_texts siblings).
Proof.
  unfold Spec.visible_texts. apply List.Forall_forall. intros t Hin.
  apply filter_In in Hin as [Hin Hne].
  apply in_map_iff in Hin as (n & <- & _).
  split; [apply strip_strip | apply nonempty_true; exact Hne].
Qed.

(** The buffer after a walk over siblings none of which is a line break. *)
Lemma walk_siblings_no_br (clean : str -> str) (siblings : list node)
    (blocks : list str) (current_block : str) :
  Forall (fun n => Spec.is_br n = false) siblings ->
  walk_siblings clean siblings blocks current_block
  = let buffer :=
      current_block ++ concat (map (cons 32%N) (Spec.visible_texts siblings))
    in
    if nonempty (strip buffer) then blocks ++ [clean (strip buffer)]
    else blocks.
Proof.
  intros Hall. revert current_block.
  induction Hall as [|n siblings Hn Hall IH]; intros current_block.
  - simpl. rewrite app_nil_r. reflexivity.
  - destruct n as [|t]; [discriminate|].
    unfold Spec.visible_texts. simpl.
    destruct (nonempty (strip t)) eqn:Ht.
    + rewrite IH. cbv zeta. simpl.
      replace ((current_block ++ 32%N :: strip t)
               ++ concat (map (cons 32%N) (Spec.visible_texts siblings)))
        with (current_block ++ 32%N
              :: strip t
              ++ concat (map (cons 32%N) (Spec.visible_texts siblings)))
        by (rewrite <- app_assoc; reflexivity).
      reflexivity.
    + rewrite IH. reflexivity.
Qed.

Lemma segment_no_br (clean : str -> str) (siblings : list node) :
  Forall (fun n => Spec.is_br n = false) siblings ->
  segment clean siblings
  = if nonempty (Spec.joined_text siblings)
    then [clean (Spec.joined_text siblings)] else [].
Proof.
  intros Hall. unfold segment.
  rewrite (walk_siblings_no_br clean siblings [] [] Hall). cbv zeta.
  unfold Spec.joined_text.
  pose proof (visible_texts_trimmed siblings) as Htexts.
  destruct (Spec.visible_texts siblings) as [|t rest] eqn:Hv.
  - reflexivity.
  - destruct (join_space_trimmed (t :: rest) Htexts) as [Hj Hjne];
      [discriminate|].
    simpl concat. simpl app.
    rewrite <- join_space_cons.
    rewrite strip_space_front by reflexivity. rewrite Hj.
    apply nonempty_true in Hjne. rewrite Hjne. reflexivity.
Qed.

(** Every block appended by the walk satisfies what holds of each cleaned,
    trimmed, non-empty buffer. *)
Lemma walk_siblings_invariant (P : str -> Prop) (clean : str -> str)
    (siblings : list node) (blocks : list str) (current_block : str) :
  (forall s, strip s <> [] -> P (clean (strip s))) ->
  Forall P blocks ->
  Forall P (walk_siblings clean siblings blocks current_block).
Proof.
  intros Hclean. revert blocks current_block.
  induction siblings as [|n siblings IH]; intros blocks current_block Hb;
    simpl.
  - destruct (nonempty (strip current_block)) eqn:Hne; [|exact Hb].
    apply Forall_app. split; [exact Hb|]. constructor; [|constructor].
    apply Hclean. apply nonempty_true. exact Hne.
  - destruct n as [|t].
    + destruct (nonempty (strip current_block)) eqn:Hne; apply IH;
        [|exact Hb].
      apply Forall_app. split; [exact Hb|]. constructor; [|constructor].
      apply Hclean. apply nonempty_true. exact Hne.
    + destruct (nonempty (strip t)); apply IH; exact Hb.
Qed.

Lemma strip_nonspace_head (d : N) (s : str) :
  isspace d = false -> strip (d :: s) <> [].
Proof.
  intros Hd. unfold strip, lstrip. simpl. rewrite Hd, rstrip_cons.
  destruct (rstrip s); [rewrite Hd|]; discriminate.
Qed.

Lemma translate_keeps_text (s : str) :
  strip s <> [] -> strip (translate (strip s)) <> [].
Proof.
  intros Hne. destruct (strip s) as [|c t] eqn:Hs; [congruence|].
  pose proof (strip_head _ _ _ Hs) as Hc.
  destruct (replace_keeps_head c Hc) as (d & r & Hrepl & Hd).
  unfold translate. simpl. rewrite Hrepl. simpl.
  apply strip_nonspace_head. exact Hd.
Qed.

(** C7, as amended: when no sibling after the separator is a line break,
    segmentation yields one block, or none when no sibling has visible
    text.  In [main.py] the block is the trimmed texts of the siblings
    joined by single spaces; in [scrape.py] it is what the normaliser
    returns on that text.  And for every fragment, no block is empty after
    trimming. *)
Theorem segment_blocks `{Unicode} (siblings : list node) :
  (Forall (fun n => Spec.is_br n = false) siblings ->
   segment (fun b => b) siblings
   = (if nonempty (Spec.joined_text siblings)
      then [Spec.joined_text siblings] else [])
   /\ segment (fun b => (clean_text b).2) siblings
      = (if nonempty (Spec.joined_text siblings)
         then [translate (Spec.joined_text siblings)] else []))
  /\ Forall (fun b => strip b <> []) (segment (fun b => b) siblings)
  /\ Forall (fun b => strip b <> [])
       (segment (fun b => (clean_text b).2) siblings).
Proof.
  split; [|split].
  - intros Hall. split.
    + apply (segment_no_br (fun b => b) siblings Hall).
    + apply (segment_no_br (fun b => (clean_text b).2) siblings Hall).
  - apply walk_siblings_invariant; [|constructor].
    intros s Hs. rewrite strip_strip. exact Hs.
  - apply walk_siblings_invariant; [|constructor].
    intros s Hs. simpl. apply translate_keeps_text. exact Hs.
Qed.

Lemma segment_blocks_witness :
  segment (fun b => b)
    [Other (lit " Accounting concepts "); Other (lit "  ");
     Other (lit "and techniques.")]
  = [lit "Accounting concepts and techniques."].
Proof.
  apply (proj1 (proj1 (@segment_blocks ascii_tables
           [Other (lit " Accounting concepts "); Other (lit "  ");
            Other (lit "and techniques.")])
         ltac:(repeat constructor))).
Defined.

(** C7 fails as stated for [scrape.py]: the block is the normalised text,
    not the text itself. *)
Lemma segment_blocks_counterexample :
  @segment (fun b => (@clean_text ascii_tables b).2)
    [Other [99; 97; 102; 233]%N]
  = [lit "cafe"]
  /\ Spec.joined_text [Other [99; 97; 102; 233]%N] = [99; 97; 102; 233]%N
  /\ lit "cafe" <> [99; 97; 102; 233]%N.
Proof. repeat split; try (vm_compute; reflexivity). discriminate. Qed.

(** * Further properties of the code *)

(** ** Parts of a text *)

Lemma in_first_split (x : N) (s : str) :
  In x s -> exists a b, s = a ++ x :: b /\ ~ In x a.
Proof.
  induction s as [|c s IH]; intros Hin; [destruct Hin|].
  destruct (N.eq_dec c x) as [->|Hne].
  - exists [], s. split; [reflexivity | intros []].
  - destruct Hin as [Heq|Hin]; [congruence|].
    destruct (IH Hin) as (a & b & -> & Ha).
    exists (c :: a), b. split; [reflexivity|].
    intros [Heq|Hin']; [congruence | contradiction].
Qed.

Lemma dropwhile_suffix (p : N -> bool) (s : str) :
  exists a, s = a ++ dropwhile p s.
Proof.
  induction s as [|c s [a Ha]]; simpl.
  - exists []. reflexivity.
  - destruct (p c).
    + exists (c :: a). simpl. f_equal. exact Ha.
    + exists []. reflexivity.
Qed.

Lemma strip_part (s : str) : exists a b, s = a ++ strip s ++ b.
Proof.
  unfold strip, lstrip, rstrip.
  destruct (dropwhile_suffix isspace s) as [a Ha].
  destruct (dropwhile_suffix isspace (rev (dropwhile isspace s))) as [b Hb].
  exists a, (rev b). rewrite <- rev_app_distr, <- Hb, rev_involutive.
  exact Ha.
Qed.

Lemma slice_part (s : str) (lo hi : Z) :
  exists a b, s = a ++ slice s lo hi ++ b.
Proof.
  unfold slice. cbv zeta.
  set (k := Z.to_nat (norm_index (Z.of_nat (length s)) lo)).
  set (n := Z.to_nat (norm_index (Z.of_nat (length s)) hi
                      - norm_index (Z.of_nat (length s)) lo)).
  exists (take k s), (drop n (drop k s)).
  rewrite (take_drop n (drop k s)), (take_drop k s). reflexivity.
Qed.

Lemma strip_in (c : N) (s : str) : In c (strip s) -> In c s.
Proof.
  destruct (strip_part s) as (a & b & Hs). intros Hin. rewrite Hs.
  apply in_or_app. right. apply in_or_app. left. exact Hin.
Qed.

(** ** The header parser: what it raises and what it returns *)

Lemma parse_header_no_dash (header : str) :
  ~ In 45%N header -> parse_header header = Raise IndexError.
Proof.
  intros Hno. unfold parse_header, split1. change (lit "-") with [45%N].
  rewrite (partition_char_absent 45%N header Hno). reflexivity.
Qed.

(** X1: header parsing raises only when the header has no "-", and then it
    raises [IndexError]. *)
Theorem parse_header_raises (header : str) :
  (parse_header header = Raise IndexError <-> ~ In 45%N header)
  /\ (forall e, parse_header header = Raise e -> e = IndexError).
Proof.
  destruct (in_dec N.eq_dec 45%N header) as [Hin|Hno].
  - destruct (in_first_split _ _ Hin) as (before & after & -> & Hb).
    rewrite (parse_header_dash before after Hb).
    split; [split|]; [discriminate | contradiction | discriminate].
  - rewrite (parse_header_no_dash header Hno). split; [split; [intros _; exact Hno | reflexivity]|].
    intros e Heq. injection Heq as <-. reflexivity.
Qed.

(** X2: when header parsing succeeds, the course code has no "-" and is
    trimmed, the title is trimmed, and code, title and units are each a
    contiguous part of the header. *)
Theorem parse_header_parts (header code title units : str) :
  parse_header header = Ok (code, title, units) ->
  ~ In 45%N code
  /\ strip code = code
  /\ strip title = title
  /\ (exists a b, header = a ++ code ++ b)
  /\ (exists a b, header = a ++ title ++ b)
  /\ (exists a b, header = a ++ units ++ b).
Proof.
  intros Hparse.
  destruct (in_dec N.eq_dec 45%N header) as [Hin|Hno].
  2:{ rewrite (parse_header_no_dash header Hno) in Hparse. discriminate. }
  destruct (in_first_split _ _ Hin) as (before & after & -> & Hb).
  rewrite (parse_header_dash before after Hb) in Hparse.
  injection Hparse as <- <- <-.
  destruct (strip_part before) as (a1 & b1 & H1).
  destruct (strip_part after) as (a2 & b2 & H2).
  split; [intros Hc; apply Hb; apply strip_in; exact Hc|].
  split; [apply strip_strip|]. split; [apply strip_strip|].
  split; [|split].
  - exists a1, (b1 ++ 45%N :: after). rewrite H1 at 1.
    rewrite <- !app_assoc. reflexivity.
  - destruct (slice_part (strip after) 0 (rfind (strip after) 40))
      as (a3 & b3 & H3).
    destruct (strip_part (slice (strip after) 0 (rfind (strip after) 40)))
      as (a4 & b4 & H4).
    exists (before ++ 45%N :: a2 ++ a3 ++ a4), (b4 ++ b3 ++ b2).
    rewrite H2 at 1. rewrite H3 at 1. rewrite H4 at 1.
    rewrite <- !app_assoc. simpl. rewrite <- !app_assoc. reflexivity.
  - destruct (slice_part (strip after) (rfind (strip after) 40 + 1)
                (rfind (strip after) 41)) as (a3 & b3 & H3).
    exists (before ++ 45%N :: a2 ++ a3), (b3 ++ b2).
    rewrite H2 at 1. rewrite H3 at 1.
    rewrite <- !app_assoc. simpl. rewrite <- !app_assoc. reflexivity.
Qed.

Lemma parse_header_parts_witness :
  ~ In 45%N (lit "ACCT 201A") /\ strip (lit "ACCT 201A") = lit "ACCT 201A".
Proof.
  pose proof (parse_header_parts
                (lit "ACCT 201A - Financial Accounting (3)")
                (lit "ACCT 201A") (lit "Financial Accounting") (lit "3")
                eq_refl) as (Hdash & Hcode & _).
  split; [exact Hdash | exact Hcode].
Defined.

(** ** The course level: what it raises, and its sign *)

Lemma split_char_two (x : N) (s : str) :
  In x s -> exists p q r, split [x] s = p :: q :: r.
Proof.
  intros Hin. destruct (in_first_split _ _ Hin) as (a & b & -> & Ha).
  rewrite (split_char_first x a b Ha).
  destruct (split [x] b) as [|q r] eqn:Hb.
  - exfalso. exact (split_go_not_nil [x] 0 b Hb).
  - exists a, q, r. reflexivity.
Qed.

Lemma dropwhile_forall (P : N -> Prop) (p : N -> bool) (s : str) :
  Forall P s -> Forall P (dropwhile p s).
Proof.
  intros Hs. induction Hs as [|c s Hc Hs IH]; simpl; [constructor|].
  destruct (p c); [exact IH | constructor; assumption].
Qed.

Lemma int_strip_forall (P : N -> Prop) (s : str) :
  Forall P s -> Forall P (int_strip s).
Proof.
  intros Hs. unfold int_strip.
  apply List.Forall_rev, dropwhile_forall, List.Forall_rev, dropwhile_forall.
  exact Hs.
Qed.

Section LevelErrors.
Context `{Unicode}.

Lemma int_raises (s : str) (e : exn) : int s = Raise e -> e = ValueError.
Proof.
  unfold int.
  destruct (match int_strip s with
            | [] => None
            | c :: t =>
                if (c =? 45)%N then Z.opp <$> int_digits 0 0 false t
                else if (c =? 43)%N then int_digits 0 0 false t
                else int_digits 0 0 false (c :: t)
            end); [discriminate|].
  intros Heq. injection Heq as <-. reflexivity.
Qed.

Lemma leading_digits_isdigit (s : str) :
  Forall (fun c => isdigit c = true) (leading_digits s).
Proof.
  induction s as [|c s IH]; simpl; [constructor|].
  destruct (isdigit c) eqn:Hc; constructor; assumption.
Qed.

Lemma isdigit_not_sign (c : N) :
  isdigit c = true -> (c =? 45)%N = false /\ (c =? 43)%N = false.
Proof.
  unfold isdigit. intros Hc.
  destruct (N.ltb_spec c 128) as [Hlt|Hge].
  - apply andb_true_iff in Hc as [Hlo Hhi].
    apply N.leb_le in Hlo. apply N.leb_le in Hhi.
    split; apply N.eqb_neq; lia.
  - split; apply N.eqb_neq; lia.
Qed.

Hypothesis decimal_nonneg :
  forall c d, unicode_decimal c = Some d -> 0 <= d.

Lemma decimal_value_nonneg (c : N) (d : Z) :
  decimal_value c = Some d -> 0 <= d.
Proof using decimal_nonneg.
  unfold decimal_value.
  destruct (c <? 128)%N; [|apply decimal_nonneg].
  destruct ((48 <=? c)%N && (c <=? 57)%N) eqn:Hc; [|discriminate].
  apply andb_true_iff in Hc as [Hlo _]. apply N.leb_le in Hlo.
  intros Heq. injection Heq as <-. lia.
Qed.

Lemma int_digits_nonneg (s : str) (acc : Z) (n : nat) (b : bool) (z : Z) :
  0 <= acc -> int_digits acc n b s = Some z -> 0 <= z.
Proof using decimal_nonneg.
  revert acc n b. induction s as [|c s IH]; intros acc n b Hacc; simpl.
  - destruct (b && (n <=? int_max_str_digits)%nat); [|discriminate].
    intros Heq. injection Heq as <-. exact Hacc.
  - destruct (c =? 95)%N.
    + destruct b; [apply IH; exact Hacc | discriminate].
    + destruct (decimal_value c) as [d|] eqn:Hd; [|discriminate].
      apply IH. pose proof (decimal_value_nonneg c d Hd). lia.
Qed.

Lemma int_unsigned_nonneg (s : str) (z : Z) :
  Forall (fun c => isdigit c = true) s -> int s = Ok z -> 0 <= z.
Proof using decimal_nonneg.
  intros Hs. unfold int.
  pose proof (int_strip_forall _ s Hs) as Hstrip.
  destruct (int_strip s) as [|c t]; [discriminate|].
  inversion Hstrip as [|c' t' Hc Ht]; subst.
  destruct (isdigit_not_sign c Hc) as [-> ->].
  destruct (int_digits 0 0 false (c :: t)) as [v|] eqn:Hv; [|discriminate].
  intros Heq. injection Heq as <-.
  apply (int_digits_nonneg (c :: t) 0 0 false v); [lia | exact Hv].
Qed.

Lemma course_level_nonneg_section (course_code : str) (level : Z) :
  course_level course_code = Ok level -> 0 <= level.
Proof using decimal_nonneg.
  unfold course_level.
  destruct (index (split (lit " ") course_code) 1) as [e|number]; simpl;
    [discriminate|].
  apply int_unsigned_nonneg, leading_digits_isdigit.
Qed.

End LevelErrors.

(** X3: deriving the level raises [IndexError] exactly when the course code
    has no space, and otherwise it can raise only [ValueError]. *)
Theorem course_level_raises `{Unicode} (course_code : str) :
  (course_level course_code = Raise IndexError <-> ~ In 32%N course_code)
  /\ (forall e, course_level course_code = Raise e ->
                e = IndexError \/ e = ValueError).
Proof.
  unfold course_level. change (lit " ") with [32%N].
  destruct (in_dec N.eq_dec 32%N course_code) as [Hin|Hno].
  - destruct (split_char_two _ _ Hin) as (p & q & r & ->). simpl.
    split; [split|].
    + intros Hraise. apply int_raises in Hraise. discriminate.
    + contradiction.
    + intros e Hraise. right. apply (int_raises _ _ Hraise).
  - rewrite (split_char_no_second 32%N course_code Hno). simpl.
    split; [split; [intros _; exact Hno | reflexivity]|].
    intros e Heq. injection Heq as <-. left. reflexivity.
Qed.

(** X4: a derived level is never negative (the digit values of the
    interpreter's tables being none negative): a sign in the course number
    stops the digit run at once. *)
Theorem course_level_nonneg `{Unicode} (course_code : str) (level : Z) :
  (forall c d, unicode_decimal c = Some d -> 0 <= d) ->
  course_level course_code = Ok level -> 0 <= level.
Proof.
  intros Htables. apply course_level_nonneg_section. exact Htables.
Qed.

Lemma course_level_nonneg_witness : 0 <= 201.
Proof.
  apply (@course_level_nonneg ascii_tables (lit "ACCT 201A") 201).
  - intros c d Hd. discriminate.
  - vm_compute. reflexivity.
Defined.

(** ** The identifier extractor *)

Lemma startswith_long (sep a b : str) :
  (length sep <= length a)%nat ->
  startswith (a ++ b) sep = startswith a sep.
Proof.
  revert a. induction sep as [|c sep IH]; intros a Hlen; [reflexivity|].
  destruct a as [|d a]; simpl in Hlen; [lia|].
  simpl. rewrite IH by lia. reflexivity.
Qed.

Lemma split_go_skip (sep x rest : str) :
  split_go sep (length x) (x ++ rest) = split_go sep 0 rest.
Proof. induction x as [|c x IH]; [reflexivity | exact IH]. Qed.

Lemma split_absent (sep s : str) :
  sep <> [] -> contains s sep = false -> split sep s = [s].
Proof.
  intros Hsep. unfold split.
  induction s as [|c s IH]; intros Hno; [reflexivity|].
  cbn [contains] in Hno. apply orb_false_iff in Hno as [Hstart Hrest].
  cbn [split_go]. rewrite Hstart, (IH Hrest). reflexivity.
Qed.

(** The split at the first occurrence of a separator that ends with [l]: no
    occurrence begins in [pre]. *)
Lemma split_first (sep front : str) (l : N) (pre rest : str) :
  sep = front ++ [l] ->
  contains (pre ++ front) sep = false ->
  split sep (pre ++ sep ++ rest) = pre :: split sep rest.
Proof.
  intros Hsep.
  assert (Hlen : length sep = S (length front))
    by (subst sep; rewrite length_app; simpl; lia).
  unfold split. induction pre as [|c pre IH]; intros Hno.
  - cbn [app]. destruct sep as [|f sep']; [discriminate Hlen|].
    cbn [app split_go].
    pose proof (startswith_app (f :: sep') rest) as Hs.
    cbn [app] in Hs. rewrite Hs.
    replace (length (f :: sep') - 1)%nat with (length sep')
      by (simpl; lia).
    rewrite split_go_skip. reflexivity.
  - cbn [app contains] in Hno.
    apply orb_false_iff in Hno as [Hstart Hrest].
    cbn [app split_go].
    assert (Hsame : c :: pre ++ sep ++ rest
                    = (c :: pre ++ front) ++ l :: rest).
    { subst sep. cbn [app]. rewrite <- !app_assoc. reflexivity. }
    rewrite Hsame at 1. rewrite startswith_long.
    2:{ cbn [length]. rewrite length_app. lia. }
    rewrite Hstart, (IH Hrest). reflexivity.
Qed.

Lemma split_absent_head (c : N) (sep s : str) :
  ~ In c s -> split (c :: sep) s = [s].
Proof.
  intros Hno. apply split_absent; [discriminate|].
  induction s as [|d s IH]; [reflexivity|].
  cbn [contains startswith].
  destruct (N.eqb_spec d c) as [->|Hne].
  - exfalso. apply Hno. left. reflexivity.
  - simpl. apply IH. intros Hin. apply Hno. right. exact Hin.
Qed.

(** X5: [get_course_id] returns the integer written after the first
    "coid=" of the link when digits, and nothing else, follow it; it raises
    [TypeError] without a link, [KeyError] without an [href], and
    [IndexError] when the [href] has no "coid=". *)
Theorem get_course_id_reads `{Unicode} (element : Soup.td) :
  (forall pre ds,
     Soup.a_href element = Some (Some (pre ++ lit "coid=" ++ ds)) ->
     contains (pre ++ lit "coid") (lit "coid=") = false ->
     ds <> [] ->
     Forall (fun c => Spec.is_decimal_digit c = true) ds ->
     (length ds <= int_max_str_digits)%nat ->
     get_course_id element = Ok (Spec.decimal ds))
  /\ (Soup.a_href element = None -> get_course_id element = Raise TypeError)
  /\ (Soup.a_href element = Some None ->
      get_course_id element = Raise KeyError)
  /\ (forall href,
        Soup.a_href element = Some (Some href) ->
        contains href (lit "coid=") = false ->
        get_course_id element = Raise IndexError).
Proof.
  unfold get_course_id. split; [|split; [|split]].
  - intros pre ds -> Hfirst Hne Hds Hlen. cbn [bind Ok].
    rewrite (split_first (lit "coid=") (lit "coid") 61%N pre ds eq_refl
               Hfirst).
    change (lit "coid=") with (99%N :: lit "oid=").
    rewrite split_absent_head.
    + cbn [index nth_error bind Ok]. apply int_decimal; assumption.
    + intros Hin. rewrite List.Forall_forall in Hds.
      apply Hds, decimal_digit_range in Hin. lia.
  - intros ->. reflexivity.
  - intros ->. reflexivity.
  - intros href -> Hno. cbn [bind Ok].
    rewrite (split_absent (lit "coid=") href); [reflexivity|discriminate|].
    exact Hno.
Qed.

Lemma get_course_id_reads_witness :
  @get_course_id ascii_tables sample_unexpanded_cell
  = Ok (Spec.decimal (lit "594896")).
Proof.
  apply (proj1 (@get_course_id_reads ascii_tables sample_unexpanded_cell)
           (lit "preview_course_nopop.php?catoid=95&") (lit "594896")).
  - reflexivity.
  - vm_compute. reflexivity.
  - discriminate.
  - repeat constructor.
  - apply Nat.leb_le. reflexivity.
Defined.

(** ** The text normaliser: what it leaves behind *)

Lemma replace_keys_high (k : N) (v : str) :
  REPLACE_CHAR_MAP !! k = Some v -> (128 <= k)%N.
Proof.
  apply (replace_char_map_items (fun kv => (128 <= kv.1)%N)).
  unfold REPLACE_CHAR_ITEMS. repeat constructor; simpl; lia.
Qed.

Lemma ascii_unmapped (c : N) : (c < 128)%N -> Spec.unmapped c.
Proof.
  intros Hc. unfold Spec.unmapped.
  destruct (REPLACE_CHAR_MAP !! c) as [v|] eqn:Hv; [|reflexivity].
  apply replace_keys_high in Hv. lia.
Qed.

Lemma translate_app (a b : str) :
  translate (a ++ b) = translate a ++ translate b.
Proof. unfold translate. apply flat_map_app. Qed.

Lemma translate_unmapped_id (text : str) :
  Forall Spec.unmapped text -> translate text = text.
Proof.
  intros Ht. induction Ht as [|c text Hc Ht IH]; [reflexivity|].
  unfold translate, Spec.unmapped, str in *. cbn [flat_map].
  rewrite Hc, IH. reflexivity.
Qed.

Lemma translate_unmapped (text : str) :
  Forall Spec.unmapped (translate text).
Proof.
  induction text as [|c text IH]; [constructor|].
  unfold translate in *. cbn [flat_map]. apply Forall_app.
  split; [|exact IH].
  destruct (REPLACE_CHAR_MAP !! c) as [v|] eqn:Hv; simpl.
  - eapply List.Forall_impl; [|exact (replace_targets_ascii c v Hv)].
    apply ascii_unmapped.
  - constructor; [exact Hv | constructor].
Qed.

(** X6: normalising is settled after one pass: the returned text holds no
    character of the table, normalising it again changes nothing, and a
    text of ASCII characters is returned as it is. *)
Theorem translate_settles (text : str) :
  Forall Spec.unmapped (translate text)
  /\ translate (translate text) = translate text
  /\ (Forall (fun c => (c < 128)%N) text -> translate text = text).
Proof.
  split; [apply translate_unmapped|]. split.
  - apply translate_unmapped_id, translate_unmapped.
  - intros Hascii. apply translate_unmapped_id.
    eapply List.Forall_impl; [|exact Hascii]. apply ascii_unmapped.
Qed.

Lemma translate_settles_witness : translate (lit "cafe") = lit "cafe".
Proof.
  apply (proj2 (proj2 (translate_settles (lit "cafe")))).
  repeat constructor.
Defined.

Lemma translate_ascii_iff (text : str) :
  Forall (fun c => (c < 128)%N) (translate text)
  <-> Forall (fun c => is_unknown c = false) text.
Proof.
  induction text as [|c text IH].
  - split; constructor.
  - unfold translate in *. cbn [flat_map].
    rewrite Forall_app, IH, Forall_cons. unfold is_unknown.
    destruct (REPLACE_CHAR_MAP !! c) as [v|] eqn:Hv; simpl.
    + rewrite andb_false_r.
      pose proof (replace_targets_ascii c v Hv). tauto.
    + rewrite andb_true_r, Forall_singleton, N.ltb_ge. split.
      * intros [Hc Ht]. split; [lia | exact Ht].
      * intros [Hc Ht]. split; [lia | exact Ht].
Qed.

(** X7: [clean_text] prints nothing exactly when the text it returns is
    pure ASCII. *)
Theorem clean_text_silent_iff_ascii `{Unicode} (text : str) :
  (clean_text text).1 = []
  <-> Forall (fun c => (c < 128)%N) (clean_text text).2.
Proof.
  cbn [clean_text fst snd]. rewrite translate_ascii_iff.
  unfold clean_text_printed, unknown_chars. cbv zeta.
  case_bool_decide as Hempty.
  - split; [intros _|reflexivity].
    apply Forall_forall. intros c Hc.
    destruct (is_unknown c) eqn:Hu; [|reflexivity].
    exfalso. apply (proj1 (elem_of_equiv_empty_L _) Hempty c).
    apply elem_of_list_to_set, list_elem_of_filter. split; assumption.
  - split; [discriminate|]. intros Hall. exfalso. apply Hempty.
    apply elem_of_equiv_empty_L. intros c Hc.
    apply elem_of_list_to_set, list_elem_of_filter in Hc as [Hu Hc].
    rewrite Forall_forall in Hall. rewrite (Hall c Hc) in Hu.
    discriminate.
Qed.

Lemma sorted_distinct (l : list N) :
  StronglySorted N.le l -> NoDup l -> StronglySorted N.lt l.
Proof.
  induction 1 as [|x l Hl IH Hx]; intros Hnd; constructor.
  - apply IH. apply NoDup_cons in Hnd as [_ Hnd]. exact Hnd.
  - apply NoDup_cons in Hnd as [Hx' _].
    apply Forall_forall. intros y Hy.
    rewrite Forall_forall in Hx. specialize (Hx y Hy).
    assert (x <> y) by (intros ->; contradiction). lia.
Qed.

(** X8: what [clean_text] prints is nothing, or the heading followed by at
    least one report; the reports come in strictly increasing order of code
    point. *)
Theorem clean_text_reports_sorted `{Unicode} (text : str) :
  StronglySorted N.lt (Spec.reported (clean_text_printed text))
  /\ (clean_text_printed text = []
      \/ exists d ds,
           clean_text_printed text = Heading :: map Unknown (d :: ds)).
Proof.
  split.
  - rewrite reported_sorted_set. apply sorted_distinct.
    + apply StronglySorted_merge_sort; apply _.
    + rewrite merge_sort_Permutation. apply NoDup_elements.
  - unfold clean_text_printed. cbv zeta. case_bool_decide as Hempty;
      [left; reflexivity|].
    right.
    destruct (merge_sort N.le (elements (unknown_chars text)))
      as [|c l] eqn:Hsorted.
    + exfalso. apply Hempty.
      assert (Hel : elements (unknown_chars text) = []).
      { apply Permutation_nil_r. rewrite <- Hsorted.
        symmetry. apply merge_sort_Permutation. }
      apply elements_empty_iff in Hel. apply leibniz_equiv. exact Hel.
    + exists (report c), (map report l). simpl. rewrite map_map.
      reflexivity.
Qed.

(** ** The block segmenter: blocks and line breaks *)

Lemma buffer_app (texts more : list str) :
  concat (map (cons 32%N) (texts ++ more))
  = concat (map (cons 32%N) texts) ++ concat (map (cons 32%N) more).
Proof. rewrite map_app, concat_app. reflexivity. Qed.

Lemma strip_buffer (texts : list str) :
  Forall (fun t => strip t = t /\ t <> []) texts ->
  strip (concat (map (cons 32%N) texts)) = Spec.join_space texts.
Proof.
  intros Htexts. destruct texts as [|t rest]; [reflexivity|].
  destruct (join_space_trimmed (t :: rest) Htexts) as [Hj _];
    [discriminate|].
  cbn [map concat app]. rewrite <- join_space_cons.
  rewrite strip_space_front by reflexivity. exact Hj.
Qed.

Lemma join_space_empty (texts : list str) :
  Forall (fun t => strip t = t /\ t <> []) texts ->
  nonempty (Spec.join_space texts) = false -> texts = [].
Proof.
  intros Htexts Hj. destruct texts as [|t rest]; [reflexivity|].
  destruct (join_space_trimmed (t :: rest) Htexts) as [_ Hne];
    [discriminate|].
  apply nonempty_true in Hne. congruence.
Qed.

Lemma br_groups_not_nil (siblings : list node) :
  Spec.br_groups siblings <> [].
Proof.
  destruct siblings as [|[|t] rest]; simpl; try discriminate.
  destruct (Spec.br_groups rest); discriminate.
Qed.

Lemma filter_cons_if {A} (f : A -> bool) (x : A) (l : list A) :
  List.filter f (x :: l)
  = if f x then x :: List.filter f l else List.filter f l.
Proof. reflexivity. Qed.

Lemma walk_siblings_groups (clean : str -> str) (siblings : list node)
    (blocks : list str) (texts : list str) :
  Forall (fun t => strip t = t /\ t <> []) texts ->
  walk_siblings clean siblings blocks (concat (map (cons 32%N) texts))
  = blocks
    ++ map clean
         (List.filter nonempty
            match Spec.br_groups siblings with
            | g :: gs =>
                Spec.join_space (texts ++ Spec.visible_texts g)
                :: map Spec.joined_text gs
            | [] => []
            end).
Proof.
  revert blocks texts.
  induction siblings as [|n siblings IH]; intros blocks texts Htexts.
  - cbn [walk_siblings Spec.br_groups map].
    change (Spec.visible_texts []) with (@nil str).
    rewrite app_nil_r, (strip_buffer texts Htexts), filter_cons_if.
    destruct (nonempty (Spec.join_space texts)); [reflexivity|].
    symmetry. apply app_nil_r.
  - destruct n as [|t].
    + cbn [walk_siblings Spec.br_groups].
      change (Spec.visible_texts []) with (@nil str).
      rewrite app_nil_r, (strip_buffer texts Htexts).
      pose proof (br_groups_not_nil siblings) as Hgroups.
      destruct (nonempty (Spec.join_space texts)) eqn:Hj.
      * pose proof (IH (blocks ++ [clean (Spec.join_space texts)]) []
                      (List.Forall_nil _)) as IH'.
        cbn [map concat] in IH'. rewrite IH'.
        rewrite filter_cons_if, Hj.
        destruct (Spec.br_groups siblings) as [|g gs]; [congruence|].
        cbn [map app]. rewrite <- app_assoc. reflexivity.
      * pose proof (join_space_empty texts Htexts Hj) as Hnil. subst texts.
        pose proof (IH blocks [] (List.Forall_nil _)) as IH'.
        cbn [map concat] in IH'. cbn [map concat]. rewrite IH'.
        rewrite filter_cons_if. cbn [Spec.join_space nonempty].
        destruct (Spec.br_groups siblings) as [|g gs]; [congruence|].
        reflexivity.
    + cbn [walk_siblings Spec.br_groups].
      pose proof (br_groups_not_nil siblings) as Hgroups.
      destruct (Spec.br_groups siblings) as [|g gs] eqn:Hg; [congruence|].
      unfold Spec.visible_texts at 1.
      cbn [map Spec.node_text List.filter].
      fold (Spec.visible_texts g).
      destruct (nonempty (strip t)) eqn:Ht.
      * replace (concat (map (cons 32%N) texts) ++ 32%N :: strip t)
          with (concat (map (cons 32%N) (texts ++ [strip t])))
          by (rewrite buffer_app; cbn [map concat];
              rewrite app_nil_r; reflexivity).
        rewrite IH.
        -- rewrite <- app_assoc. reflexivity.
        -- apply Forall_app. split; [exact Htexts|].
           constructor; [|constructor].
           split; [apply strip_strip | apply nonempty_true; exact Ht].
      * rewrite IH by exact Htexts. reflexivity.
Qed.

Lemma segment_groups (clean : str -> str) (siblings : list node) :
  segment clean siblings
  = map clean
      (List.filter nonempty
         (map Spec.joined_text (Spec.br_groups siblings))).
Proof.
  unfold segment.
  pose proof (walk_siblings_groups clean siblings [] []
                (List.Forall_nil _)) as Hwalk.
  cbn [map concat app] in Hwalk. rewrite Hwalk.
  pose proof (br_groups_not_nil siblings) as Hgroups.
  destruct (Spec.br_groups siblings) as [|g gs]; [congruence|].
  reflexivity.
Qed.

(** X9: the blocks of a fragment are the texts of its runs of siblings
    between line breaks, each run joined by single spaces (and, in
    [scrape.py], normalised), in order, with the runs that have no visible
    text left out; so repeated line breaks and nodes of whitespace add no
    block, and there are never more blocks than line breaks plus one. *)
Theorem segment_by_line_breaks (clean : str -> str)
    (siblings : list node) :
  segment clean siblings
  = map clean
      (List.filter nonempty
         (map Spec.joined_text (Spec.br_groups siblings)))
  /\ (length (segment clean siblings)
      <= S (length (List.filter Spec.is_br siblings)))%nat.
Proof.
  pose proof (segment_groups clean siblings) as Hseg.
  split; [exact Hseg|]. rewrite Hseg, length_map.
  etransitivity; [apply filter_length_le|]. rewrite length_map.
  clear Hseg. induction siblings as [|[|t] siblings IH]; simpl.
  - lia.
  - lia.
  - pose proof (br_groups_not_nil siblings) as Hgroups.
    destruct (Spec.br_groups siblings) as [|g gs]; [congruence|].
    simpl in *. lia.
Qed.

(** ** The raw record of scrape.py *)

(** X10: [get_course_info] of [scrape.py] raises only [AttributeError],
    and exactly when the cell has no [h3] or no [hr] after it: no text in
    the cell makes it fail.  The record it returns carries the identifier
    and the department it was given, and neither its header nor any of its
    blocks holds a character of the substitution table. *)
Theorem scrape_record `{Unicode} (expanded_element : td) (course_id : Z)
    (department : str) :
  (is_ok (Scrape.get_course_info expanded_element course_id department)
   = true
   <-> h3_text expanded_element <> None
       /\ hr_next_siblings expanded_element <> None)
  /\ (forall e,
        Scrape.get_course_info expanded_element course_id department
        = Raise e -> e = AttributeError)
  /\ (forall raw,
        Scrape.get_course_info expanded_element course_id department
        = Ok raw ->
        raw_course_id raw = course_id
        /\ raw_department raw = department
        /\ Forall Spec.unmapped (raw_header raw)
        /\ Forall (fun b => Forall Spec.unmapped b) (raw_blocks raw)).
Proof.
  unfold Scrape.get_course_info.
  destruct (h3_text expanded_element) as [h3|];
    destruct (hr_next_siblings expanded_element) as [siblings|];
    cbn [bind Ok Raise is_ok].
  - split; [split; [intros _; split; discriminate | reflexivity]|].
    split; [discriminate|].
    intros raw Heq. injection Heq as <-. cbn.
    split; [reflexivity|]. split; [reflexivity|].
    split; [apply translate_unmapped|].
    apply walk_siblings_invariant; [|constructor].
    intros s _. apply translate_unmapped.
  - split; [split; [discriminate | intros [_ Hhr]; congruence]|].
    split; [|discriminate].
    intros e Heq. injection Heq as <-. reflexivity.
  - split; [split; [discriminate | intros [Hh3 _]; congruence]|].
    split; [|discriminate].
    intros e Heq. injection Heq as <-. reflexivity.
  - split; [split; [discriminate | intros [Hh3 _]; congruence]|].
    split; [|discriminate].
    intros e Heq. injection Heq as <-. reflexivity.
Qed.

(** ** The record of reprocess.py *)

Lemma last_matching_cons (test : str -> bool) (b : str) (blocks : list str) :
  Spec.last_matching test (b :: blocks)
  = match Spec.last_matching test blocks with
    | Some later => Some later
    | None => if test b then Some b else None
    end.
Proof.
  unfold Spec.last_matching. rewrite filter_cons_if.
  destruct (test b); [apply last_cons|].
  destruct (last (List.filter test blocks)); reflexivity.
Qed.

Lemma index_nth {A} (l : list A) (i : nat) (x d : A) :
  index l i = Ok x -> nth i l d = x.
Proof.
  unfold index. destruct (nth_error l i) as [y|] eqn:Hy; [|discriminate].
  intros Heq. injection Heq as <-. apply nth_error_nth. exact Hy.
Qed.

(** The text of a test for a fixed sentence that passes. *)
Local Ltac fixed_sentence H :=
  cbv delta [is_no_grad_credit is_grad_credit is_online is_dept_consent] in H;
  cbv beta in H;
  first [ apply str_eqb_eq in H
        | apply orb_true_iff in H; destruct H as [H|H];
          apply str_eqb_eq in H ];
  subst.

(** Two tests of the chain that pass on the same text, one of them for a
    fixed sentence. *)
Local Ltac two_tests :=
  match goal with
  | H : is_no_grad_credit _ = true |- _ => fixed_sentence H
  | H : is_grad_credit _ = true |- _ => fixed_sentence H
  | H : is_online _ = true |- _ => fixed_sentence H
  | H : is_dept_consent _ = true |- _ => fixed_sentence H
  end;
  match goal with
  | H : _ = true |- _ => vm_compute in H; discriminate H
  end.

Section ReprocessRecord.
Context `{Unicode}.

(** What one block does to the five fields that the loop sets. *)
Lemma classify_fields (pc pc1 : ProcessedCourse) (block : str) :
  Reprocess.classify pc block = Ok pc1 ->
  pc_prerequisites pc1
  = (if is_prereq (lower block) then block else pc_prerequisites pc)
  /\ pc_grad_credit pc1
     = (if is_no_grad_credit (lower block) || is_grad_credit (lower block)
        then is_grad_credit (lower block) else pc_grad_credit pc)
  /\ pc_available_online pc1
     = pc_available_online pc || is_online (lower block)
  /\ pc_requires_dept_consent pc1
     = pc_requires_dept_consent pc || is_dept_consent (lower block)
  /\ pc_typically_offered pc1
     = (if Spec.sets_offering block
        then strip (nth 1 (split (lit ":") block) [])
        else pc_typically_offered pc).
Proof.
  unfold Reprocess.classify, Spec.sets_offering.
  generalize (lower block). intros l.
  destruct (is_prereq l) eqn:H1, (is_no_grad_credit l) eqn:H2,
    (is_grad_credit l) eqn:H3, (is_online l) eqn:H4,
    (is_dept_consent l) eqn:H5;
    try solve [exfalso; two_tests];
    cbn [negb andb orb].
  all: try (destruct (startswith l (lit "typically offered")) eqn:H6;
            [exfalso;
             destruct (offered_not_earlier _ H6) as (_ & ? & ? & ? & ?);
             congruence|]).
  all: try (intros Heq; injection Heq as <-; cbn;
            rewrite ?orb_false_r, ?orb_true_r; auto).
  destruct (startswith l (lit "typically offered")) eqn:H6.
  - destruct (index (split (lit ":") block) 1) as [e|offered] eqn:Hi;
      cbn [bind Ok]; [discriminate|].
    pose proof (index_nth _ _ _ [] Hi) as Hn.
    intros Heq. injection Heq as <-.
    repeat split; try (cbn; rewrite ?orb_false_r; reflexivity).
    cbn [pc_typically_offered set_typically_offered].
    f_equal. symmetry. exact Hn.
  - intros Heq. injection Heq as <-. cbn. rewrite ?orb_false_r. auto.
Qed.

End ReprocessRecord.

Section ReprocessLoop.
Context `{Unicode}.

(** The loop leaves the seven fields set before it as they are. *)
Lemma classify_fixed (pc pc1 : ProcessedCourse) (block : str) :
  Reprocess.classify pc block = Ok pc1 ->
  (pc_course_id pc1, pc_department pc1, pc_course_level pc1, pc_title pc1,
   pc_description pc1, pc_course_code pc1, pc_units pc1)
  = (pc_course_id pc, pc_department pc, pc_course_level pc, pc_title pc,
     pc_description pc, pc_course_code pc, pc_units pc).
Proof.
  unfold Reprocess.classify.
  repeat match goal with
         | |- context [if ?b then _ else _] => destruct b
         end;
    try (intros Heq; injection Heq as <-; reflexivity).
  destruct (index (split (lit ":") block) 1); simpl;
    [discriminate | intros Heq; injection Heq as <-; reflexivity].
Qed.

Lemma classify_loop_fixed (blocks : list str) (pc pc' : ProcessedCourse) :
  for_each Reprocess.classify blocks pc = Ok pc' ->
  (pc_course_id pc', pc_department pc', pc_course_level pc', pc_title pc',
   pc_description pc', pc_course_code pc', pc_units pc')
  = (pc_course_id pc, pc_department pc, pc_course_level pc, pc_title pc,
     pc_description pc, pc_course_code pc, pc_units pc).
Proof.
  revert pc. induction blocks as [|b blocks IH]; intros pc; simpl.
  - intros Heq. injection Heq as <-. reflexivity.
  - destruct (Reprocess.classify pc b) as [e|pc1] eqn:Hb; simpl;
      [discriminate|].
    intros Hrest. rewrite (IH _ Hrest). apply (classify_fixed _ _ _ Hb).
Qed.

(** The five fields after the loop, from the fields before it. *)
Lemma classify_loop_fields (blocks : list str) (pc pc' : ProcessedCourse) :
  for_each Reprocess.classify blocks pc = Ok pc' ->
  pc_prerequisites pc'
  = default (pc_prerequisites pc)
      (Spec.last_matching (fun b => is_prereq (lower b)) blocks)
  /\ pc_grad_credit pc'
     = match Spec.last_matching
               (fun b => is_no_grad_credit (lower b)
                         || is_grad_credit (lower b)) blocks with
       | Some b => is_grad_credit (lower b)
       | None => pc_grad_credit pc
       end
  /\ pc_available_online pc'
     = pc_available_online pc
       || existsb (fun b => is_online (lower b)) blocks
  /\ pc_requires_dept_consent pc'
     = pc_requires_dept_consent pc
       || existsb (fun b => is_dept_consent (lower b)) blocks
  /\ pc_typically_offered pc'
     = match Spec.last_matching Spec.sets_offering blocks with
       | Some b => strip (nth 1 (split (lit ":") b) [])
       | None => pc_typically_offered pc
       end.
Proof.
  revert pc. induction blocks as [|b blocks IH]; intros pc.
  - cbn [for_each]. intros Heq. injection Heq as <-.
    unfold Spec.last_matching. cbn [List.filter last existsb default].
    rewrite !orb_false_r. repeat split; reflexivity.
  - cbn [for_each].
    destruct (Reprocess.classify pc b) as [e|pc1] eqn:Hb; cbn [bind];
      [discriminate|].
    intros Hrest.
    destruct (IH _ Hrest) as (Hp & Hg & Ho & Hc & Ht).
    destruct (classify_fields _ _ _ Hb) as (Hp1 & Hg1 & Ho1 & Hc1 & Ht1).
    rewrite !last_matching_cons. cbn [existsb].
    rewrite Hp, Hg, Ho, Hc, Ht, Hp1, Hg1, Ho1, Hc1, Ht1.
    clear IH Hp Hg Ho Hc Ht Hp1 Hg1 Ho1 Hc1 Ht1.
    repeat split;
      try match goal with
          | |- context [Spec.last_matching ?test blocks] =>
              destruct (Spec.last_matching test blocks); [reflexivity|]
          end.
    + destruct (is_prereq (lower b)); reflexivity.
    + destruct (is_no_grad_credit (lower b) || is_grad_credit (lower b));
        reflexivity.
    + rewrite orb_assoc. reflexivity.
    + rewrite orb_assoc. reflexivity.
    + destruct (Spec.sets_offering b); reflexivity.
Qed.

(** One block makes the loop raise exactly when it sets the typical
    offering and has no colon; the exception is [IndexError]. *)
Lemma classify_ok_iff (pc : ProcessedCourse) (block : str) :
  is_ok (Reprocess.classify pc block) = true
  <-> (Spec.sets_offering block = true -> In 58%N block).
Proof.
  unfold Reprocess.classify, Spec.sets_offering.
  destruct (is_prereq (lower block)); cbn [negb andb].
  { split; [discriminate | reflexivity]. }
  destruct (startswith (lower block) (lit "typically offered")) eqn:H6.
  - destruct (offered_not_earlier _ H6) as (_ & -> & -> & -> & ->).
    change (lit ":") with [58%N].
    destruct (in_dec N.eq_dec 58%N block) as [Hin|Hno].
    + destruct (split_char_two _ _ Hin) as (p & q & r & ->).
      split; [intros _ _; exact Hin | reflexivity].
    + rewrite (split_char_no_second 58%N block Hno).
      split; [discriminate | intros Hin; elim Hno; apply Hin; reflexivity].
  - repeat match goal with
           | |- context [if ?b then _ else _] => destruct b
           end;
      (split; [discriminate | reflexivity]).
Qed.

Lemma classify_raises (pc : ProcessedCourse) (block : str) (e : exn) :
  Reprocess.classify pc block = Raise e -> e = IndexError.
Proof.
  unfold Reprocess.classify.
  repeat match goal with
         | |- context [if ?b then _ else _] => destruct b
         end;
    try discriminate.
  unfold index. destruct (nth_error (split (lit ":") block) 1);
    cbn [bind Ok Raise]; [discriminate|].
  intros Heq. injection Heq as <-. reflexivity.
Qed.

Lemma classify_loop_ok_iff (blocks : list str) (pc : ProcessedCourse) :
  is_ok (for_each Reprocess.classify blocks pc) = true
  <-> List.Forall
        (fun b => Spec.sets_offering b = true -> In 58%N b) blocks.
Proof.
  revert pc. induction blocks as [|b blocks IH]; intros pc; cbn [for_each].
  - split; [constructor | reflexivity].
  - pose proof (classify_ok_iff pc b) as Hb.
    destruct (Reprocess.classify pc b) as [e|pc1]; cbn [bind].
    + split; [discriminate|].
      intros Hall. inversion Hall as [|b' l' Hhead Htail]; subst.
      apply Hb in Hhead. discriminate.
    + rewrite IH. split.
      * intros Hall. constructor; [apply Hb; reflexivity | exact Hall].
      * intros Hall. inversion Hall; assumption.
Qed.

Lemma classify_loop_raises (blocks : list str) (pc : ProcessedCourse)
    (e : exn) :
  for_each Reprocess.classify blocks pc = Raise e -> e = IndexError.
Proof.
  revert pc. induction blocks as [|b blocks IH]; intros pc; cbn [for_each].
  - discriminate.
  - destruct (Reprocess.classify pc b) as [e'|pc1] eqn:Hb; cbn [bind].
    + intros Heq. injection Heq as <-. apply (classify_raises _ _ _ Hb).
    + apply IH.
Qed.

Lemma parse_header_raises_index (header : str) (e : exn) :
  parse_header header = Raise e -> e = IndexError.
Proof.
  destruct (in_dec N.eq_dec 45%N header) as [Hin|Hno].
  - destruct (in_first_split _ _ Hin) as (before & after & -> & Hb).
    rewrite (parse_header_dash before after Hb). discriminate.
  - rewrite (parse_header_no_dash header Hno).
    intros Heq. injection Heq as <-. reflexivity.
Qed.

Lemma course_level_raises_either (course_code : str) (e : exn) :
  course_level course_code = Raise e -> e = IndexError \/ e = ValueError.
Proof.
  unfold course_level, index.
  destruct (nth_error (split (lit " ") course_code) 1);
    cbn [bind Ok Raise].
  - intros Hraise. right. apply (int_raises _ _ Hraise).
  - intros Heq. injection Heq as <-. left. reflexivity.
Qed.

End ReprocessLoop.

Lemma reprocess_course_fixed_fields_description `{Unicode}
    (course : RawCourse) (p : ProcessedCourse) :
  Reprocess.reprocess_course course = Ok p ->
  head (raw_blocks course) = Some (pc_description p).
Proof.
  intros Hre. destruct (reprocess_course_description _ _ Hre)
    as (b & bs & Hblocks & Hdesc).
  rewrite Hblocks, Hdesc. reflexivity.
Qed.

(** X11: when [reprocess_course] returns a record, its code, title and units
    are those parsed from the raw header, its level is the one derived from
    that code, its description is the first block, and its identifier and
    department are those of the raw record: the loop over the other blocks
    changes none of them. *)
Theorem reprocess_course_fixed_fields `{Unicode} (course : RawCourse)
    (p : ProcessedCourse) :
  Reprocess.reprocess_course course = Ok p ->
  parse_header (raw_header course)
  = Ok (pc_course_code p, pc_title p, pc_units p)
  /\ course_level (pc_course_code p) = Ok (pc_course_level p)
  /\ head (raw_blocks course) = Some (pc_description p)
  /\ pc_course_id p = raw_course_id course
  /\ pc_department p = raw_department course.
Proof.
  unfold Reprocess.reprocess_course.
  destruct (parse_header (raw_header course)) as [e|[[code title] units]];
    cbn [bind]; [discriminate|].
  destruct (course_level code) as [e|level] eqn:Hlevel; cbn [bind];
    [discriminate|].
  destruct (raw_blocks course) as [|b bs]; cbn [index nth_error bind Ok];
    [discriminate|].
  intros Hloop. apply classify_loop_fixed in Hloop. cbn in Hloop.
  injection Hloop as -> -> -> -> -> -> ->.
  rewrite Hlevel. repeat split; reflexivity.
Qed.

Lemma reprocess_course_fixed_fields_witness :
  parse_header (lit "ACCT 201A - Financial Accounting (3)")
  = Ok (lit "ACCT 201A", lit "Financial Accounting", lit "3").
Proof.
  exact (proj1 (@reprocess_course_fixed_fields ascii_tables
    {| raw_course_id := 594896;
       raw_department := lit "Accounting";
       raw_header := lit "ACCT 201A - Financial Accounting (3)";
       raw_blocks := [lit "Accounting concepts and techniques."] |}
    sample_processed eq_refl)).
Defined.

(** X12: in the record that [reprocess_course] returns, the prerequisites
    are the last block after the description whose lowercase form contains
    "requisite" or starts with "prereq" (the empty text when there is none);
    grad-credit is decided by the last block that is one of the three
    grad-credit sentences (false when there is none); the online and the
    consent flag are true exactly when some block is the sentence; and the
    typical offering is the trimmed second piece, cut at the colons, of the
    last block that reaches the sixth test and passes it. *)
Theorem reprocess_course_last_match `{Unicode} (course : RawCourse)
    (p : ProcessedCourse) :
  Reprocess.reprocess_course course = Ok p ->
  pc_prerequisites p
  = default []
      (Spec.last_matching (fun b => is_prereq (lower b))
         (skipn 1 (raw_blocks course)))
  /\ pc_grad_credit p
     = match Spec.last_matching
               (fun b => is_no_grad_credit (lower b)
                         || is_grad_credit (lower b))
               (skipn 1 (raw_blocks course)) with
       | Some b => is_grad_credit (lower b)
       | None => false
       end
  /\ pc_available_online p
     = existsb (fun b => is_online (lower b)) (skipn 1 (raw_blocks course))
  /\ pc_requires_dept_consent p
     = existsb (fun b => is_dept_consent (lower b))
         (skipn 1 (raw_blocks course))
  /\ pc_typically_offered p
     = match Spec.last_matching Spec.sets_offering
               (skipn 1 (raw_blocks course)) with
       | Some b => strip (nth 1 (split (lit ":") b) [])
       | None => []
       end.
Proof.
  unfold Reprocess.reprocess_course.
  destruct (parse_header (raw_header course)) as [e|[[code title] units]];
    cbn [bind]; [discriminate|].
  destruct (course_level code) as [e|level]; cbn [bind]; [discriminate|].
  destruct (index (raw_blocks course) 0) as [e|description]; cbn [bind];
    [discriminate|].
  intros Hloop. apply classify_loop_fields in Hloop. exact Hloop.
Qed.

Lemma reprocess_course_last_match_witness :
  default []
    (Spec.last_matching (fun b => is_prereq (@lower ascii_tables b))
       [lit "Prerequisite: ACCT 201A"; lit "Graduate-level";
        lit "Corequisite: MATH 150A"])
  = lit "Corequisite: MATH 150A".
Proof.
  symmetry.
  exact (proj1 (@reprocess_course_last_match ascii_tables
    {| raw_course_id := 594896;
       raw_department := lit "Accounting";
       raw_header := lit "ACCT 201A - Financial Accounting (3)";
       raw_blocks := [lit "Accounting concepts and techniques.";
                      lit "Prerequisite: ACCT 201A"; lit "Graduate-level";
                      lit "Corequisite: MATH 150A"] |}
    (set_grad_credit true
       (set_prerequisites (lit "Corequisite: MATH 150A") sample_processed))
    eq_refl)).
Defined.

(** X13: [reprocess_course] returns a record exactly when the header
    parses, a level is derived from its code, there is a first block, and
    every later block that reaches the sixth test and passes it (lowercase
    form starting with "typically offered", not a prerequisite line) has a
    colon: such a block without a colon is not ignored, it makes the whole
    record fail.  The only exceptions raised are [IndexError] and
    [ValueError]. *)
Theorem reprocess_course_raises `{Unicode} (course : RawCourse) :
  (is_ok (Reprocess.reprocess_course course) = true
   <-> (exists code title units,
          parse_header (raw_header course) = Ok (code, title, units)
          /\ is_ok (course_level code) = true)
       /\ raw_blocks course <> []
       /\ List.Forall
            (fun b => Spec.sets_offering b = true -> In 58%N b)
            (skipn 1 (raw_blocks course)))
  /\ (forall e, Reprocess.reprocess_course course = Raise e ->
                e = IndexError \/ e = ValueError).
Proof.
  unfold Reprocess.reprocess_course.
  destruct (parse_header (raw_header course))
    as [e|[[code title] units]] eqn:Hparse; cbn [bind].
  { split.
    - split; [discriminate|].
      intros [(c & t & u & Heq & _) _]. discriminate.
    - intros e' Heq. injection Heq as <-. left.
      apply (parse_header_raises_index _ _ Hparse). }
  destruct (course_level code) as [e|level] eqn:Hlevel; cbn [bind].
  { split.
    - split; [discriminate|].
      intros [(c & t & u & Heq & Hok) _].
      injection Heq as <- <- <-. rewrite Hlevel in Hok. discriminate.
    - intros e' Heq. injection Heq as <-.
      apply (course_level_raises_either _ _ Hlevel). }
  destruct (raw_blocks course) as [|b bs];
    cbn [index nth_error bind Ok Raise skipn drop].
  { split.
    - split; [discriminate|]. intros (_ & Hne & _). congruence.
    - intros e' Heq. injection Heq as <-. left. reflexivity. }
  split.
  - rewrite classify_loop_ok_iff. split.
    + intros Hall. split; [|split; [discriminate | exact Hall]].
      exists code, title, units. split; [reflexivity|].
      rewrite Hlevel. reflexivity.
    + intros (_ & _ & Hall). exact Hall.
  - intros e Hraise. left. apply (classify_loop_raises _ _ _ Hraise).
Qed.

(** ** The loop over the rows of a page *)

Section RowLoop.
Context `{Unicode} {C R : Type}.
Variable get_info : td -> Z -> str -> result R.
Variable store : C -> Z -> R -> C.

(** The section label after a row that does not raise. *)
Lemma row_body_label (er ur : tr) (s s' : str) (c c' : C) :
  row_body get_info store er ur s c = Ok (s', c') ->
  s' = Spec.label_after_row s er.
Proof.
  unfold row_body, Spec.label_after_row.
  destruct (tds er) as [|t1 [|t2 [|t3 ts]]];
    cbn [length Nat.eqb negb orb head].
  - intros Heq. injection Heq as <- <-. reflexivity.
  - destruct (p_strong t1); intros Heq; injection Heq as <- <-;
      reflexivity.
  - destruct (negb (length (tds ur) =? 2)%nat).
    + intros Heq. injection Heq as <- <-. reflexivity.
    + cbn [index nth_error bind Ok].
      destruct (index (tds ur) 1) as [e|ucell]; cbn [bind];
        [discriminate|].
      destruct (get_course_id ucell) as [e|id]; cbn [bind];
        [discriminate|].
      destruct (get_info t2 id s) as [e|r]; cbn [bind]; [discriminate|].
      intros Heq. injection Heq as <- <-. reflexivity.
  - intros Heq. injection Heq as <- <-. reflexivity.
Qed.

(** The collection after a row that does not raise: a content row stores
    the record built from the second cells, under the label in effect; any
    other row stores nothing. *)
Lemma row_body_store (er ur : tr) (s s' : str) (c c' : C) :
  row_body get_info store er ur s c = Ok (s', c') ->
  if Spec.is_content er ur
  then exists ecell ucell id r,
         nth_error (tds er) 1 = Some ecell
         /\ nth_error (tds ur) 1 = Some ucell
         /\ get_course_id ucell = Ok id
         /\ get_info ecell id s = Ok r
         /\ s' = s
         /\ c' = store c id r
  else c' = c.
Proof.
  unfold row_body, Spec.is_content.
  destruct (length (tds er) =? 2)%nat; destruct (length (tds ur) =? 2)%nat;
    cbn [negb orb andb].
  2-4: destruct (length (tds er) =? 1)%nat;
         [destruct (head (tds er)) as [t|]; [destruct (p_strong t)|]|];
         intros Heq; injection Heq as <- <-; reflexivity.
  unfold index.
  destruct (nth_error (tds er) 1) as [ecell|]; cbn [bind Ok Raise];
    [|discriminate].
  destruct (nth_error (tds ur) 1) as [ucell|]; cbn [bind Ok Raise];
    [|discriminate].
  destruct (get_course_id ucell) as [e|id] eqn:Hid; cbn [bind];
    [discriminate|].
  destruct (get_info ecell id s) as [e|r] eqn:Hr; cbn [bind];
    [discriminate|].
  intros Heq. injection Heq as <- <-.
  exists ecell, ucell, id, r. repeat split; assumption.
Qed.

(** The rows of a prefix that is as long on both sides are walked first,
    and leave the label that the labelled rows among them set. *)
Lemma loop_rows_app (e1 u1 e2 u2 : list tr) (s : str) (c out : C) :
  length e1 = length u1 ->
  loop_rows get_info store (e1 ++ e2) (u1 ++ u2) s c = (out, Ok tt) ->
  exists c1,
    loop_rows get_info store e1 u1 s c = (c1, Ok tt)
    /\ loop_rows get_info store e2 u2 (Spec.label_after e1 s) c1
       = (out, Ok tt).
Proof.
  revert u1 s c. induction e1 as [|er e1 IH]; intros [|ur u1] s c Hlen;
    try discriminate Hlen.
  - intros Hloop. exists c. split; [reflexivity | exact Hloop].
  - cbn [app loop_rows].
    destruct (row_body get_info store er ur s c) as [e|[s' c']] eqn:Hrow.
    + intros Heq. injection Heq as _ Heq. discriminate.
    + intros Hloop.
      pose proof (row_body_label _ _ _ _ _ _ Hrow) as Hlabel.
      injection Hlen as Hlen.
      destruct (IH u1 _ c' Hlen Hloop) as (c1 & H1 & H2).
      exists c1. split; [exact H1|].
      rewrite Hlabel in H2. exact H2.
Qed.

(** A content row of a page that is walked to the end. *)
Lemma loop_rows_content_row (e1 e2 u1 u2 : list tr) (er ur : tr) (s : str)
    (c out : C) :
  length e1 = length u1 ->
  Spec.is_content er ur = true ->
  loop_rows get_info store (e1 ++ er :: e2) (u1 ++ ur :: u2) s c
  = (out, Ok tt) ->
  exists ecell ucell id r c1,
    nth_error (tds er) 1 = Some ecell
    /\ nth_error (tds ur) 1 = Some ucell
    /\ get_course_id ucell = Ok id
    /\ get_info ecell id (Spec.label_after e1 s) = Ok r
    /\ loop_rows get_info store e2 u2 (Spec.label_after e1 s)
         (store c1 id r) = (out, Ok tt).
Proof.
  intros Hlen Hcontent Hloop.
  destruct (loop_rows_app _ _ _ _ _ _ _ Hlen Hloop) as (c1 & _ & Hrest).
  cbn [loop_rows] in Hrest.
  destruct (row_body get_info store er ur (Spec.label_after e1 s) c1)
    as [e|[s' c']] eqn:Hrow.
  { injection Hrest as _ Heq. discriminate. }
  pose proof (row_body_store _ _ _ _ _ _ Hrow) as Hstore.
  rewrite Hcontent in Hstore.
  destruct Hstore as (ecell & ucell & id & r & He & Hu & Hid & Hr & -> & ->).
  exists ecell, ucell, id, r, c1. repeat split; assumption.
Qed.

(** What holds between a collection and the collection with one more
    record stored holds between the collection before the loop and the one
    after it, however the loop ends. *)
Variable keeps : C -> C -> Prop.
Hypothesis keeps_refl : forall c, keeps c c.
Hypothesis keeps_trans : forall a b c, keeps a b -> keeps b c -> keeps a c.
Hypothesis keeps_store : forall c id r, keeps c (store c id r).

Lemma loop_rows_keeps (e u : list tr) (s : str) (c : C) :
  keeps c (loop_rows get_info store e u s c).1.
Proof using keeps_refl keeps_trans keeps_store.
  revert u s c. induction e as [|er e IH]; intros [|ur u] s c;
    cbn [loop_rows fst]; try apply keeps_refl.
  destruct (row_body get_info store er ur s c) as [x|[s' c']] eqn:Hrow;
    cbn [fst]; [apply keeps_refl|].
  apply keeps_trans with c'; [|apply IH].
  pose proof (row_body_store _ _ _ _ _ _ Hrow) as Hstore.
  destruct (Spec.is_content er ur).
  - destruct Hstore as (ecell & ucell & id & r & _ & _ & _ & _ & _ & ->).
    apply keeps_store.
  - subst c'. apply keeps_refl.
Qed.

End RowLoop.



Section Pages.
Context `{Unicode}.

Lemma scrape_info_fields (cell : td) (id : Z) (department : str)
    (raw : RawCourse) :
  Scrape.get_course_info cell id department = Ok raw ->
  raw_course_id raw = id /\ raw_department raw = department.
Proof.
  unfold Scrape.get_course_info.
  destruct (h3_text cell); cbn [bind Ok Raise]; [|discriminate].
  destruct (hr_next_siblings cell); cbn [bind Ok Raise]; [|discriminate].
  intros Heq. injection Heq as <-. split; reflexivity.
Qed.

(** The list of [scrape.py] after the loop: the list before it and the
    records appended, at most one for each content pair of rows, and one
    for each when the loop ends without raising. *)
Lemma scrape_loop_appends (e u : list tr) (s : str)
    (courses : list RawCourse) :
  exists added,
    (loop_rows Scrape.get_course_info Scrape.store e u s courses).1
    = courses ++ added
    /\ (length added
        <= length (List.filter (fun p => Spec.is_content p.1 p.2)
                     (combine e u)))%nat
    /\ ((loop_rows Scrape.get_course_info Scrape.store e u s courses).2
        = Ok tt ->
        length e = length u
        /\ length added
           = length (List.filter (fun p => Spec.is_content p.1 p.2)
                       (combine e u))).
Proof.
  revert u s courses.
  induction e as [|er e IH]; intros [|ur u] s courses;
    cbn [loop_rows combine fst snd].
  - exists []. rewrite app_nil_r. repeat split; reflexivity.
  - exists []. rewrite app_nil_r.
    split; [reflexivity|]. split; [reflexivity | discriminate].
  - exists []. rewrite app_nil_r.
    split; [reflexivity|]. split; [reflexivity | discriminate].
  - destruct (row_body Scrape.get_course_info Scrape.store er ur s courses)
      as [x|[s' c']] eqn:Hrow; cbn [fst snd].
    { exists []. rewrite app_nil_r.
      split; [reflexivity|]. split; [cbn; lia | discriminate]. }
    destruct (IH u s' c') as (added & Hout & Hle & Hok).
    pose proof (row_body_store _ _ _ _ _ _ _ _ Hrow) as Hstore.
    rewrite filter_cons_if. cbn [fst snd].
    destruct (Spec.is_content er ur).
    + destruct Hstore as (ecell & ucell & id & r & _ & _ & _ & _ & _ & ->).
      exists (r :: added). rewrite Hout. unfold Scrape.store.
      rewrite <- app_assoc. split; [reflexivity|].
      cbn [length]. split; [lia|].
      intros Hend. destruct (Hok Hend) as [Hlen Hcount]. lia.
    + subst c'. exists added. split; [exact Hout|].
      split; [exact Hle|].
      intros Hend. destruct (Hok Hend) as [Hlen Hcount].
      cbn [length]. lia.
Qed.

Lemma main_classify_fixed (c c1 : Main.course) (block : str) :
  Main.classify c block = Ok c1 ->
  (Main.c_title c1, Main.c_description c1, Main.c_department c1,
   Main.c_course_code c1, Main.c_course_id c1, Main.c_units c1,
   Main.c_course_level c1)
  = (Main.c_title c, Main.c_description c, Main.c_department c,
     Main.c_course_code c, Main.c_course_id c, Main.c_units c,
     Main.c_course_level c).
Proof.
  unfold Main.classify.
  repeat match goal with
         | |- context [if ?b then _ else _] => destruct b
         end;
    try (intros Heq; injection Heq as <-; reflexivity).
  destruct (index (split (lit ":") block) 1); simpl;
    [discriminate | intros Heq; injection Heq as <-; reflexivity].
Qed.

Lemma main_classify_loop_fixed (blocks : list str) (c c' : Main.course) :
  for_each Main.classify blocks c = Ok c' ->
  (Main.c_title c', Main.c_description c', Main.c_department c',
   Main.c_course_code c', Main.c_course_id c', Main.c_units c',
   Main.c_course_level c')
  = (Main.c_title c, Main.c_description c, Main.c_department c,
     Main.c_course_code c, Main.c_course_id c, Main.c_units c,
     Main.c_course_level c).
Proof.
  revert c. induction blocks as [|b blocks IH]; intros c; simpl.
  - intros Heq. injection Heq as <-. reflexivity.
  - destruct (Main.classify c b) as [e|c1] eqn:Hb; simpl; [discriminate|].
    intros Hrest. rewrite (IH _ Hrest). apply (main_classify_fixed _ _ _ Hb).
Qed.

Lemma main_info_fields (cell : td) (id : Z) (department : str)
    (c : Main.course) :
  Main.get_course_info cell id department = Ok c ->
  Main.c_course_id c = id /\ Main.c_department c = department.
Proof.
  unfold Main.get_course_info.
  destruct (h3_text cell) as [h3|]; cbn [bind Ok Raise]; [|discriminate].
  destruct (parse_header (strip h3)) as [e|[[code title] units]];
    cbn [bind]; [discriminate|].
  destruct (hr_next_siblings cell) as [siblings|]; cbn [bind Ok Raise];
    [|discriminate].
  destruct (index (segment (fun b => b) siblings) 0) as [e|block0];
    cbn [bind]; [discriminate|].
  match goal with
  | |- context [for_each Main.classify ?bs ?c0] =>
      destruct (for_each Main.classify bs c0) as [e|c1] eqn:Hloop
  end; cbn [bind]; [discriminate|].
  destruct (course_level code) as [e|level]; cbn [bind]; [discriminate|].
  intros Heq. injection Heq as <-.
  apply main_classify_loop_fixed in Hloop. cbn in Hloop.
  injection Hloop as _ _ Hdep _ Hid _ _.
  cbn. split; assumption.
Qed.

(** A collection of [main.py] and a later one: every key still has a
    record, and a key whose record is not the one it had is the decimal
    notation of an identifier. *)
Lemma main_loop_keeps (e u : list tr) (s : str)
    (courses : gmap str Main.course) (k : str) :
  (loop_rows Main.get_course_info Main.store e u s courses).1 !! k
  = courses !! k
  \/ (is_Some
        ((loop_rows Main.get_course_info Main.store e u s courses).1 !! k)
      /\ exists id, k = str_of_int id).
Proof.
  revert k.
  apply (loop_rows_keeps Main.get_course_info Main.store
           (fun c c' : gmap str Main.course =>
              forall k, c' !! k = c !! k
                        \/ (is_Some (c' !! k)
                            /\ exists id, k = str_of_int id))).
  - intros c k. left. reflexivity.
  - intros a b c Hab Hbc k.
    destruct (Hbc k) as [Heq|Hnew]; [|right; exact Hnew].
    rewrite Heq. apply Hab.
  - intros c id r k. unfold Main.store.
    destruct (decide (str_of_int id = k)) as [<-|Hne].
    + right. rewrite lookup_insert_eq. split; [eexists; reflexivity|].
      exists id. reflexivity.
    + left. apply lookup_insert_ne. exact Hne.
Qed.

End Pages.

(** *** The [except] clause of a page *)

Lemma except_clause_index_error {A} (expanded_url : str) :
  @except_clause A expanded_url IndexError = Raise IndexError.
Proof.
  unfold except_clause, index.
  destruct (nth_error (split (lit "cpage=") expanded_url) 1) as [after|];
    cbn [bind Ok Raise]; [|reflexivity].
  destruct (nth_error (split (lit "&") after) 0); reflexivity.
Qed.

Lemma except_clause_no_cpage {A} (expanded_url : str) (e : exn) :
  contains expanded_url (lit "cpage=") = false ->
  @except_clause A expanded_url e = Raise IndexError.
Proof.
  intros Hno. unfold except_clause.
  rewrite (split_absent (lit "cpage=") expanded_url) by
    (discriminate || exact Hno).
  reflexivity.
Qed.

Lemma except_clause_raises {A} (expanded_url : str) (e : exn) :
  @except_clause A expanded_url e = Raise e
  \/ @except_clause A expanded_url e = Raise IndexError.
Proof.
  unfold except_clause, index.
  destruct (nth_error (split (lit "cpage=") expanded_url) 1) as [after|];
    cbn [bind Ok Raise]; [|right; reflexivity].
  destruct (nth_error (split (lit "&") after) 0); cbn [bind Ok Raise];
    [left | right]; reflexivity.
Qed.

(** No URL of the two scripts holds "cpage=": the page number follows
    "filter[cpage]=". *)
Lemma scrape_urls_no_cpage (expanded_url : str) :
  In expanded_url Scrape.EXPANDED_URLS ->
  contains expanded_url (lit "cpage=") = false.
Proof.
  assert (Hall : forallb (fun u => negb (contains u (lit "cpage=")))
                   Scrape.EXPANDED_URLS = true)
    by (vm_compute; reflexivity).
  intros Hin. apply negb_true_iff.
  apply (proj1 (forallb_forall _ _) Hall expanded_url Hin).
Qed.

Lemma main_urls_no_cpage (expanded_url : str) :
  In expanded_url Main.EXPANDED_URLS ->
  contains expanded_url (lit "cpage=") = false.
Proof.
  assert (Hall : forallb (fun u => negb (contains u (lit "cpage=")))
                   Main.EXPANDED_URLS = true)
    by (vm_compute; reflexivity).
  intros Hin. apply negb_true_iff.
  apply (proj1 (forallb_forall _ _) Hall expanded_url Hin).
Qed.

(** What [process_page] hands back, from what its [try] block does. *)
Lemma through_except {C} (expanded_url : str) (tried : C * result unit) :
  let page :=
    match tried.2 with
    | inr done => (tried.1, Ok done)
    | inl e => (tried.1, except_clause expanded_url e)
    end in
  page.1 = tried.1
  /\ (page.2 = Ok tt -> tried.2 = Ok tt)
  /\ (tried.2 = Raise IndexError -> page.2 = Raise IndexError)
  /\ (forall e, page.2 = Raise e ->
                exists e0, tried.2 = Raise e0 /\ (e = e0 \/ e = IndexError))
  /\ (contains expanded_url (lit "cpage=") = false ->
      page.2 = Ok tt \/ page.2 = Raise IndexError).
Proof.
  destruct tried as [c [e|[]]]; cbn [fst snd].
  - split; [reflexivity|].
    split.
    { destruct (except_clause_raises (A := unit) expanded_url e) as [-> | ->];
        discriminate. }
    split.
    { intros Heq. injection Heq as ->. apply except_clause_index_error. }
    split.
    { intros e' Hraise. exists e. split; [reflexivity|].
      destruct (except_clause_raises (A := unit) expanded_url e)
        as [Heq|Heq]; rewrite Heq in Hraise; injection Hraise as <-;
        [left | right]; reflexivity. }
    intros Hno. right. apply except_clause_no_cpage. exact Hno.
  - split; [reflexivity|]. split; [reflexivity|].
    split; [discriminate|]. split; [discriminate|].
    intros _. left. reflexivity.
Qed.

(** X14: a page of [scrape.py], run on its own.  With no table of class
    "table_default" in one of the two pages it raises [IndexError] and the
    list is as it was.  A page that raises hands on the exception of its
    [try] block or the [IndexError] of its own [except] clause, and for
    every URL of the script it is that [IndexError], whatever went wrong:
    the URLs hold "filter[cpage]=", not "cpage=".  With a table in both
    pages, the list after the page is the list before it followed by the
    records appended, whether the page ends well or raises; at most one
    record is appended for each pair of rows with two cells on both sides,
    and when the page ends well the two tables have as many rows and
    exactly one record was appended for each such pair. *)
Theorem scrape_page_appends `{Unicode} (expanded_url : str)
    (expanded_tables unexpanded_tables : list (list tr))
    (courses : list RawCourse) :
  (expanded_tables = [] \/ unexpanded_tables = [] ->
   Scrape.process_page expanded_url expanded_tables unexpanded_tables courses
   = (courses, Raise IndexError))
  /\ (In expanded_url Scrape.EXPANDED_URLS ->
      (Scrape.process_page expanded_url expanded_tables unexpanded_tables
         courses).2 = Ok tt
      \/ (Scrape.process_page expanded_url expanded_tables unexpanded_tables
            courses).2 = Raise IndexError)
  /\ (forall expanded unexpanded,
        last expanded_tables = Some expanded ->
        last unexpanded_tables = Some unexpanded ->
        (forall e,
           (Scrape.process_page expanded_url expanded_tables
              unexpanded_tables courses).2 = Raise e ->
           exists e0,
             (Scrape.loop_through_courses expanded unexpanded courses).2
             = Raise e0
             /\ (e = e0 \/ e = IndexError))
        /\ exists added,
            (Scrape.process_page expanded_url expanded_tables
               unexpanded_tables courses).1 = courses ++ added
            /\ (length added
                <= length (List.filter (fun p => Spec.is_content p.1 p.2)
                             (combine expanded unexpanded)))%nat
            /\ ((Scrape.process_page expanded_url expanded_tables
                   unexpanded_tables courses).2 = Ok tt ->
                length expanded = length unexpanded
                /\ length added
                   = length (List.filter
                               (fun p => Spec.is_content p.1 p.2)
                               (combine expanded unexpanded)))).
Proof.
  unfold Scrape.process_page, get_courses_table. cbv zeta.
  split; [|split].
  - intros [-> | ->].
    + cbn [last fst snd Ok Raise]. rewrite except_clause_index_error.
      reflexivity.
    + destruct (last expanded_tables); cbn [last fst snd Ok Raise];
        rewrite except_clause_index_error; reflexivity.
  - intros Hin.
    match goal with
    | |- context [match ?tried.2 with _ => _ end] =>
        destruct (through_except expanded_url tried) as (_ & _ & _ & _ & Hend)
    end.
    apply Hend, scrape_urls_no_cpage, Hin.
  - intros expanded unexpanded Hexpanded Hunexpanded.
    rewrite Hexpanded, Hunexpanded.
    destruct (through_except expanded_url
                (Scrape.loop_through_courses expanded unexpanded courses))
      as (Hfst & Hok & _ & Hraise & _).
    split; [exact Hraise|].
    destruct (scrape_loop_appends expanded unexpanded [] courses)
      as (added & Hout & Hle & Hdone).
    exists added.
    split; [exact (eq_trans Hfst Hout)|]. split; [exact Hle|].
    intros Hend. apply Hdone, Hok, Hend.
Qed.

(** X15: a page of [main.py], run on its own.  With no table of class
    "table_default" in one of the two pages it raises [IndexError] and the
    dict is as it was.  For every URL of the script a page ends well or
    raises [IndexError], whatever went wrong in it, since its [except]
    clause looks for "cpage=" in a URL that holds "filter[cpage]=".  In
    every case, whether the page ends well or raises, a key of the dict
    after the page either holds what it held before, or holds a record and
    is the decimal notation of an identifier: no key is removed. *)
Theorem main_page_keeps `{Unicode} (expanded_url : str)
    (expanded_tables unexpanded_tables : list (list tr))
    (courses : gmap str Main.course) :
  (expanded_tables = [] \/ unexpanded_tables = [] ->
   Main.process_page expanded_url expanded_tables unexpanded_tables courses
   = (courses, Raise IndexError))
  /\ (In expanded_url Main.EXPANDED_URLS ->
      (Main.process_page expanded_url expanded_tables unexpanded_tables
         courses).2 = Ok tt
      \/ (Main.process_page expanded_url expanded_tables unexpanded_tables
            courses).2 = Raise IndexError)
  /\ (forall k,
        (Main.process_page expanded_url expanded_tables unexpanded_tables
           courses).1 !! k = courses !! k
        \/ (is_Some
              ((Main.process_page expanded_url expanded_tables
                  unexpanded_tables courses).1 !! k)
            /\ exists id, k = str_of_int id)).
Proof.
  unfold Main.process_page, get_courses_table. cbv zeta.
  split; [|split].
  - intros [-> | ->].
    + cbn [last fst snd Ok Raise]. rewrite except_clause_index_error.
      reflexivity.
    + destruct (last expanded_tables); cbn [last fst snd Ok Raise];
        rewrite except_clause_index_error; reflexivity.
  - intros Hin.
    match goal with
    | |- context [match ?tried.2 with _ => _ end] =>
        destruct (through_except expanded_url tried) as (_ & _ & _ & _ & Hend)
    end.
    apply Hend, main_urls_no_cpage, Hin.
  - intros k.
    match goal with
    | |- context [match ?tried.2 with _ => _ end] => set (t := tried)
    end.
    assert (Hk : t.1 !! k = courses !! k
                 \/ (is_Some (t.1 !! k) /\ exists id, k = str_of_int id)).
    { subst t.
      destruct (last expanded_tables) as [expanded|];
        [|left; reflexivity].
      destruct (last unexpanded_tables) as [unexpanded|];
        [|left; reflexivity].
      cbn [Ok]. apply main_loop_keeps. }
    destruct t as [c [e|[]]]; exact Hk.
Qed.

(** X16: in a table walked to the end by [scrape.py], a pair of rows with
    two cells on both sides, at the same position in the two tables, leaves
    a record in the list: the one built from the second cell of the
    expanded row, with the identifier read from the second cell of the
    unexpanded row, and its department is the label in effect after the rows
    above it. *)
Theorem scrape_content_row_recorded `{Unicode} (e1 e2 u1 u2 : list tr)
    (er ur : tr) (courses out : list RawCourse) :
  Scrape.loop_through_courses (e1 ++ er :: e2) (u1 ++ ur :: u2) courses
  = (out, Ok tt) ->
  length e1 = length u1 ->
  Spec.is_content er ur = true ->
  exists ecell ucell raw,
    nth_error (tds er) 1 = Some ecell
    /\ nth_error (tds ur) 1 = Some ucell
    /\ get_course_id ucell = Ok (raw_course_id raw)
    /\ Scrape.get_course_info ecell (raw_course_id raw)
         (Spec.label_after e1 []) = Ok raw
    /\ raw_department raw = Spec.label_after e1 []
    /\ In raw out.
Proof.
  unfold Scrape.loop_through_courses. intros Hloop Hlen Hcontent.
  destruct (loop_rows_content_row _ _ _ _ _ _ _ _ _ _ _ Hlen Hcontent Hloop)
    as (ecell & ucell & id & r & c1 & He & Hu & Hid & Hr & Hrest).
  destruct (scrape_info_fields _ _ _ _ Hr) as [Hrid Hrdep].
  exists ecell, ucell, r. rewrite Hrid.
  split; [exact He|]. split; [exact Hu|]. split; [exact Hid|].
  split; [exact Hr|]. split; [exact Hrdep|].
  destruct (scrape_loop_appends e2 u2 (Spec.label_after e1 [])
              (Scrape.store c1 id r)) as (added & Hout & _).
  rewrite Hrest in Hout. cbn [fst] in Hout. rewrite Hout.
  unfold Scrape.store. apply in_or_app. left. apply in_or_app. right.
  left. reflexivity.
Qed.

Lemma scrape_content_row_recorded_witness :
  exists ecell ucell raw,
    nth_error (tds sample_expanded_row) 1 = Some ecell
    /\ nth_error (tds sample_unexpanded_row) 1 = Some ucell
    /\ @get_course_id ascii_tables ucell = Ok (raw_course_id raw)
    /\ @Scrape.get_course_info ascii_tables ecell (raw_course_id raw)
         (Spec.label_after [sample_spacer_row] []) = Ok raw
    /\ raw_department raw = Spec.label_after [sample_spacer_row] []
    /\ In raw [sample_row_raw].
Proof.
  apply (@scrape_content_row_recorded ascii_tables
           [sample_spacer_row] [] [sample_spacer_row] []
           sample_expanded_row sample_unexpanded_row [] [sample_row_raw]).
  - vm_compute. reflexivity.
  - reflexivity.
  - reflexivity.
Defined.

(** X17: the same in [main.py]: the pair of rows leaves the key of its
    identifier in the dict, and the record built for it has that identifier
    and, as department, the label in effect after the rows above it. *)
Theorem main_content_row_recorded `{Unicode} (e1 e2 u1 u2 : list tr)
    (er ur : tr) (courses out : gmap str Main.course) :
  Main.loop_through_courses (e1 ++ er :: e2) (u1 ++ ur :: u2) courses
  = (out, Ok tt) ->
  length e1 = length u1 ->
  Spec.is_content er ur = true ->
  exists ecell ucell id c,
    nth_error (tds er) 1 = Some ecell
    /\ nth_error (tds ur) 1 = Some ucell
    /\ get_course_id ucell = Ok id
    /\ Main.get_course_info ecell id (Spec.label_after e1 []) = Ok c
    /\ Main.c_course_id c = id
    /\ Main.c_department c = Spec.label_after e1 []
    /\ is_Some (out !! str_of_int id).
Proof.
  unfold Main.loop_through_courses. intros Hloop Hlen Hcontent.
  destruct (loop_rows_content_row _ _ _ _ _ _ _ _ _ _ _ Hlen Hcontent Hloop)
    as (ecell & ucell & id & c & c1 & He & Hu & Hid & Hc & Hrest).
  destruct (main_info_fields _ _ _ _ Hc) as [Hcid Hcdep].
  exists ecell, ucell, id, c.
  split; [exact He|]. split; [exact Hu|]. split; [exact Hid|].
  split; [exact Hc|]. split; [exact Hcid|]. split; [exact Hcdep|].
  pose proof (main_loop_keeps e2 u2 (Spec.label_after e1 [])
                (Main.store c1 id c) (str_of_int id)) as Hkeeps.
  rewrite Hrest in Hkeeps. cbn [fst] in Hkeeps.
  destruct Hkeeps as [Heq|[Hsome _]]; [|exact Hsome].
  rewrite Heq, store_lookup, Z.eqb_refl. eexists. reflexivity.
Qed.

Lemma main_content_row_recorded_witness :
  exists ecell ucell id c,
    nth_error (tds sample_expanded_row) 1 = Some ecell
    /\ nth_error (tds sample_unexpanded_row) 1 = Some ucell
    /\ @get_course_id ascii_tables ucell = Ok id
    /\ @Main.get_course_info ascii_tables ecell id
         (Spec.label_after [sample_spacer_row] []) = Ok c
    /\ Main.c_course_id c = id
    /\ Main.c_department c = Spec.label_after [sample_spacer_row] []
    /\ is_Some (Main.store ∅ 594896 sample_row_course !! str_of_int id).
Proof.
  apply (@main_content_row_recorded ascii_tables
           [sample_spacer_row] [] [sample_spacer_row] []
           sample_expanded_row sample_unexpanded_row ∅
           (Main.store ∅ 594896 sample_row_course)).
  - unfold Main.loop_through_courses. cbn [app loop_rows].
    unfold row_body at 1.
    cbn [Soup.tds sample_spacer_row length Nat.eqb negb orb head].
    cbn [loop_rows]. unfold row_body.
    cbn [Soup.tds sample_expanded_row sample_unexpanded_row
      length Nat.eqb negb orb index nth_error bind Ok].
    rewrite sample_row_id. cbn [bind Ok]. rewrite sample_row_main.
    reflexivity.
  - reflexivity.
  - reflexivity.
Defined.



(** ** The run of reprocess.py *)

Section ReprocessRun.
Context `{Unicode}.

Lemma reprocess_loop_ok (data : list RawCourse)
    (acc out : list ProcessedCourse) :
  for_each
    (fun processed_courses course =>
       let* processed := Reprocess.reprocess_course course in
       Ok (processed_courses ++ [processed])) data acc = Ok out
  <-> exists more,
        out = acc ++ more
        /\ Forall2 (fun course processed =>
                      Reprocess.reprocess_course course = Ok processed)
             data more.
Proof.
  revert acc. induction data as [|course data IH]; intros acc;
    cbn [for_each].
  - split.
    + intros Heq. injection Heq as <-. exists [].
      rewrite app_nil_r. split; [reflexivity | constructor].
    + intros (more & -> & Hall). inversion Hall; subst.
      rewrite app_nil_r. reflexivity.
  - destruct (Reprocess.reprocess_course course) as [e|p] eqn:Hcourse;
      cbn [bind Ok].
    + split; [discriminate|].
      intros (more & _ & Hall).
      inversion Hall as [|c0 p0 data0 more0 Hhead Htail]; subst.
      rewrite Hcourse in Hhead. discriminate.
    + rewrite IH. split.
      * intros (more & -> & Hall). exists (p :: more).
        rewrite <- app_assoc. split; [reflexivity|].
        constructor; assumption.
      * intros (more & -> & Hall).
        inversion Hall as [|c0 p0 data0 more0 Hhead Htail]; subst.
        rewrite Hcourse in Hhead. injection Hhead as ->.
        exists more0. rewrite <- app_assoc. split; [reflexivity|].
        exact Htail.
Qed.

Lemma reprocess_loop_raises (data : list RawCourse)
    (acc : list ProcessedCourse) (e : exn) :
  for_each
    (fun processed_courses course =>
       let* processed := Reprocess.reprocess_course course in
       Ok (processed_courses ++ [processed])) data acc = Raise e
  <-> exists before course after,
        data = before ++ course :: after
        /\ List.Forall
             (fun c => is_ok (Reprocess.reprocess_course c) = true) before
        /\ Reprocess.reprocess_course course = Raise e.
Proof.
  revert acc. induction data as [|course data IH]; intros acc;
    cbn [for_each].
  - split; [discriminate|].
    intros (before & c & after & Heq & _). destruct before; discriminate.
  - destruct (Reprocess.reprocess_course course) as [e0|p] eqn:Hcourse;
      cbn [bind Ok].
    + split.
      * intros Heq. injection Heq as <-.
        exists [], course, data. repeat split; [constructor | exact Hcourse].
      * intros (before & c & after & Heq & Hall & Hraise).
        destruct before as [|b before]; injection Heq as <- Hdata.
        -- rewrite Hcourse in Hraise. injection Hraise as ->.
           reflexivity.
        -- inversion Hall as [|b' l' Hb _]; subst.
           rewrite Hcourse in Hb. discriminate.
    + rewrite IH. split.
      * intros (before & c & after & -> & Hall & Hraise).
        exists (course :: before), c, after.
        split; [reflexivity|]. split; [|exact Hraise].
        constructor; [rewrite Hcourse; reflexivity | exact Hall].
      * intros (before & c & after & Heq & Hall & Hraise).
        destruct before as [|b before]; injection Heq as <- Hdata.
        -- rewrite Hcourse in Hraise. discriminate.
        -- exists before, c, after. split; [exact Hdata|].
           split; [inversion Hall; assumption | exact Hraise].
Qed.

End ReprocessRun.

(** X19: the run of [reprocess.py] returns a list exactly when every raw
    record can be reprocessed, and the list then holds the structured
    record of each raw record, in the order of the input; it raises exactly
    the exception of the first raw record that cannot be reprocessed, so
    that one such record leaves no output at all. *)
Theorem reprocess_all_outcome `{Unicode} (data : list RawCourse) :
  (forall out,
     Reprocess.reprocess_all data = Ok out
     <-> Forall2 (fun course processed =>
                    Reprocess.reprocess_course course = Ok processed)
           data out)
  /\ (forall e,
        Reprocess.reprocess_all data = Raise e
        <-> exists before course after,
              data = before ++ course :: after
              /\ List.Forall
                   (fun c => is_ok (Reprocess.reprocess_course c) = true)
                   before
              /\ Reprocess.reprocess_course course = Raise e).
Proof.
  unfold Reprocess.reprocess_all. split.
  - intros out. rewrite reprocess_loop_ok. split.
    + intros (more & -> & Hall). exact Hall.
    + intros Hall. exists out. split; [reflexivity | exact Hall].
  - intros e. apply reprocess_loop_raises.
Qed.

(** ** One pass and two passes *)

Lemma strip_forall (P : N -> Prop) (s : str) :
  Forall P s -> Forall P (strip s).
Proof.
  intros Hs. unfold strip, rstrip, lstrip.
  apply List.Forall_rev, dropwhile_forall, List.Forall_rev, dropwhile_forall.
  exact Hs.
Qed.

Lemma br_groups_forall (P : node -> Prop) (siblings : list node) :
  Forall P siblings -> Forall (Forall P) (Spec.br_groups siblings).
Proof.
  intros Hall. induction Hall as [|n siblings Hn _ IH];
    cbn [Spec.br_groups].
  - constructor; constructor.
  - destruct n as [|t].
    + constructor; [constructor | exact IH].
    + destruct (Spec.br_groups siblings) as [|g gs].
      * constructor; [|constructor]. constructor; [exact Hn | constructor].
      * inversion IH as [|g' gs' Hg Hgs]; subst.
        constructor; [constructor; assumption | assumption].
Qed.

Lemma visible_texts_forall (P : N -> Prop) (siblings : list node) :
  Forall (fun n => Forall P (Spec.node_text n)) siblings ->
  Forall (Forall P) (Spec.visible_texts siblings).
Proof.
  unfold Spec.visible_texts. intros Hall.
  induction Hall as [|n siblings Hn _ IH]; cbn [map];
    [constructor|].
  rewrite filter_cons_if.
  destruct (nonempty (strip (Spec.node_text n))); [|exact IH].
  constructor; [apply strip_forall; exact Hn | exact IH].
Qed.

Lemma join_space_forall (P : N -> Prop) (texts : list str) :
  P 32%N -> Forall (Forall P) texts -> Forall P (Spec.join_space texts).
Proof.
  intros Hspace Hall.
  induction Hall as [|t rest Ht Hrest IH]; cbn [Spec.join_space];
    [constructor|].
  destruct rest as [|t' rest']; [exact Ht|].
  apply Forall_app. split; [exact Ht|].
  constructor; [exact Hspace | exact IH].
Qed.

Lemma ascii_text_unmapped (s : str) :
  forallb (fun c => (c <? 128)%N) s = true -> Forall Spec.unmapped s.
Proof.
  intros Hs. apply List.Forall_forall. intros c Hc.
  apply ascii_unmapped. apply N.ltb_lt.
  apply (proj1 (forallb_forall _ s) Hs c Hc).
Qed.

(** The blocks of a fragment whose texts hold no character of the
    substitution table hold none either, so that the normaliser leaves them
    as they are. *)
Lemma segment_unmapped (clean : str -> str) (siblings : list node) :
  Forall (fun n => Forall Spec.unmapped (Spec.node_text n)) siblings ->
  Forall (Forall Spec.unmapped)
    (List.filter nonempty (map Spec.joined_text (Spec.br_groups siblings))).
Proof.
  intros Hall. apply List.Forall_forall. intros b Hb.
  apply List.filter_In in Hb as [Hb _].
  apply List.in_map_iff in Hb as (g & <- & Hg).
  unfold Spec.joined_text. apply join_space_forall.
  - apply ascii_unmapped. reflexivity.
  - apply visible_texts_forall.
    pose proof (br_groups_forall _ _ Hall) as Hgroups.
    apply (proj1 (List.Forall_forall _ _) Hgroups g Hg).
Qed.

Lemma segment_translate (siblings : list node) :
  Forall (fun n => Forall Spec.unmapped (Spec.node_text n)) siblings ->
  segment translate siblings = segment (fun b => b) siblings.
Proof.
  intros Hall. rewrite !segment_groups.
  apply List.map_ext_in. intros b Hb.
  apply translate_unmapped_id.
  apply (proj1 (List.Forall_forall _ _)
           (segment_unmapped translate siblings Hall) b Hb).
Qed.

Lemma segment_trimmed (siblings : list node) :
  Forall (fun b => strip b = b) (segment (fun b => b) siblings).
Proof.
  unfold segment. apply walk_siblings_invariant; [|constructor].
  intros s _. apply strip_strip.
Qed.

Lemma parse_header_trimmed (header code title units : str) :
  parse_header header = Ok (code, title, units) ->
  strip code = code /\ strip title = title.
Proof.
  intros Hparse.
  destruct (in_dec N.eq_dec 45%N header) as [Hin|Hno].
  2:{ rewrite (parse_header_no_dash header Hno) in Hparse. discriminate. }
  destruct (in_first_split _ _ Hin) as (before & after & -> & Hb).
  rewrite (parse_header_dash before after Hb) in Hparse.
  injection Hparse as <- <- <-. split; apply strip_strip.
Qed.

Section Passes.
Context `{Unicode}.

(** The two classification loops, from records that agree on the five
    fields. *)
Lemma classify_loops_agree_from (blocks : list str) (c : Main.course)
    (pc : ProcessedCourse) :
  Spec.fields_of_main c = Spec.fields_of_reprocess pc ->
  List.Forall
    (fun b => startswith (lower b) (lit "typically offered") = true ->
              startswith (lower b) (lit "typically offered:") = true)
    blocks ->
  match for_each Main.classify blocks c,
        for_each Reprocess.classify blocks pc with
  | inr c', inr pc' => Spec.fields_of_main c' = Spec.fields_of_reprocess pc'
  | inl e, inl e' => e = e'
  | _, _ => False
  end.
Proof.
  intros Hf Hall. revert c pc Hf.
  induction Hall as [|b blocks Hb _ IH]; intros c pc Hf; cbn [for_each].
  - exact Hf.
  - pose proof (classify_step_agree b c pc Hf Hb) as Hstep.
    destruct (Main.classify c b) as [e|c1],
      (Reprocess.classify pc b) as [e'|pc1]; cbn [bind];
      try contradiction; [exact Hstep | apply IH; exact Hstep].
Qed.

End Passes.

(** X20: on a cell whose header and texts hold no character of the
    substitution table, and where every block after the first whose
    lowercase form starts with "typically offered" has a colon right after
    these words, the one pass of [main.py] and the two passes of
    [scrape.py] and [reprocess.py] end alike: both raise, or both return a
    record, with the same title, description, department, code, identifier,
    units and level and the same five classified fields (a key absent from
    the dict of [main.py] read as the default of [reprocess.py]). *)
Theorem one_pass_two_passes `{Unicode} (cell : td) (id : Z)
    (department : str) :
  (forall t, h3_text cell = Some t -> Forall Spec.unmapped t) ->
  (forall siblings,
     hr_next_siblings cell = Some siblings ->
     Forall (fun n => Forall Spec.unmapped (Spec.node_text n)) siblings
     /\ List.Forall
          (fun b => startswith (lower b) (lit "typically offered") = true ->
                    startswith (lower b) (lit "typically offered:") = true)
          (skipn 1 (segment (fun b => b) siblings))) ->
  match Main.get_course_info cell id department,
        (let* raw := Scrape.get_course_info cell id department in
         Reprocess.reprocess_course raw) with
  | inr c, inr p =>
      Spec.same_course c p
      /\ Main.c_course_level c = Some (pc_course_level p)
  | inl _, inl _ => True
  | _, _ => False
  end.
Proof.
  intros Hheader Hsiblings.
  unfold Main.get_course_info, Scrape.get_course_info.
  change (fun b : str => (clean_text b).2) with translate.
  destruct (h3_text cell) as [h3|]; cbn [bind Ok Raise];
    [|exact I].
  change ((clean_text (strip h3)).2) with (translate (strip h3)).
  specialize (Hheader h3 eq_refl).
  rewrite (translate_unmapped_id (strip h3))
    by (apply strip_forall; exact Hheader).
  destruct (hr_next_siblings cell) as [siblings|]; cbn [bind Ok Raise].
  2:{ destruct (parse_header (strip h3)) as [e|[[code title] units]];
        exact I. }
  destruct (Hsiblings siblings eq_refl) as [Htexts Hcolon].
  rewrite (segment_translate siblings Htexts).
  unfold Reprocess.reprocess_course. cbn [raw_header raw_blocks
    raw_course_id raw_department].
  pose proof (segment_trimmed siblings) as Htrimmed.
  set (blocks := segment (fun b => b) siblings) in *.
  destruct (parse_header (strip h3)) as [e|[[code title] units]] eqn:Hparse;
    cbn [bind]; [exact I|].
  destruct (parse_header_trimmed _ _ _ _ Hparse) as [Hcode Htitle].
  destruct (course_level code) as [e|level]; cbn [bind].
  { destruct (index blocks 0) as [e0|block0]; cbn [bind]; [exact I|].
    match goal with
    | |- context [for_each Main.classify ?bs ?c0] =>
        destruct (for_each Main.classify bs c0)
    end; exact I. }
  destruct blocks as [|block0 blocks'];
    cbn [index nth_error bind Ok Raise skipn drop] in *; [exact I|].
  inversion Htrimmed as [|b0 bs0 Hblock0 _]; subst.
  change (drop 0 blocks') with blocks' in *.
  match goal with
  | |- context [for_each Main.classify blocks' ?c0] =>
      match goal with
      | |- context [for_each Reprocess.classify blocks' ?pc0] =>
          pose proof (classify_loops_agree_from blocks' c0 pc0 eq_refl
                        Hcolon) as Hloops;
          destruct (for_each Main.classify blocks' c0) as [e|c'] eqn:Hmain;
          destruct (for_each Reprocess.classify blocks' pc0)
            as [e'|pc'] eqn:Hre
      end
  end; cbn [bind]; try contradiction; [exact I|].
  apply main_classify_loop_fixed in Hmain. cbn in Hmain.
  injection Hmain as Ht Hd Hdep Hc Hid Hu Hl.
  apply classify_loop_fixed in Hre. cbn in Hre.
  injection Hre as Hpid Hpdep Hplevel Hptitle Hpdesc Hpcode Hpunits.
  unfold Spec.same_course. cbn.
  rewrite Ht, Hd, Hdep, Hc, Hid, Hu, Hpid, Hpdep, Hplevel, Hptitle, Hpdesc,
    Hpcode, Hpunits, Hcode, Htitle, Hblock0.
  repeat split. exact Hloops.
Qed.

Lemma one_pass_two_passes_witness :
  match @Main.get_course_info ascii_tables sample_expanded_cell 594896 [],
        (let* raw :=
           @Scrape.get_course_info ascii_tables sample_expanded_cell
             594896 [] in
         @Reprocess.reprocess_course ascii_tables raw) with
  | inr c, inr p =>
      Spec.same_course c p
      /\ Main.c_course_level c = Some (pc_course_level p)
  | inl _, inl _ => True
  | _, _ => False
  end.
Proof.
  apply (@one_pass_two_passes ascii_tables sample_expanded_cell 594896 []).
  - intros t Ht. injection Ht as <-. apply ascii_text_unmapped.
    reflexivity.
  - intros siblings Hs. injection Hs as <-. split.
    + repeat constructor; apply ascii_text_unmapped; reflexivity.
    + constructor; [|constructor]. vm_compute. discriminate.
Defined.

(** ** The normaliser applied twice *)

(** A character that is reported is in the normalised text exactly when it
    is in the text. *)
Lemma translate_unknown_in (c : N) (text : str) :
  is_unknown c = true -> (In c (translate text) <-> In c text).
Proof.
  unfold is_unknown. intros Hc. apply andb_true_iff in Hc as [Hhigh Hmap].
  apply N.ltb_lt in Hhigh. apply bool_decide_eq_true in Hmap.
  induction text as [|x text IH]; [reflexivity|].
  change (translate (x :: text))
    with (default [x] (REPLACE_CHAR_MAP !! x) ++ translate text).
  rewrite in_app_iff, IH. cbn [In].
  assert (Hx : In c (default [x] (REPLACE_CHAR_MAP !! x)) <-> x = c).
  { destruct (REPLACE_CHAR_MAP !! x) as [v|] eqn:Hv; cbn [default].
    - split.
      + intros Hin. pose proof (replace_targets_ascii x v Hv) as Hascii.
        pose proof (proj1 (List.Forall_forall _ _) Hascii c Hin) as Hlow.
        cbv beta in Hlow. lia.
      + intros ->. unfold str in *. rewrite Hmap in Hv. discriminate.
    - cbn [In]. tauto. }
  rewrite Hx. reflexivity.
Qed.

Lemma unknown_chars_translate `{Unicode} (text : str) :
  unknown_chars (translate text) = unknown_chars text.
Proof.
  unfold unknown_chars. apply set_eq. intros c.
  rewrite !elem_of_list_to_set, !list_elem_of_filter, !list_elem_of_In.
  split; intros [Hc Hin]; (split; [exact Hc|]);
    apply (translate_unknown_in c text Hc); exact Hin.
Qed.

(** X21: [clean_text] applied to a text it has returned prints the lines it
    printed the first time and returns that text again: normalising
    neither silences nor adds a diagnostic. *)
Theorem clean_text_twice `{Unicode} (text : str) :
  clean_text (clean_text text).2 = clean_text text.
Proof.
  unfold clean_text, clean_text_printed. cbn [snd].
  rewrite unknown_chars_translate.
  rewrite (translate_unmapped_id (translate text) (translate_unmapped text)).
  reflexivity.
Qed.

(** ** clean.py *)

Section CleanRun.
Context `{Unicode} {O : Type} `{Clean.CourseObject O}.

Lemma clean_translate (text : str) : Clean.translate text = translate text.
Proof. reflexivity. Qed.

(** An object after the second pass, when reading the key gives back what
    was assigned to it. *)
Hypothesis description_set :
  forall (v : str) (obj : O),
    Clean.description (Clean.set_description v obj) = Some v.
Hypothesis set_description_twice :
  forall (v w : str) (obj : O),
    Clean.set_description v (Clean.set_description w obj)
    = Clean.set_description v obj.

Lemma clean_object_description (obj : O) :
  Clean.description (Clean.clean_object obj)
  = translate <$> Clean.description obj.
Proof using description_set.
  unfold Clean.clean_object.
  destruct (Clean.description obj) as [text|] eqn:Hd; cbn [fmap option_fmap option_map].
  - apply description_set.
  - exact Hd.
Qed.

Lemma clean_object_twice (obj : O) :
  Clean.clean_object (Clean.clean_object obj) = Clean.clean_object obj.
Proof using description_set set_description_twice.
  unfold Clean.clean_object at 1. rewrite clean_object_description.
  unfold Clean.clean_object.
  destruct (Clean.description obj) as [text|];
    cbn [fmap option_fmap option_map]; [|reflexivity].
  rewrite set_description_twice, clean_translate.
  rewrite (translate_unmapped_id (translate text) (translate_unmapped text)).
  reflexivity.
Qed.

Lemma unknown_of_clean_object (obj : O) (c : N) :
  In c (Clean.unknown_of (Clean.clean_object obj))
  <-> In c (Clean.unknown_of obj).
Proof using description_set.
  unfold Clean.unknown_of. rewrite clean_object_description.
  destruct (Clean.description obj) as [text|];
    cbn [fmap option_fmap option_map]; [|reflexivity].
  rewrite <- !list_elem_of_In, !list_elem_of_filter, !list_elem_of_In.
  split; intros [Hc Hin]; (split; [exact Hc|]);
    apply (translate_unknown_in c text Hc); exact Hin.
Qed.

Lemma unknown_chars_clean (data : list (str * O)) :
  Clean.unknown_chars
    (map (fun item => (item.1, Clean.clean_object item.2)) data)
  = Clean.unknown_chars data.
Proof using description_set.
  unfold Clean.unknown_chars. apply set_eq. intros c.
  rewrite !elem_of_list_to_set, !list_elem_of_In, !in_flat_map.
  split.
  - intros (item & Hitem & Hc). apply in_map_iff in Hitem as (item0 & <- & Hitem0).
    exists item0. split; [exact Hitem0|].
    cbn [snd] in Hc. apply unknown_of_clean_object. exact Hc.
  - intros (item & Hitem & Hc).
    exists (item.1, Clean.clean_object item.2). split.
    + apply in_map_iff. exists item. split; [reflexivity | exact Hitem].
    + cbn [snd]. apply unknown_of_clean_object. exact Hc.
Qed.

Lemma clean_run_twice (data : list (str * O)) :
  Clean.run (Clean.run data).2 = Clean.run data.
Proof using description_set set_description_twice.
  unfold Clean.run. cbn [snd].
  rewrite unknown_chars_clean, length_map, map_map. cbn [fst snd].
  f_equal. apply map_ext. intros item. rewrite clean_object_twice.
  reflexivity.
Qed.

Lemma clean_run_descriptions (data : list (str * O)) (k : str) (obj : O)
    (text : str) :
  In (k, obj) (Clean.run data).2 ->
  Clean.description obj = Some text ->
  Forall Spec.unmapped text.
Proof using description_set.
  unfold Clean.run. cbn [snd]. intros Hin Hd.
  apply in_map_iff in Hin as (item & Heq & _). injection Heq as _ <-.
  rewrite clean_object_description in Hd.
  destruct (Clean.description item.2) as [text0|];
    cbn [fmap option_fmap option_map] in Hd; [|discriminate].
  injection Hd as <-. apply translate_unmapped.
Qed.

End CleanRun.

(** X22: [clean.py] carries the substitution table of [modules/util.py].
    It keeps the keys of the file and their order, and, on objects whose
    key "description" reads back what is assigned to it, no description it
    writes holds a character of the table, and a run on the file it has
    written prints the same lines and writes the same file again. *)
Theorem clean_run_settles `{Unicode} {O : Type} `{Clean.CourseObject O}
    (data : list (str * O)) :
  (forall (v : str) (obj : O),
     Clean.description (Clean.set_description v obj) = Some v) ->
  (forall (v w : str) (obj : O),
     Clean.set_description v (Clean.set_description w obj)
     = Clean.set_description v obj) ->
  Clean.REPLACE_CHAR_ITEMS = REPLACE_CHAR_ITEMS
  /\ map fst (Clean.run data).2 = map fst data
  /\ (forall k obj text,
        In (k, obj) (Clean.run data).2 ->
        Clean.description obj = Some text ->
        Forall Spec.unmapped text)
  /\ Clean.run (Clean.run data).2 = Clean.run data.
Proof.
  intros Hget Hset. split; [reflexivity|]. split; [|split].
  - unfold Clean.run. cbn [snd]. rewrite map_map. apply map_ext.
    intros item. reflexivity.
  - intros k obj text. apply clean_run_descriptions. exact Hget.
  - apply clean_run_twice; assumption.
Qed.

Lemma clean_run_settles_witness :
  map fst (@Clean.run ascii_tables _ main_course_object
             [(lit "594896", sample_row_course)]).2
  = [lit "594896"].
Proof.
  exact (proj1 (proj2 (@clean_run_settles ascii_tables _ main_course_object
    [(lit "594896", sample_row_course)]
    (fun v obj => eq_refl) (fun v w obj => eq_refl)))).
Defined.

(** X23: for a cell from which both [main.py] and, in two passes,
    [scrape.py] and [reprocess.py] build a record, the description that
    [clean.py] writes for the record of [main.py] is the description of the
    record of [reprocess.py]. *)
Theorem cleaned_description_agrees `{Unicode} (cell : td) (id : Z)
    (department : str) (c : Main.course) (raw : RawCourse)
    (p : ProcessedCourse) :
  Main.get_course_info cell id department = Ok c ->
  Scrape.get_course_info cell id department = Ok raw ->
  Reprocess.reprocess_course raw = Ok p ->
  Clean.description (Clean.clean_object c) = Some (pc_description p).
Proof.
  intros Hmain Hscrape Hre.
  apply reprocess_course_fixed_fields_description in Hre.
  revert Hmain Hscrape.
  unfold Main.get_course_info, Scrape.get_course_info.
  change (fun b : str => (clean_text b).2) with translate.
  destruct (h3_text cell) as [h3|]; cbn [bind Ok Raise]; [|discriminate].
  destruct (parse_header (strip h3)) as [e|[[code title] units]];
    cbn [bind]; [discriminate|].
  destruct (hr_next_siblings cell) as [siblings|]; cbn [bind Ok Raise];
    [|discriminate].
  pose proof (segment_trimmed siblings) as Htrimmed.
  rewrite (segment_groups translate siblings).
  rewrite (segment_groups (fun b => b) siblings), map_id in Htrimmed |- *.
  destruct (List.filter nonempty
              (map Spec.joined_text (Spec.br_groups siblings)))
    as [|block0 blocks]; cbn [index nth_error bind Ok Raise];
    [discriminate|].
  inversion Htrimmed as [|b0 bs0 Hblock0 _]; subst.
  match goal with
  | |- context [for_each Main.classify ?bs ?c0] =>
      destruct (for_each Main.classify bs c0) as [e|c1] eqn:Hloop
  end; cbn [bind]; [discriminate|].
  destruct (course_level code) as [e|level]; cbn [bind]; [discriminate|].
  intros Hc Hraw. injection Hc as <-. injection Hraw as <-.
  cbn [raw_blocks map head] in Hre. injection Hre as <-.
  apply main_classify_loop_fixed in Hloop. cbn in Hloop.
  injection Hloop as _ Hd _ _ _ _ _.
  cbn. rewrite Hd, Hblock0. reflexivity.
Qed.

Lemma cleaned_description_agrees_witness :
  Clean.description (Clean.clean_object sample_row_course)
  = Some (lit "Accounting concepts and techniques.").
Proof.
  exact (@cleaned_description_agrees ascii_tables sample_expanded_cell
    594896 [] sample_row_course sample_row_raw
    (set_requires_dept_consent true
       {| pc_course_id := 594896;
          pc_department := [];
          pc_course_level := 201;
          pc_title := lit "Financial Accounting";
          pc_description := lit "Accounting concepts and techniques.";
          pc_course_code := lit "ACCT 201A";
          pc_units := lit "3";
          pc_prerequisites := [];
          pc_grad_credit := false;
          pc_available_online := false;
          pc_requires_dept_consent := false;
          pc_typically_offered := [] |})
    eq_refl eq_refl eq_refl).
Defined.
